(** * The e-commerce cleaning pipeline (clean__transform__pipeline.py)

    A shallow embedding of the cleaning and reconciliation pipeline: the
    field normalisers, the three cleaners, and the analytics pass, together
    with the pandas operations they are written with.

    Conventions of the embedding.
    - A data-frame cell is a [cell]: text, a float (the missing marker NaN
      is a float), an integer, a timestamp or NaT.  The missing marker of a
      nullable [Int64] column (pd.NA) is written [NaN]: every operation the
      pipeline applies to an id column (to_numeric, astype, dropna, isin,
      drop_duplicates, int()) treats the two alike.  pd.NA occurs in the
      Int64 columns only (the ids and stock_quantity), which no normaliser
      reads.
    - Object columns behave as in pandas 2: astype(str) turns a missing
      value into the text "nan".
    - A float is an IEEE 754 double.  A finite one is written in decimal:
      [FNum m e] is the double nearest to m * 10^e (ties to even), and what
      a computation returns is written with the digits [repr] prints.
      Products, sums and float(d) round as the hardware does; the zero
      with a minus sign, which prints as -0.0, is a float of its own
      ([FNegZero]).
    - .astype(int) gives 64-bit integers, .astype('Int64') refuses what
      does not fit them.
    - sort_values orders the rows by key; rows with equal keys come in the
      order the sorting routine of the library leaves them in
      ([sort_ranks]), the rows without a key last and in input order.
    - strip, lower and the regex classes are those of ASCII text:
      characters above 127 are neither spaces, digits nor upper-case
      letters.  What str.title makes of text that is not ASCII is left to
      the library ([unicode_title]).
    - A Python exception is a value [Raise e] of the result type [res];
      [try_except] is the try/except block.
    - What pandas and phonenumbers decide on their own (which strings are
      dates, numbers or valid phone numbers, how a timestamp prints) is a
      member of the class [Lib]; the theorems hold for every instance.
      [RefLib] is an instance used to run the pipeline on concrete frames.
      The reading of the clock is the argument [now] of clean_orders.

    The module [Generator] embeds the synthetic data generator
    (Extract__data.py) that produces the CSV files the pipeline reads; its
    conventions are stated there. *)

From stdpp Require Import gmap strings list.
From Stdlib Require Import ZArith Ascii String DecimalString Permutation Sorted Lia.
From Stdlib Require DecimalPos.

Local Open Scope string_scope.
Local Open Scope Z_scope.

(** ** Exceptions *)

Inductive exn :=
| AttributeError
| TypeError
| ValueError
| KeyError
| InvalidOperation
| NumberParseException
| ParserError
| OutOfBoundsDatetime
| OverflowError.

Inductive res (A : Type) :=
| Ok (a : A)
| Raise (e : exn).

Arguments Ok {A} a.
Arguments Raise {A} e.

#[global] Instance res_ret : MRet res := fun A a => Ok a.
#[global] Instance res_bind : MBind res := fun A B f m =>
  match m with Ok a => f a | Raise e => Raise e end.

(** try: body / except: handler (a bare [except:] catches everything). *)
Definition try_except {A} (body : res A) (handler : exn -> res A) : res A :=
  match body with
  | Ok a => Ok a
  | Raise e => handler e
  end.

Fixpoint mapM_res {A B} (f : A -> res B) (l : list A) : res (list B) :=
  match l with
  | [] => Ok []
  | x :: l' => y ← f x; ys ← mapM_res f l'; Ok (y :: ys)
  end.

(** ** Text *)

Definition code (c : ascii) : N := N_of_ascii c.

(** str.isspace / the regex class \s, on ASCII. *)
Definition is_space (c : ascii) : bool :=
  let n := code c in
  (((9 <=? n) && (n <=? 13)) || ((28 <=? n) && (n <=? 32)))%N.

(** The regex class \d, on ASCII. *)
Definition is_digit (c : ascii) : bool :=
  let n := code c in ((48 <=? n) && (n <=? 57))%N.

Definition is_upper (c : ascii) : bool :=
  let n := code c in ((65 <=? n) && (n <=? 90))%N.

Definition is_lower (c : ascii) : bool :=
  let n := code c in ((97 <=? n) && (n <=? 122))%N.

Definition lower_char (c : ascii) : ascii :=
  if is_upper c then ascii_of_N (code c + 32) else c.

Definition upper_char (c : ascii) : ascii :=
  if is_lower c then ascii_of_N (code c - 32) else c.

Fixpoint smap (f : ascii -> ascii) (s : string) : string :=
  match s with
  | EmptyString => EmptyString
  | String c s' => String (f c) (smap f s')
  end.

Fixpoint sfilter (p : ascii -> bool) (s : string) : string :=
  match s with
  | EmptyString => EmptyString
  | String c s' => if p c then String c (sfilter p s') else sfilter p s'
  end.

(** Every character of [s] satisfies [p]. *)
Fixpoint sall (p : ascii -> bool) (s : string) : bool :=
  match s with
  | EmptyString => true
  | String c s' => p c && sall p s'
  end.

(** str.lower *)
Definition lower (s : string) : string := smap lower_char s.

Fixpoint lstrip_by (p : ascii -> bool) (s : string) : string :=
  match s with
  | EmptyString => EmptyString
  | String c s' => if p c then lstrip_by p s' else s
  end.

Fixpoint rstrip_by (p : ascii -> bool) (s : string) : string :=
  match s with
  | EmptyString => EmptyString
  | String c s' =>
      let t := rstrip_by p s' in
      if p c && String.eqb t "" then "" else String c t
  end.

(** str.strip *)
Definition strip (s : string) : string := rstrip_by is_space (lstrip_by is_space s).

(** str.title on ASCII text: the first letter after a non-letter is
    upper-cased, every other letter lower-cased. *)
Fixpoint title_from (prev_cased : bool) (s : string) : string :=
  match s with
  | EmptyString => EmptyString
  | String c s' =>
      if is_lower c then
        String (if prev_cased then c else upper_char c) (title_from true s')
      else if is_upper c then
        String (if prev_cased then lower_char c else c) (title_from true s')
      else String c (title_from false s')
  end.

Definition is_ascii (c : ascii) : bool := (code c <? 128)%N.

(** str(int) *)
Definition Z_str (z : Z) : string := NilEmpty.string_of_int (Z.to_int z).

Fixpoint zeros (n : nat) : string :=
  match n with
  | O => ""
  | S n' => String "0" (zeros n')
  end.

(** Longest prefix of digits, and what follows it. *)
Fixpoint span_digits (s : string) : string * string :=
  match s with
  | EmptyString => ("", "")
  | String c s' =>
      if is_digit c then
        let '(d, r) := span_digits s' in (String c d, r)
      else ("", s)
  end.

(** Value of a string of digits. *)
Fixpoint digits_value (acc : Z) (s : string) : Z :=
  match s with
  | EmptyString => acc
  | String c s' => digits_value (10 * acc + (Z.of_N (code c) - 48)) s'
  end.

Definition all_digits (s : string) : bool :=
  String.eqb (sfilter is_digit s) s.

(** ** Floats *)

Inductive float :=
| FNum (m e : Z)      (* the double nearest to m * 10^e *)
| FNaN
| FInf (neg : bool)
| FNegZero.           (* -0.0 *)

(** A double in binary: M * 2^k with |M| below 2^53 and k from -1074 to
    971, an infinity, or the zero with a minus sign ([Dbl 0 0] is the
    other zero). *)
Inductive double :=
| Dbl (M k : Z)
| DblInf (neg : bool)
| DblNegZero.

#[global] Instance double_eq_dec : EqDecision double.
Proof. solve_decision. Defined.

(** n / d rounded to the nearest integer, a tie going to the even one
    (for d > 0). *)
Definition round_half_even (n d : Z) : Z :=
  let q := n / d in
  let r := n mod d in
  if 2 * r <? d then q
  else if d <? 2 * r then q + 1
  else if Z.even q then q else q + 1.

(** floor (log2 (n / d)), for n > 0 and d > 0. *)
Definition log2_ratio (n d : Z) : Z :=
  let l := Z.log2 n - Z.log2 d in
  if n * 2 ^ Z.max 0 (- l) <? d * 2 ^ Z.max 0 l then l - 1 else l.

(** The double nearest to n / d (for d > 0): 53 significant bits, fewer
    below 2^-1022, infinity beyond the largest double, a zero with the
    sign of n below half the least one. *)
Definition nearest_double (n d : Z) : double :=
  if n =? 0 then Dbl 0 0
  else
    let a := Z.abs n in
    let k := Z.max (log2_ratio a d - 52) (-1074) in
    let M := round_half_even (a * 2 ^ Z.max 0 (- k)) (d * 2 ^ Z.max 0 k) in
    let '(M, k) := if M =? 2 ^ 53 then (2 ^ 52, k + 1) else (M, k) in
    if 971 <? k then DblInf (n <? 0)
    else if M =? 0 then (if n <? 0 then DblNegZero else Dbl 0 0)
    else Dbl (if n <? 0 then - M else M) k.

(** float("m e") *)
Definition double_of_decimal (m e : Z) : double :=
  if 0 <=? e then nearest_double (m * 10 ^ e) 1 else nearest_double m (10 ^ (- e)).

(** floor (log10 (n / d)), for n > 0 and d > 0. *)
Definition log10_ratio (n d : Z) : Z :=
  let le p := d * 10 ^ Z.max 0 p <=? n * 10 ^ Z.max 0 (- p) in
  let p := log2_ratio n d * 30103 / 100000 in
  let p := if le p then p else p - 1 in
  if le (p + 1) then p + 1 else p.

(** m * 10^e without the trailing zeros of m. *)
Fixpoint strip_zeros (fuel : nat) (m e : Z) : Z * Z :=
  match fuel with
  | O => (m, e)
  | S fuel' =>
      if m =? 0 then (0, 0)
      else if m mod 10 =? 0 then strip_zeros fuel' (m / 10) (e + 1) else (m, e)
  end.

(** The decimal of n significant digits that reads back as the double
    M * 2^k (M > 0), if there is one: of the two decimals next to the
    double the one that reads back, the nearer one if both do. *)
Definition repr_digits (n : Z) (M k : Z) : option (Z * Z) :=
  let num := M * 2 ^ Z.max 0 k in
  let den := 2 ^ Z.max 0 (- k) in
  let e := log10_ratio num den - n + 1 in
  let num' := num * 10 ^ Z.max 0 (- e) in
  let den' := den * 10 ^ Z.max 0 e in
  let lo := num' / den' in
  let r := num' mod den' in
  let ok c := bool_decide (double_of_decimal c e = Dbl M k) in
  match ok lo, negb (r =? 0) && ok (lo + 1) with
  | true, true =>
      Some (if 2 * r <? den' then lo
            else if den' <? 2 * r then lo + 1
            else if Z.even lo then lo else lo + 1, e)
  | true, false => Some (lo, e)
  | false, true => Some (lo + 1, e)
  | false, false => None
  end.

Fixpoint repr_search (fuel : nat) (n : Z) (M k : Z) : option (Z * Z) :=
  match fuel with
  | O => None
  | S fuel' =>
      match repr_digits n M k with
      | Some d => Some d
      | None => repr_search fuel' (n + 1) M k
      end
  end.

(** M * 2^k written out in decimal. *)
Definition exact_decimal (M k : Z) : Z * Z :=
  if 0 <=? k then (M * 2 ^ k, 0) else (M * 5 ^ (- k), k).

(** A double written with the digits repr prints: the shortest decimal
    that reads back as the same double.  (17 digits always do; the exact
    expansion is there to make the function total.) *)
Definition float_of_double (d : double) : float :=
  match d with
  | DblInf neg => FInf neg
  | DblNegZero => FNegZero
  | Dbl M k =>
      let a := Z.abs M in
      let '(c, x) := match repr_search 17 1 a k with
                     | Some d => d
                     | None => exact_decimal a k
                     end in
      let '(c, x) := strip_zeros 1100 c x in
      FNum (if M <? 0 then - c else c) x
  end.

(** The float nearest to m * 10^e. *)
Definition float_round (m e : Z) : float := float_of_double (double_of_decimal m e).

Arguments nearest_double : simpl never.
Arguments double_of_decimal : simpl never.
Arguments float_of_double : simpl never.
Arguments float_round : simpl never.

(** The double a float is; NaN is none. *)
Definition double_of_float (f : float) : option double :=
  match f with
  | FNum m e => Some (double_of_decimal m e)
  | FInf neg => Some (DblInf neg)
  | FNegZero => Some DblNegZero
  | FNaN => None
  end.

Definition float_of_result (r : option double) : float :=
  match r with
  | Some d => float_of_double d
  | None => FNaN
  end.

Definition double_sign (a : double) : bool :=
  match a with
  | Dbl M _ => M <? 0
  | DblInf neg => neg
  | DblNegZero => true
  end.

Definition double_is_zero (a : double) : bool :=
  match a with
  | Dbl M _ => M =? 0
  | DblNegZero => true
  | DblInf _ => false
  end.

Definition signed_zero (neg : bool) : double := if neg then DblNegZero else Dbl 0 0.

(** a * b and a + b on doubles, rounded to the nearest double; [None] is
    NaN.  The sign of a product is that of its factors, also when it is
    zero; a sum that is zero is -0.0 only when both terms are. *)
Definition double_mul (a b : double) : option double :=
  let s := xorb (double_sign a) (double_sign b) in
  match a, b with
  | DblInf _, x | x, DblInf _ => if double_is_zero x then None else Some (DblInf s)
  | Dbl M1 k1, Dbl M2 k2 =>
      if (M1 =? 0) || (M2 =? 0) then Some (signed_zero s)
      else Some (nearest_double (M1 * M2 * 2 ^ Z.max 0 (k1 + k2))
                                (2 ^ Z.max 0 (- (k1 + k2))))
  | DblNegZero, _ | _, DblNegZero => Some (signed_zero s)
  end.

Definition double_add (a b : double) : option double :=
  match a, b with
  | Dbl M1 k1, Dbl M2 k2 =>
      let k := Z.min k1 k2 in
      Some (nearest_double ((M1 * 2 ^ (k1 - k) + M2 * 2 ^ (k2 - k)) * 2 ^ Z.max 0 k)
                           (2 ^ Z.max 0 (- k)))
  | DblInf s1, DblInf s2 => if Bool.eqb s1 s2 then Some (DblInf s1) else None
  | DblInf s, _ | _, DblInf s => Some (DblInf s)
  | DblNegZero, x | x, DblNegZero => Some x
  end.

(** a <= b on doubles; the two zeros are equal. *)
Definition double_leb (a b : double) : bool :=
  let mant d := match d with Dbl M k => (M, k) | _ => (0, 0) end in
  match a, b with
  | DblInf s1, DblInf s2 => s1 || negb s2
  | DblInf s, _ => s
  | _, DblInf s => negb s
  | _, _ =>
      let '(M1, k1) := mant a in
      let '(M2, k2) := mant b in
      let k := Z.min k1 k2 in
      M1 * 2 ^ (k1 - k) <=? M2 * 2 ^ (k2 - k)
  end.

Arguments double_mul : simpl never.
Arguments double_add : simpl never.

(** The whole part of M * 2^k, toward zero, and whether it is all of it. *)
Definition double_trunc (M k : Z) : Z :=
  if 0 <=? k then M * 2 ^ k else Z.quot M (2 ^ (- k)).

Definition double_whole (M k : Z) : bool :=
  (0 <=? k) || (M mod 2 ^ (- k) =? 0).


(** The 64-bit integers. *)
Definition int64_min : Z := - 2 ^ 63.
Definition int64_max : Z := 2 ^ 63 - 1.

Definition in_int64 (z : Z) : bool := (int64_min <=? z) && (z <=? int64_max).

(** ** Cells *)

Inductive cell :=
| Str (s : string)
| Flt (f : float)
| Int (z : Z)
| Time (t : Z)        (* pd.Timestamp, UTC, nanoseconds since the epoch *)
| NaT.

Abbreviation NaN := (Flt FNaN).

#[global] Instance float_eq_dec : EqDecision float.
Proof. solve_decision. Defined.

#[global] Instance cell_eq_dec : EqDecision cell.
Proof. solve_decision. Defined.

(** pd.isna *)
Definition isna (v : cell) : bool :=
  match v with
  | Flt FNaN | NaT => true
  | _ => false
  end.

(** bool(v), as used by [not v]. *)
Definition truthy (v : cell) : bool :=
  match v with
  | Str s => negb (String.eqb s "")
  | Int z => negb (z =? 0)
  | Flt (FNum m e) => negb (double_is_zero (double_of_decimal m e))
  | Flt FNegZero => false
  | Flt FNaN | Flt (FInf _) => true
  | Time _ | NaT => true
  end.

(** repr of the float with the shortest digits c * 10^x: positional when
    the decimal point falls between 1e-4 and 1e16, with an exponent of at
    least two digits otherwise. *)
Definition repr_finite (c x : Z) : string :=
  let sign := if c <? 0 then "-" else "" in
  let ds := Z_str (Z.abs c) in
  let nd := String.length ds in
  let decpt := Z.of_nat nd + x in
  if (-4 <? decpt) && (decpt <=? 16) then
    if 0 <=? x then sign ++ ds ++ zeros (Z.to_nat x) ++ ".0"
    else if 0 <? decpt then
      sign ++ substring 0 (Z.to_nat decpt) ds ++ "."
        ++ substring (Z.to_nat decpt) (Z.to_nat (- x)) ds
    else sign ++ "0." ++ zeros (Z.to_nat (- decpt)) ++ ds
  else
    let ex := decpt - 1 in
    let frac := substring 1 (nd - 1) ds in
    sign ++ substring 0 1 ds ++ (if String.eqb frac "" then "" else "." ++ frac)
      ++ "e" ++ (if ex <? 0 then "-" else "+")
      ++ (if Z.abs ex <? 10 then "0" else "") ++ Z_str (Z.abs ex).

(** repr of the float nearest to m * 10^e. *)
Definition float_str (m e : Z) : string :=
  match float_round m e with
  | FNum c x => repr_finite c x
  | FNaN => "nan"
  | FInf neg => if neg then "-inf" else "inf"
  | FNegZero => "-0.0"
  end.

(** ** The libraries behind the pipeline *)

Inductive number :=
| Finite (m e : Z)      (* m * 10^e *)
| Infinite (neg : bool)
| NegativeZero.         (* a zero written with a minus sign *)

Class Lib := {
  (** str(ts) of a pd.Timestamp *)
  timestamp_str : Z -> string;
  (** pd.to_datetime(v, utc=True) on text and numbers: a timestamp, NaT,
      or an exception *)
  to_datetime_parse : cell -> res (option Z);
  (** the numeric literal pd.to_numeric reads from a string, if any *)
  to_numeric_str : string -> option number;
  (** phonenumbers *)
  PhoneNumber : Type;
  phonenumbers_parse : string -> string -> res PhoneNumber;
  is_valid_number : PhoneNumber -> res bool;
  format_number_E164 : PhoneNumber -> res string;
  (** ts.to_period('M'): months since the epoch *)
  to_period_M : Z -> Z;
  (** ts.strftime('%Y-%m-%dT%H:%M:%SZ') *)
  strftime_iso : Z -> string;
  (** str.title on text that is not ASCII: what it returns, which is not
      empty, as its first character and the rest *)
  unicode_title : string -> ascii * string;
  (** the sorting routine behind sort_values: a rank for every position of
      the column of keys, by which the rows with equal keys are ordered *)
  sort_ranks : list (option Z) -> list nat;
}.

Section Normalizers.
Context `{L : Lib}.

(** str.title *)
Definition title (s : string) : string :=
  if sall is_ascii s then title_from false s
  else let '(c, t) := unicode_title s in String c t.

(** str(v) *)
Definition py_str (v : cell) : string :=
  match v with
  | Str s => s
  | Flt (FNum m e) => float_str m e
  | Flt FNaN => "nan"
  | Flt (FInf neg) => if neg then "-inf" else "inf"
  | Flt FNegZero => "-0.0"
  | Int z => Z_str z
  | Time t => timestamp_str t
  | NaT => "NaT"
  end.

(** The guard shared by the normalisers: [not v or str(v).strip() == ""]. *)
Definition blank (v : cell) : bool :=
  negb (truthy v) || String.eqb (strip (py_str v)) "".

Definition normalize_email (email : cell) : res cell :=
  if blank email then Ok NaN
  else
    let e := lower (py_str email) in
    let e := sfilter (fun c => negb (is_space c)) e in
    Ok (Str e).

Definition normalize_phone (phone : cell) (default_region : string) : res cell :=
  if blank phone then Ok NaN
  else
    let cleaned := sfilter (fun c => is_digit c || Ascii.eqb c "+") (py_str phone) in
    r ← try_except
          (parsed ← phonenumbers_parse cleaned default_region;
           valid ← is_valid_number parsed;
           if (valid : bool) then s ← format_number_E164 parsed; Ok (Some (Str s))
           else Ok None)
          (fun _ => Ok None);
    match r with
    | Some v => Ok v
    | None =>
        let digits := sfilter is_digit cleaned in
        Ok (if (8 <=? String.length digits)%nat then Str digits else NaN)
    end.

(** pd.to_datetime(v, utc=True): timestamps and missing values pass
    through, everything else is parsed. *)
Definition to_datetime (v : cell) : res cell :=
  match v with
  | Time t => Ok (Time t)
  | NaT | Flt FNaN => Ok NaT
  | _ => o ← to_datetime_parse v;
         Ok (match o with Some t => Time t | None => NaT end)
  end.

(** pd.to_datetime(v, utc=True, errors="coerce"): "invalid parsing will be
    set as NaT". *)
Definition to_datetime_coerce (v : cell) : res cell :=
  try_except (to_datetime v) (fun _ => Ok NaT).

Definition parse_date_safe (val : cell) : res cell :=
  if blank val then Ok NaT
  else try_except (to_datetime val) (fun _ => to_datetime_coerce val).

(** *** decimal.Decimal *)

Inductive Decimal :=
| DFinite (neg : bool) (coeff : Z) (exp : Z)   (* (-1)^neg * coeff * 10^exp *)
| DInf (neg : bool)
| DNaN (neg : bool) (signal : bool).

Definition sign_split (s : string) : bool * string :=
  match s with
  | String "-" s' => (true, s')
  | String "+" s' => (false, s')
  | _ => (false, s)
  end.

Fixpoint drop_prefix (p s : string) : option string :=
  match p, s with
  | EmptyString, _ => Some s
  | String a p', String b s' => if Ascii.eqb a b then drop_prefix p' s' else None
  | String _ _, EmptyString => None
  end.

(** The exponent part of a numeric string: nothing, or e[sign]digits. *)
Definition parse_exponent (r : string) : option Z :=
  match r with
  | EmptyString => Some 0
  | String c r' =>
      if Ascii.eqb c "e" then
        let '(neg, ds) := sign_split r' in
        if negb (String.eqb ds "") && all_digits ds then
          Some (if neg then - digits_value 0 ds else digits_value 0 ds)
        else None
      else None
  end.

(** Decimal(s): surrounding whitespace and underscores are removed, case is
    ignored; [None] is the InvalidOperation of a malformed string. *)
Definition Decimal_of_string (s : string) : option Decimal :=
  let t := lower (sfilter (fun c => negb (Ascii.eqb c "_")) (strip s)) in
  let '(neg, u) := sign_split t in
  if String.eqb u "inf" || String.eqb u "infinity" then Some (DInf neg)
  else
    match drop_prefix "nan" u with
    | Some d => if all_digits d then Some (DNaN neg false) else None
    | None =>
        match drop_prefix "snan" u with
        | Some d => if all_digits d then Some (DNaN neg true) else None
        | None =>
            let '(ip, r1) := span_digits u in
            let '(fp, r2) :=
              match drop_prefix "." r1 with
              | Some r' => span_digits r'
              | None => ("", r1)
              end in
            if String.eqb ip "" && String.eqb fp "" then None
            else
              match parse_exponent r2 with
              | Some e =>
                  Some (DFinite neg (digits_value 0 (ip ++ fp))
                                (e - Z.of_nat (String.length fp)))
              | None => None
              end
        end
    end.

(** The default context of the decimal module. *)
Definition prec : Z := 28.
Definition Emax : Z := 999999.
Definition Etiny : Z := - 999999 - (prec - 1).

(** Number of decimal digits of a coefficient, len(self._int). *)
Fixpoint count_digits (fuel : nat) (c : Z) : Z :=
  match fuel with
  | O => 1
  | S fuel' => if c <? 10 then 1 else 1 + count_digits fuel' (c / 10)
  end.

Definition num_digits (c : Z) : Z := count_digits (Z.to_nat (Z.log2 c)) c.

(** Coefficient of c * 10^e rewritten at exponent [expq], ROUND_HALF_UP:
    a discarded part of one half or more rounds the magnitude up. *)
Definition rescale_half_up (c e expq : Z) : Z :=
  if expq <=? e then c * 10 ^ (e - expq)
  else
    let k := expq - e in
    let q := c / 10 ^ k in
    let r := c mod 10 ^ k in
    if 10 ^ k <=? 2 * r then q + 1 else q.

(** d.quantize(Decimal("1.00...0"), rounding=ROUND_HALF_UP) with [ndigits]
    zeros. *)
Definition quantize (d : Decimal) (ndigits : nat) : res Decimal :=
  let expq := - Z.of_nat ndigits in
  match d with
  | DNaN _ true => Raise InvalidOperation
  | DNaN _ false => Ok d
  | DInf _ => Raise InvalidOperation
  | DFinite neg c e =>
      if negb ((Etiny <=? expq) && (expq <=? Emax)) then Raise InvalidOperation
      else if c =? 0 then Ok (DFinite neg 0 expq)
      else
        let adjusted := e + num_digits c - 1 in
        if Emax <? adjusted then Raise InvalidOperation
        else if prec <? adjusted - expq + 1 then Raise InvalidOperation
        else
          let c' := rescale_half_up c e expq in
          if Emax <? expq + num_digits c' - 1 then Raise InvalidOperation
          else if prec <? num_digits c' then Raise InvalidOperation
          else Ok (DFinite neg c' expq)
  end.

(** float(d): the nearest double; a zero keeps its sign. *)
Definition float_of_Decimal (d : Decimal) : float :=
  match d with
  | DFinite neg c e =>
      if neg && (c =? 0) then FNegZero else float_round (if neg then - c else c) e
  | DInf neg => FInf neg
  | DNaN _ _ => FNaN
  end.

Definition money_round (x : cell) (ndigits : nat) : res cell :=
  try_except
    (d ← match Decimal_of_string (py_str x) with
         | Some d => Ok d
         | None => Raise InvalidOperation
         end;
     q ← quantize d ndigits;
     Ok (Flt (float_of_Decimal q)))
    (fun _ => Ok NaN).

End Normalizers.

(** ** Data frames *)

(** A row maps column names to cells, in column order. *)
Definition row : Type := list (string * cell).

Record DataFrame := mkDF { columns : list string; rows : list row }.

(** What the program writes to standard output. *)
Inductive output :=
| Line (s : string)
| Table (body : list (list cell)).

Fixpoint row_get (c : string) (r : row) : cell :=
  match r with
  | [] => NaN
  | (k, v) :: r' => if String.eqb k c then v else row_get c r'
  end.

Fixpoint row_set (c : string) (v : cell) (r : row) : row :=
  match r with
  | [] => [(c, v)]
  | (k, x) :: r' => if String.eqb k c then (k, v) :: r' else (k, x) :: row_set c v r'
  end.

Definition row_del (c : string) (r : row) : row :=
  List.filter (fun kv => negb (String.eqb (fst kv) c)) r.

(** c in df *)
Definition has_col (c : string) (df : DataFrame) : bool :=
  existsb (String.eqb c) (columns df).

Definition add_col (c : string) (cols : list string) : list string :=
  if existsb (String.eqb c) cols then cols else cols ++ [c].

(** df[c] = (g(row) for each row): an existing column is replaced in
    place, a new one is appended. *)
Definition assign (c : string) (g : row -> res cell) (df : DataFrame) : res DataFrame :=
  rs ← mapM_res (fun r => v ← g r; Ok (row_set c v r)) (rows df);
  Ok (mkDF (add_col c (columns df)) rs).

(** df.get(c) (or df.get(c, default)) followed by a Series method: when
    the column is missing the method is looked up on the default, which is
    None or a plain string. *)
Definition require (c : string) (df : DataFrame) : res unit :=
  if has_col c df then Ok () else Raise AttributeError.

(** df[c] = f applied to every cell of df.get(c) *)
Definition transform (c : string) (f : cell -> res cell) (df : DataFrame) : res DataFrame :=
  _ ← require c df; assign c (fun r => f (row_get c r)) df.

(** df.dropna(subset=cols) *)
Definition dropna (subset : list string) (df : DataFrame) : DataFrame :=
  mkDF (columns df)
       (List.filter (fun r => negb (existsb (fun c => isna (row_get c r)) subset)) (rows df)).

(** Sorting key of a datetime column; a missing date has none. *)
Definition datetime_key (v : cell) : option Z :=
  match v with
  | Time t => Some t
  | _ => None
  end.

(** Ascending, na_position='last'. *)
Definition key_leb (a b : option Z) : bool :=
  match a, b with
  | _, None => true
  | None, Some _ => false
  | Some x, Some y => x <=? y
  end.

(** The order of two ranked rows: by key, and by rank when both have the
    same key. *)
Definition ranked_leb (by_ : string) (a b : nat * row) : bool :=
  match datetime_key (row_get by_ (snd a)), datetime_key (row_get by_ (snd b)) with
  | Some x, Some y => (x <? y) || ((x =? y) && (fst a <=? fst b)%nat)
  | ka, kb => key_leb ka kb
  end.

Fixpoint insert_sorted (by_ : string) (r : nat * row) (l : list (nat * row))
    : list (nat * row) :=
  match l with
  | [] => [r]
  | r' :: l' => if ranked_leb by_ r r' then r :: l else r' :: insert_sorted by_ r l'
  end.

(** Every row with its rank (0 where the list of ranks ends). *)
Fixpoint with_ranks (ranks : list nat) (l : list row) : list (nat * row) :=
  match l with
  | [] => []
  | r :: l' => (hd 0%nat ranks, r) :: with_ranks (tl ranks) l'
  end.

Section SortValues.
Context `{L : Lib}.

(** df.sort_values(by=c) on a datetime column, with the default
    kind='quicksort': where that leaves rows with equal keys is up to the
    sorting routine.  Rows of equal key and rank, and the rows without a
    key, keep their input order. *)
Definition sort_rows (by_ : string) (l : list row) : list row :=
  map snd (foldr (insert_sorted by_) []
             (with_ranks (sort_ranks (map (fun r => datetime_key (row_get by_ r)) l)) l)).

Definition sort_values (by_ : string) (df : DataFrame) : DataFrame :=
  mkDF (columns df) (sort_rows by_ (rows df)).

End SortValues.

(** The rows whose key was not seen before, in order. *)
Fixpoint keep_first (key : row -> cell) (seen : list cell) (l : list row) : list row :=
  match l with
  | [] => []
  | r :: l' =>
      if bool_decide (key r ∈ seen) then keep_first key seen l'
      else r :: keep_first key (key r :: seen) l'
  end.

(** df.drop_duplicates(subset=[c]): keep='first'; missing values are equal
    to each other. *)
Definition drop_duplicates (c : string) (df : DataFrame) : DataFrame :=
  mkDF (columns df) (keep_first (row_get c) [] (rows df)).

(** df.drop(columns=[c]) *)
Definition drop_column (c : string) (df : DataFrame) : DataFrame :=
  mkDF (List.filter (fun k => negb (String.eqb k c)) (columns df))
       (map (row_del c) (rows df)).

(** df.reset_index(drop=True): rows carry no index here. *)
Definition reset_index (df : DataFrame) : DataFrame := df.

(** ** Column conversions *)

Section Cleaners.
Context `{L : Lib}.

(** pd.to_numeric(col, errors='coerce'), cell by cell, for a column that
    comes out as float64 (a column in which every cell is a whole number
    comes out as int64, with the same numbers up to 2^53).  (The pipeline
    applies it to text and to numbers; no timestamp reaches it.) *)
Definition to_numeric (v : cell) : cell :=
  match v with
  | Str s =>
      match to_numeric_str s with
      | Some (Finite m e) => Flt (float_round m e)
      | Some (Infinite neg) => Flt (FInf neg)
      | Some NegativeZero => Flt FNegZero
      | None => NaN
      end
  | Flt f => Flt f
  | Int z => Int z
  | Time _ | NaT => NaN
  end.

(** .astype('Int64'): a float that is not a whole number, or is one
    outside the 64-bit integers, cannot be cast ("cannot safely cast
    non-equivalent float64 to int64"). *)
Definition astype_Int64 (v : cell) : res cell :=
  match v with
  | Int z => Ok (Int z)
  | Flt (FNum m e) =>
      match double_of_decimal m e with
      | Dbl M k =>
          if double_whole M k && in_int64 (double_trunc M k)
          then Ok (Int (double_trunc M k)) else Raise TypeError
      | DblInf _ => Raise TypeError
      | DblNegZero => Ok (Int 0)
      end
  | Flt FNegZero => Ok (Int 0)
  | Flt FNaN | NaT => Ok NaN
  | Flt (FInf _) => Raise TypeError
  | Str _ | Time _ => Raise TypeError
  end.

(** .astype(int): floats are truncated toward zero, and what then lies
    outside the 64-bit integers comes out as the least of them (the cast
    of numpy on x86-64, which pandas does not check); missing and infinite
    values cannot be cast. *)
Definition astype_int (v : cell) : res cell :=
  match v with
  | Int z => Ok (Int z)
  | Flt (FNum m e) =>
      match double_of_decimal m e with
      | Dbl M k =>
          Ok (Int (if in_int64 (double_trunc M k) then double_trunc M k else int64_min))
      | DblInf _ => Raise ValueError
      | DblNegZero => Ok (Int 0)
      end
  | Flt FNegZero => Ok (Int 0)
  | Flt FNaN | Flt (FInf _) | NaT => Raise ValueError
  | Str _ | Time _ => Raise ValueError
  end.

(** .fillna(d) *)
Definition fillna (d : cell) (v : cell) : cell :=
  if isna v then d else v.

(** .astype(str): every cell becomes text, a missing one its name. *)
Definition astype_str (v : cell) : cell := Str (py_str v).

(** .str.strip() and .str.title() *)
Definition str_strip (v : cell) : cell :=
  match v with Str s => Str (strip s) | _ => NaN end.

Definition str_title (v : cell) : cell :=
  match v with Str s => Str (title s) | _ => NaN end.

(** .replace({"": np.nan}) *)
Definition replace_empty (v : cell) : cell :=
  match v with
  | Str EmptyString => NaN
  | _ => v
  end.

(** a + b on object columns *)
Definition str_add (a b : cell) : cell :=
  match a, b with
  | Str x, Str y => Str (x ++ y)
  | _, _ => NaN
  end.

(** ** clean_customers *)

(** email.fillna(phone.fillna(name + signup_date.astype(str))) *)
Definition dup_key (r : row) : cell :=
  fillna (fillna (str_add (row_get "name" r) (astype_str (row_get "signup_date" r)))
                 (row_get "phone" r))
         (row_get "email" r).

(** Lines 96-104: the column-wise normalisation. *)
Definition normalize_customers (df : DataFrame) : res DataFrame :=
  df ← transform "customer_id" (fun v => astype_Int64 (to_numeric v)) df;
  df ← transform "name" (fun v => Ok (replace_empty (str_strip (astype_str v)))) df;
  df ← transform "email" normalize_email df;
  df ← transform "phone" (fun v => normalize_phone v "IN") df;
  df ← transform "city" (fun v => Ok (replace_empty (str_title (astype_str v)))) df;
  df ← transform "state" (fun v => Ok (replace_empty (str_title (astype_str v)))) df;
  transform "signup_date" parse_date_safe df.

(** Lines 110-119: sort, key, deduplicate. *)
Definition dedup_customers (df : DataFrame) : res DataFrame :=
  let df := sort_values "signup_date" df in
  df ← assign "dup_key" (fun r => Ok (dup_key r)) df;
  let df := drop_column "dup_key" (drop_duplicates "dup_key" df) in
  Ok (reset_index df).

Definition clean_customers (df : DataFrame) : res (DataFrame * list output) :=
  df ← normalize_customers df;
  let before := List.length (rows df) in
  let df := dropna ["customer_id"; "name"] df in
  let out := [Line ("customers: dropped "
                    ++ Z_str (Z.of_nat (before - List.length (rows df))) ++ " invalid rows")] in
  df ← dedup_customers df;
  Ok (df, out).

(** ** clean_products *)

Definition clean_products (df : DataFrame) : res (DataFrame * list output) :=
  df ← transform "product_id" (fun v => astype_Int64 (to_numeric v)) df;
  df ← transform "product_name" (fun v => Ok (replace_empty (str_strip (astype_str v)))) df;
  df ← transform "category" (fun v => Ok (replace_empty (str_title (astype_str v)))) df;
  df ← transform "brand" (fun v => Ok (replace_empty (str_title (astype_str v)))) df;
  df ← transform "price" (fun v => money_round (to_numeric v) 2) df;
  df ← transform "stock_quantity" (fun v => astype_Int64 (to_numeric v)) df;
  let before := List.length (rows df) in
  let df := dropna ["product_id"; "product_name"] df in
  let out := [Line ("products: dropped "
                    ++ Z_str (Z.of_nat (before - List.length (rows df))) ++ " invalid rows")] in
  let df := drop_duplicates "product_id" df in
  Ok (reset_index df, out).

(** ** clean_orders *)

(** pd.to_numeric(quantity, errors='coerce').fillna(1).astype(int) *)
Definition coerce_quantity (v : cell) : res cell :=
  astype_int (fillna (Int 1) (to_numeric v)).

(** col.isin(valid) for a set of integers *)
Definition isin (valid : gset Z) (v : cell) : bool :=
  match v with
  | Int z => bool_decide (z ∈ valid)
  | _ => false
  end.

(** int(v) *)
Definition py_int (v : cell) : res Z :=
  match v with
  | Int z => Ok z
  | Flt (FNum m e) =>
      match double_of_decimal m e with
      | Dbl M k => Ok (double_trunc M k)
      | DblInf _ => Raise OverflowError
      | DblNegZero => Ok 0
      end
  | Flt FNegZero => Ok 0
  | Flt (FInf _) => Raise OverflowError
  | Flt FNaN | NaT => Raise ValueError
  | Str _ | Time _ => Raise TypeError
  end.

(** p * z for a float p and an integer z: z is converted to the nearest
    double and the product rounded again. *)
Definition float_times (p : float) (z : Z) : float :=
  float_of_result (a ← double_of_float p; double_mul a (nearest_double z 1)).

(** price * quantity for a float price *)
Definition float_mul (p : float) (q : cell) : res cell :=
  match q with
  | Int z => Ok (Flt (float_times p z))
  | _ => Raise TypeError
  end.

Definition compute_value (price_map : gmap Z float) (r : row) : res cell :=
  pid ← py_int (row_get "product_id" r);
  match price_map !! pid with
  | Some price => x ← float_mul price (row_get "quantity" r); money_round x 2
  | None => Ok NaN
  end.

(** df[c] = df.apply(f, axis=1): on a frame without rows apply hands back
    a frame, which cannot be stored in one column. *)
Definition assign_apply (c : string) (f : row -> res cell) (df : DataFrame) : res DataFrame :=
  match rows df with
  | [] => Raise ValueError
  | _ => assign c f df
  end.

(** Lines 146-160: the column-wise normalisation. *)
Definition normalize_orders (df : DataFrame) : res DataFrame :=
  df ← transform "order_id" (fun v => astype_Int64 (to_numeric v)) df;
  df ← transform "customer_id" (fun v => astype_Int64 (to_numeric v)) df;
  df ← transform "product_id" (fun v => astype_Int64 (to_numeric v)) df;
  df ← transform "quantity" coerce_quantity df;
  df ← (if has_col "order_timestamp" df
        then transform "order_timestamp" parse_date_safe df
        else _ ← require "order_date" df;
             assign "order_timestamp" (fun r => parse_date_safe (row_get "order_date" r)) df);
  df ← transform "shipping_city" (fun v => Ok (replace_empty (str_title (astype_str v)))) df;
  df ← transform "payment_method" (fun v => Ok (str_title (astype_str v))) df;
  transform "status" (fun v => Ok (str_title (astype_str v))) df.

(** Lines 163-164: the referential filter. *)
Definition filter_valid (valid_customers valid_products : gset Z) (df : DataFrame) : DataFrame :=
  let df := mkDF (columns df)
                 (List.filter (fun r => isin valid_customers (row_get "customer_id" r)) (rows df)) in
  mkDF (columns df)
       (List.filter (fun r => isin valid_products (row_get "product_id" r)) (rows df)).

(** Lines 167-181: order value, timestamp backfill, sort, deduplicate. *)
Definition finish_orders (price_map : gmap Z float) (now : Z) (df : DataFrame) : res DataFrame :=
  df ← assign_apply "order_value" (compute_value price_map) df;
  df ← assign "order_timestamp" (fun r => Ok (fillna (Time now) (row_get "order_timestamp" r))) df;
  let df := sort_values "order_timestamp" df in
  let df := drop_duplicates "order_id" df in
  Ok (reset_index df).

(** [now] is the reading of the clock, datetime.now(timezone.utc). *)
Definition clean_orders (df : DataFrame) (valid_customers valid_products : gset Z)
    (price_map : gmap Z float) (now : Z) : res (DataFrame * list output) :=
  df ← normalize_orders df;
  let before := List.length (rows df) in
  let df := filter_valid valid_customers valid_products df in
  let out := [Line ("orders: dropped "
                    ++ Z_str (Z.of_nat (before - List.length (rows df)))
                    ++ " rows referencing invalid customer/product")] in
  df ← finish_orders price_map now df;
  Ok (df, out).

End Cleaners.

(** ** analytics *)

(** The three tables the caller holds; [analytics] works on these very
    objects, so an assignment to a column is seen by the caller. *)
Record frames := mkFrames { cust : DataFrame; prod : DataFrame; ords : DataFrame }.

Section Analytics.
Context `{L : Lib}.

(** df[c] on a column that may be missing *)
Definition column (c : string) (df : DataFrame) : res (list cell) :=
  if has_col c df then Ok (map (row_get c) (rows df)) else Raise KeyError.

Definition float_add (a b : float) : float :=
  float_of_result (x ← double_of_float a; y ← double_of_float b; double_add x y).

(** Series.sum(): missing values are skipped, the others added in row
    order.  (How pandas compensates the rounding of a long sum is not
    represented.) *)
Fixpoint sum_cells (acc : cell) (l : list cell) : res cell :=
  match l with
  | [] => Ok acc
  | v :: l' =>
      if isna v then sum_cells acc l'
      else
        match acc, v with
        | Int a, Int b => sum_cells (Int (a + b)) l'
        | Int a, Flt f => sum_cells (Flt (float_add (FNum a 0) f)) l'
        | Flt f, Int b => sum_cells (Flt (float_add f (FNum b 0))) l'
        | Flt f, Flt g => sum_cells (Flt (float_add f g)) l'
        | _, _ => Raise TypeError
        end
  end.

(** Group keys of a column: the distinct present values, ascending. *)
Definition int_key (v : cell) : option Z :=
  match v with
  | Int z => Some z
  | _ => None
  end.

Fixpoint insert_key (k : Z) (l : list Z) : list Z :=
  match l with
  | [] => [k]
  | k' :: l' => if k <? k' then k :: l else if k =? k' then l else k' :: insert_key k l'
  end.

Definition group_keys (c : string) (df : DataFrame) : list Z :=
  foldr (fun r acc => match int_key (row_get c r) with
                      | Some k => insert_key k acc
                      | None => acc
                      end) [] (rows df).

Definition group (c : string) (k : Z) (df : DataFrame) : list row :=
  List.filter (fun r => bool_decide (row_get c r = Int k)) (rows df).

(** Descending order of revenue; a missing revenue goes last. *)
Definition revenue_geb (a b : cell) : bool :=
  match a, b with
  | _, Flt FNaN => true
  | Flt FNaN, _ => false
  | Flt f, Flt g =>
      match double_of_float f, double_of_float g with
      | Some x, Some y => double_leb y x
      | _, _ => true
      end
  | _, _ => true
  end.

Fixpoint insert_desc (r : row) (l : list row) : list row :=
  match l with
  | [] => [r]
  | r' :: l' =>
      if revenue_geb (row_get "revenue" r) (row_get "revenue" r')
      then r :: l else r' :: insert_desc r l'
  end.

(** summary.merge(prod[['product_id', 'product_name']], on='product_id',
    how='left'), row by row of the summary, once the key columns have
    passed the check of merge. *)
Definition merge_names (products : DataFrame) (r : row) : list row :=
  match List.filter (fun p => bool_decide (row_get "product_id" p = row_get "product_id" r))
                    (rows products) with
  | [] => [row_set "product_name" NaN r]
  | ps => map (fun p => row_set "product_name" (row_get "product_name" p) r) ps
  end.

(** The check merge makes of its key columns: integer keys cannot be
    merged with a column of text or of dates ("You are trying to merge on
    Int64 and object columns").  A column that holds an integer passes, and
    so does any column when one side has no rows. *)
Definition merge_keys_check (left right : list cell) : res unit :=
  match left, right with
  | [], _ | _, [] => Ok ()
  | _, _ =>
      if existsb (fun v => match v with Str _ | Time _ | NaT => true | _ => false end) right
         && negb (existsb (fun v => match v with Int _ => true | _ => false end) right)
      then Raise ValueError else Ok ()
  end.

Definition table_of (cols : list string) (l : list row) : output :=
  Table (map (fun r => map (fun c => row_get c r) cols) l).

(** ords['order_timestamp'].dt.to_period('M'): the accessor exists on
    datetime columns only. *)
Definition dt_to_period_M (v : cell) : res cell :=
  match v with
  | Time t => Ok (Int (to_period_M t))
  | NaT => Ok NaT
  | _ => Raise AttributeError
  end.

Definition analytics (s : frames) : res (frames * list output) :=
  let out := [Line (String "010" "=== ANALYTICS ===");
              Line ("Customers: " ++ Z_str (Z.of_nat (List.length (rows (cust s)))));
              Line ("Products:  " ++ Z_str (Z.of_nat (List.length (rows (prod s)))));
              Line ("Orders:    " ++ Z_str (Z.of_nat (List.length (rows (ords s)))))] in
  prices ← column "price" (prod s);
  let missing_price := List.length (List.filter isna prices) in
  let out := (out ++ [Line ("Products missing price: " ++ Z_str (Z.of_nat missing_price))%string])%list in
  values ← column "order_value" (ords s);
  out ← (if existsb (fun v => negb (isna v)) values then
           _ ← column "product_id" (ords s);
           _ ← column "quantity" (ords s);
           groups ← mapM_res
             (fun k =>
                let g := group "product_id" k (ords s) in
                units ← sum_cells (Int 0) (map (row_get "quantity") g);
                revenue ← sum_cells (Flt (FNum 0 0)) (map (row_get "order_value") g);
                Ok [("product_id", Int k); ("units_sold", units); ("revenue", revenue)])
             (group_keys "product_id" (ords s));
           let summary := foldr insert_desc [] groups in
           keys ← column "product_id" (prod s);
           _ ← column "product_name" (prod s);
           _ ← merge_keys_check (map (row_get "product_id") summary) keys;
           let summary := List.concat (map (merge_names (prod s)) summary) in
           Ok (out ++ [Line (String "010" "Top Revenue Products (Top 5):");
                       table_of ["product_id"; "units_sold"; "revenue"; "product_name"]
                                (take 5 summary)])%list
         else Ok out);
  stamps ← column "order_timestamp" (ords s);
  if existsb (fun v => negb (isna v)) stamps then
    o ← assign "month" (fun r => dt_to_period_M (row_get "order_timestamp" r)) (ords s);
    let s := mkFrames (cust s) (prod s) o in
    monthly ← mapM_res
      (fun k =>
         total ← sum_cells (Flt (FNum 0 0)) (map (row_get "order_value") (group "month" k (ords s)));
         Ok [("month", Int k); ("order_value", total)])
      (group_keys "month" (ords s));
    Ok (s, (out ++ [Line (String "010" "Monthly Revenue:");
                    table_of ["month"; "order_value"] (take 6 monthly)])%list)
  else Ok (s, out).

(** ** main *)

(** safe_read_csv: every cell is text, except that an empty cell, "NA" and
    "NaN" are read as missing. *)
Definition read_cell (s : string) : cell :=
  if String.eqb s "" || String.eqb s "NA" || String.eqb s "NaN" then NaN else Str s.

(** The table of a header and of records that have one field for every
    name of the header. *)
Definition read_table (header : list string) (records : list (list string)) : DataFrame :=
  mkDF header (map (fun l => combine header (map read_cell l)) records).

(** safe_read_csv on a file with the given header and records (its lines
    that are not blank), the way the parser of read_csv goes about it: the
    width of the table is that of the header or of the first record, if
    that is longer; a later record with more fields is an error; a record
    with fewer fields is filled up with empty ones; the fields in excess of
    the header, at the front of every record, are the index of the rows,
    which is not represented. *)
Definition safe_read_csv (header : list string) (lines : list (list string)) : res DataFrame :=
  let n := List.length header in
  let width := match lines with
               | [] => n
               | l :: _ => Nat.max n (List.length l)
               end in
  if existsb (fun l => (width <? List.length l)%nat) lines then Raise ParserError
  else Ok (read_table header
             (map (fun l => drop (width - n) (l ++ replicate (width - List.length l) ""))
                  lines)).

(** set(df[c]) for an id column *)
Definition id_set (c : string) (df : DataFrame) : gset Z :=
  foldr (fun r acc => match row_get c r with Int z => {[ z ]} ∪ acc | _ => acc end) ∅ (rows df).

(** dict(zip(prod['product_id'], prod['price'])): a later row overwrites an
    earlier one with the same id. *)
Definition price_dict (df : DataFrame) : gmap Z float :=
  foldl (fun acc r =>
           match row_get "product_id" r, row_get "price" r with
           | Int z, Flt f => <[ z := f ]> acc
           | _, _ => acc
           end) ∅ (rows df).

(** The three files written by main. *)
Record files := mkFiles { clean_customers_csv : DataFrame;
                          clean_products_csv : DataFrame;
                          clean_orders_csv : DataFrame }.

Definition main (raw_cust raw_prod raw_ord : DataFrame) (now : Z) : res (files * list output) :=
  '(c, out1) ← clean_customers raw_cust;
  '(p, out2) ← clean_products raw_prod;
  '(o, out3) ← clean_orders raw_ord (id_set "customer_id" c) (id_set "product_id" p)
                            (price_dict p) now;
  '(s, out4) ← analytics (mkFrames c p o);
  o ← transform "order_timestamp"
        (fun v => match v with
                  | Time t => Ok (Str (strftime_iso t))
                  | _ => Ok NaN
                  end) (ords s);
  Ok (mkFiles c p o, (out1 ++ out2 ++ out3 ++ out4)%list).

End Analytics.

(** ** A reference instance of the libraries

    ISO dates ("2024-03-01", "2024-03-01 10:20:30", "2024-03-01T10:20:30Z"),
    decimal literals, and Indian mobile numbers (a national number of more
    than 17 digits is too long to be parsed).  Rows with equal keys are
    sorted in their input order, as a sort of few rows leaves them.  It is
    used to run the pipeline on concrete tables. *)

Module Ref.

Definition days_from_civil (y m d : Z) : Z :=
  let y := if m <=? 2 then y - 1 else y in
  let era := y / 400 in
  let yoe := y - era * 400 in
  let doy := (153 * (if 2 <? m then m - 3 else m + 9) + 2) / 5 + d - 1 in
  let doe := yoe * 365 + yoe / 4 - yoe / 100 + doy in
  era * 146097 + doe - 719468.

Definition civil_from_days (z : Z) : Z * Z * Z :=
  let z := z + 719468 in
  let era := z / 146097 in
  let doe := z - era * 146097 in
  let yoe := (doe - doe / 1460 + doe / 36524 - doe / 146096) / 365 in
  let y := yoe + era * 400 in
  let doy := doe - (365 * yoe + yoe / 4 - yoe / 100) in
  let mp := (5 * doy + 2) / 153 in
  let d := doy - (153 * mp + 2) / 5 + 1 in
  let m := if mp <? 10 then mp + 3 else mp - 9 in
  (if m <=? 2 then y + 1 else y, m, d).

Definition ns_per_second : Z := 1000000000.
Definition ns_per_day : Z := 86400 * ns_per_second.

Definition pad (n : nat) (z : Z) : string :=
  let s := Z_str z in zeros (n - String.length s) ++ s.

Definition date_str (sep tail : string) (t : Z) : string :=
  let '(y, m, d) := civil_from_days (t / ns_per_day) in
  let secs := (t mod ns_per_day) / ns_per_second in
  pad 4 y ++ "-" ++ pad 2 m ++ "-" ++ pad 2 d ++ sep
    ++ pad 2 (secs / 3600) ++ ":" ++ pad 2 (secs / 60 mod 60) ++ ":" ++ pad 2 (secs mod 60)
    ++ tail.

(** The first [n] characters, when they are digits, and the rest. *)
Fixpoint take_digits (n : nat) (acc : Z) (s : string) : option (Z * string) :=
  match n with
  | O => Some (acc, s)
  | S n' =>
      match s with
      | String c s' =>
          if is_digit c then take_digits n' (10 * acc + (Z.of_N (code c) - 48)) s' else None
      | EmptyString => None
      end
  end.

Definition expect (c : ascii) (s : string) : option string :=
  match s with
  | String c' s' => if Ascii.eqb c c' then Some s' else None
  | EmptyString => None
  end.

Definition parse_time (s : string) : option Z :=
  '(h, s) ← take_digits 2 0 s;
  s ← expect ":" s;
  '(mi, s) ← take_digits 2 0 s;
  s ← expect ":" s;
  '(se, s) ← take_digits 2 0 s;
  if (h <? 24) && (mi <? 60) && (se <? 60)
     && (String.eqb s "" || String.eqb s "Z" || String.eqb s "+00:00")
  then Some ((h * 3600 + mi * 60 + se) * ns_per_second) else None.

Definition parse_iso (s : string) : option Z :=
  '(y, s) ← take_digits 4 0 s;
  s ← expect "-" s;
  '(m, s) ← take_digits 2 0 s;
  s ← expect "-" s;
  '(d, s) ← take_digits 2 0 s;
  if (1 <=? m) && (m <=? 12) && (1 <=? d)
     && (days_from_civil y m d + 1 <=? days_from_civil (if m =? 12 then y + 1 else y)
                                                       (if m =? 12 then 1 else m + 1) 1)
  then
    let day := days_from_civil y m d * ns_per_day in
    match s with
    | EmptyString => Some day
    | String c s' =>
        if Ascii.eqb c " " || Ascii.eqb c "T" then t ← parse_time s'; Some (day + t)
        else None
    end
  else None.

Definition to_datetime_parse (v : cell) : res (option Z) :=
  match v with
  | Str s =>
      match parse_iso (strip s) with
      | Some t => Ok (Some t)
      | None => Raise ParserError
      end
  | Int z => Ok (Some z)
  | Flt (FNum m e) => Ok (Some (if 0 <=? e then m * 10 ^ e else Z.quot m (10 ^ (- e))))
  | Flt (FInf _) => Raise OutOfBoundsDatetime
  | Flt FNegZero => Ok (Some 0)
  | _ => Ok None
  end.

Definition to_numeric_str (s : string) : option number :=
  if String.eqb (sfilter (fun c => negb (Ascii.eqb c "_")) s) s then
    match Decimal_of_string s with
    | Some (DFinite neg c e) =>
        Some (if neg && (c =? 0) then NegativeZero else Finite (if neg then - c else c) e)
    | Some (DInf neg) => Some (Infinite neg)
    | _ => None
    end
  else None.

(** A parsed phone number: country code and national number. *)
Definition PhoneNumber : Type := string * string.

Definition phonenumbers_parse (cleaned region : string) : res PhoneNumber :=
  match cleaned with
  | String "+" rest =>
      if (String.length rest <? 3)%nat || negb (all_digits rest) then Raise NumberParseException
      else
        match drop_prefix "91" rest with
        | Some national =>
            if (17 <? String.length national)%nat then Raise NumberParseException
            else Ok ("91", national)
        | None => Ok ("", rest)
        end
  | _ =>
      if (String.length cleaned <? 3)%nat || negb (all_digits cleaned)
         || negb (String.eqb region "IN")
         || (17 <? String.length (lstrip_by (Ascii.eqb "0") cleaned))%nat
      then Raise NumberParseException
      else Ok ("91", lstrip_by (Ascii.eqb "0") cleaned)
  end.

Definition is_valid_number (p : PhoneNumber) : res bool :=
  Ok (String.eqb (fst p) "91" && (String.length (snd p) =? 10)%nat
      && match snd p with
         | String c _ => (54 <=? code c)%N && (code c <=? 57)%N
         | EmptyString => false
         end).

Definition format_number_E164 (p : PhoneNumber) : res string :=
  Ok ("+" ++ fst p ++ snd p).

Definition to_period_M (t : Z) : Z :=
  let '(y, m, _) := civil_from_days (t / ns_per_day) in (y - 1970) * 12 + (m - 1).

End Ref.

Definition RefLib : Lib := {|
  timestamp_str := Ref.date_str " " "+00:00";
  to_datetime_parse := Ref.to_datetime_parse;
  to_numeric_str := Ref.to_numeric_str;
  PhoneNumber := Ref.PhoneNumber;
  phonenumbers_parse := Ref.phonenumbers_parse;
  is_valid_number := Ref.is_valid_number;
  format_number_E164 := Ref.format_number_E164;
  to_period_M := Ref.to_period_M;
  strftime_iso := Ref.date_str "T" "Z";
  unicode_title := fun s => match title_from false s with
                           | String c t => (c, t)
                           | EmptyString => (" "%char, "")
                           end;
  sort_ranks := fun _ => [];
|}.


(** ** Sample tables

    Each is the table safe_read_csv reads from a file with the given
    header and records. *)

Module Sample.

Definition customer_columns : list string :=
  ["customer_id"; "name"; "email"; "phone"; "city"; "state"; "signup_date"].

Definition product_columns : list string :=
  ["product_id"; "product_name"; "category"; "brand"; "price"; "stock_quantity"].

Definition order_columns : list string :=
  ["order_id"; "customer_id"; "product_id"; "quantity"; "order_timestamp";
   "payment_method"; "status"; "shipping_city"; "order_value"].

Definition customers : DataFrame :=
  read_table customer_columns
    [ ["1"; "Asha Rao"; "Asha@Example.com"; "+91 98765 43210"; "pune"; "mh"; "2024-03-01"];
      ["2"; "A. Rao"; "asha@example.COM "; "123"; "pune"; ""; "2024-01-15"];
      ["3"; "Bala"; " "; "98765 43211"; "new delhi"; "dl"; ""];
      ["4"; "Chitra"; ""; "0123456789"; ""; ""; "2023-12-31 10:00:00"];
      ["x"; "Dev"; "NA"; ""; ""; ""; "junk"];
      ["6"; "  "; "e@x.in"; ""; ""; ""; "2024-01-01"] ].

Definition products : DataFrame :=
  read_table product_columns
    [ ["10"; " Lamp "; "home decor"; "acme"; "2.005"; "5"];
      ["11"; "Chair"; ""; "ACME"; "abc"; ""];
      ["10"; "Lamp2"; "x"; "y"; "3"; "1"] ].

Definition orders : DataFrame :=
  read_table order_columns
    [ ["100"; "4"; "10"; "2"; "2024-03-02"; "upi"; "DELIVERED"; "pune"; "0"];
      ["101"; "2"; "10"; "-3"; "2024-03-01"; ""; ""; ""; ""];
      ["102"; "2"; "11"; "bad"; ""; "card"; "x"; "y"; ""];
      ["100"; "2"; "11"; "1"; "2024-03-05"; "card"; "x"; "y"; ""];
      ["103"; "9"; "10"; "1"; ""; "card"; "x"; "y"; ""] ].

(** An orders table without the payment_method column. *)
Definition orders_without_payment_method : DataFrame :=
  read_table ["order_id"; "customer_id"; "product_id"; "quantity"; "order_timestamp";
                 "status"; "shipping_city"]
    [ ["100"; "4"; "10"; "2"; "2024-03-02"; "DELIVERED"; "pune"] ].

(** One customer whose email cell holds a single space. *)
Definition customer_with_blank_email : DataFrame :=
  read_table customer_columns
    [ ["1"; "Bala"; " "; "98765 43211"; "new delhi"; "dl"; "2024-02-01"] ].

Definition now : Z := 1700000000000000000.

Definition valid_customers : gset Z := {[ 2; 3; 4 ]}.
Definition valid_products : gset Z := {[ 10; 11 ]}.
Definition price_map : gmap Z float := <[ 10 := FNum 201 (-2) ]> (<[ 11 := FNaN ]> ∅).

(** The three sample tables, cleaned the way main does it. *)
Definition cleaned : res frames :=
  '(c, _) ← clean_customers (L := RefLib) customers;
  '(p, _) ← clean_products (L := RefLib) products;
  '(o, _) ← clean_orders (L := RefLib) orders (id_set "customer_id" c) (id_set "product_id" p)
                         (price_dict p) now;
  Ok (mkFrames c p o).

End Sample.

(** * The synthetic data generator (Extract__data.py)

    The generator draws from the global generator of the random module and
    from the shared generator of Faker, and reads the clock.  The three are
    threaded through every call as a [world]; what the libraries decide
    (which number comes next, which name Faker invents) is a member of the
    class [Env].  The rows are dicts with fixed keys, written as records.
    A float is what round(x, 2) returned; products and rounded products of
    floats are left to [Env].  Faker's unique proxy gives up with a
    UniquenessException when it finds no value it has not returned yet. *)

Module Generator.

Inductive error := ValueError | IndexError | UniquenessException.

Inductive outcome (A : Type) :=
| Done (a : A)
| Fail (e : error).

Arguments Done {A} a.
Arguments Fail {A} e.

Module Customer.
Record t := mk { customer_id : Z; name : string; email : string; phone : string;
                 city : string; state : string; signup_date : string }.
End Customer.

Module Product.
Record t := mk { product_id : Z; product_name : string; category : string; brand : string;
                 price : float; stock_quantity : Z }.
End Product.

Module Order.
Record t := mk { order_id : Z; customer_id : Z; product_id : Z; quantity : Z;
                 order_timestamp : string; payment_method : string; status : string;
                 shipping_city : string; order_value : option float }.
End Order.

Class Env := {
  rng : Type;
  (** random.seed(s) *)
  seed_rng : Z -> rng;
  (** random.randint(a, b), for a <= b *)
  randint : Z -> Z -> rng -> Z * rng;
  (** the position random.choice picks in a sequence of the given length *)
  choice_index : nat -> rng -> nat * rng;
  (** the positions random.sample picks: population size, sample size *)
  sample_indices : nat -> nat -> rng -> list nat * rng;
  (** the position random.choices(population, weights)[0] picks *)
  choices_index : list Z -> rng -> nat * rng;
  (** round(random.uniform(a, b), 2) *)
  uniform_round2 : Z -> Z -> rng -> float * rng;
  faker : Type;
  (** Faker.seed(s) *)
  seed_faker : Z -> faker;
  (** fake_unique.name(), .email(), .phone_number(): the argument lists what
      the proxy has returned so far; [None] when the proxy finds nothing
      new within its retries *)
  unique_name : list string -> faker -> option string * faker;
  unique_email : list string -> faker -> option string * faker;
  unique_phone_number : list string -> faker -> option string * faker;
  (** fake.city(), fake.state() *)
  fake_city : faker -> string * faker;
  fake_state : faker -> string * faker;
  (** fake.date_between(start_date='-2y', end_date='today').strftime('%Y-%m-%d') *)
  fake_date : faker -> string * faker;
  (** datetime.utcnow().isoformat() at the n-th reading of the clock *)
  utcnow_isoformat : nat -> string;
  (** round(price * qty, 2) *)
  round2_mul : float -> Z -> float;
}.

Section Gen.
Context `{E : Env}.

Record world := mkWorld { rand : rng; fake : faker; clock : nat }.

(** A computation that draws from the world and may raise. *)
Definition gen (A : Type) : Type := world -> outcome (A * world).

Definition ret {A} (a : A) : gen A := fun w => Done (a, w).

Definition bind {A B} (m : gen A) (f : A -> gen B) : gen B :=
  fun w => match m w with
           | Done (a, w') => f a w'
           | Fail e => Fail e
           end.

Definition raise {A} (e : error) : gen A := fun _ => Fail e.

Notation "'let*' x ':=' m 'in' f" := (bind m (fun x => f))
  (at level 10, x name, m at level 100, f at level 200).

Definition draw {A} (f : rng -> A * rng) : gen A :=
  fun w => let '(a, g) := f (rand w) in Done (a, mkWorld g (fake w) (clock w)).

Definition ask {A} (f : faker -> A * faker) : gen A :=
  fun w => let '(a, k) := f (fake w) in Done (a, mkWorld (rand w) k (clock w)).


Definition utcnow : gen string :=
  fun w => Done (utcnow_isoformat (clock w), mkWorld (rand w) (fake w) (S (clock w))).

Definition random_seed (s : Z) : gen unit :=
  fun w => Done (tt, mkWorld (seed_rng s) (fake w) (clock w)).


(** random.randint(a, b): an empty range is a ValueError. *)
Definition random_randint (a b : Z) : gen Z :=
  if a <=? b then draw (randint a b) else raise ValueError.

(** seq[i] *)
Definition item {A} (l : list A) (i : nat) : gen A :=
  match l !! i with
  | Some x => ret x
  | None => raise IndexError
  end.

(** random.choice(seq): an empty sequence is an IndexError. *)
Definition random_choice {A} (l : list A) : gen A :=
  match l with
  | [] => raise IndexError
  | _ => let* i := draw (choice_index (List.length l)) in item l i
  end.

(** random.choices(seq, weights=ws)[0] *)
Definition random_choices_first {A} (l : list A) (ws : list Z) : gen A :=
  match l with
  | [] => raise IndexError
  | _ => let* i := draw (choices_index ws) in item l i
  end.

Fixpoint for_each {A B} (f : A -> gen B) (l : list A) : gen (list B) :=
  match l with
  | [] => ret []
  | x :: l' => let* y := f x in let* ys := for_each f l' in ret (y :: ys)
  end.

(** random.sample(population, k): k must lie between 0 and the size. *)
Definition random_sample {A} (l : list A) (k : Z) : gen (list A) :=
  if (k <? 0) || (Z.of_nat (List.length l) <? k) then raise ValueError
  else let* idxs := draw (sample_indices (List.length l) (Z.to_nat k)) in
       for_each (item l) idxs.

(** range(1, n + 1) *)
Definition range1 (n : Z) : list Z := map Z.of_nat (seq 1 (Z.to_nat n)).

(** ** generate_customers *)



(** ** generate_products *)

Definition product_catalog : list (string * list string) :=
  [ ("Electronics",
     ["Samsung Galaxy S23"; "iPhone 14 Pro"; "OnePlus 11"; "Sony WH-1000XM5 Headphones";
      "Dell XPS 15 Laptop"; "iPad Air"; "Apple Watch Series 8"; "Canon EOS R6";
      "Sony PlayStation 5"; "Nintendo Switch"; "Kindle Paperwhite"; "GoPro Hero 11"]);
    ("Clothing",
     ["Levi's Jeans"; "Nike Air Max Shoes"; "Adidas T-Shirt"; "Puma Hoodie";
      "Raymond Formal Shirt"; "Allen Solly Trousers"; "Zara Dress"; "H&M Jacket";
      "Bata Sandals"; "Woodland Boots"; "US Polo Assn Shirt"; "Levis Denim Jacket"]);
    ("Books",
     ["Atomic Habits by James Clear"; "The Psychology of Money"; "Sapiens by Yuval Harari";
      "Ikigai: Japanese Secret"; "Rich Dad Poor Dad"; "The Alchemist"; "Think and Grow Rich";
      "Deep Work by Cal Newport"; "The Subtle Art"; "Zero to One by Peter Thiel"]);
    ("Home & Kitchen",
     ["Philips Air Fryer"; "Prestige Pressure Cooker"; "Havells Mixer Grinder";
      "Milton Water Bottle"; "Cello Storage Containers"; "Pigeon Gas Stove";
      "Bajaj Room Heater"; "Usha Fan"; "Godrej Almirah"; "Nilkamal Chair"]);
    ("Sports & Fitness",
     ["Nivia Football"; "Yonex Badminton Racket"; "Cosco Cricket Bat"; "Adidas Gym Bag";
      "Decathlon Yoga Mat"; "Protoner Dumbbells"; "Strauss Resistance Bands";
      "Nivia Running Shoes"; "Fitbit Charge 5"; "Boldfit Gym Gloves"]) ].

Definition flat : list (string * string) :=
  flat_map (fun ci => map (fun it => (fst ci, it)) (snd ci)) product_catalog.

(** The characters of s up to the first whitespace. *)
Fixpoint until_space (s : string) : string :=
  match s with
  | EmptyString => EmptyString
  | String c s' => if is_space c then EmptyString else String c (until_space s')
  end.

(** name.split()[0]: a name without a token is an IndexError. *)
Definition first_token (name : string) : gen string :=
  match lstrip_by is_space name with
  | EmptyString => raise IndexError
  | t => ret (until_space t)
  end.

Fixpoint products_loop (pid : Z) (chosen : list (string * string)) : gen (list Product.t) :=
  match chosen with
  | [] => ret []
  | (cat, name) :: chosen' =>
      let* b := first_token name in
      let* pr := draw (uniform_round2 299 89999) in
      let* st := random_randint 5 500 in
      let* rest := products_loop (pid + 1) chosen' in
      ret (Product.mk pid name cat b pr st :: rest)
  end.

Definition generate_products (num_products : Z) (seed : option Z) : gen (list Product.t) :=
  let* _ := match seed with
       | Some s => random_seed s
       | None => ret tt
       end in
  let* chosen := (if Z.of_nat (List.length flat) <? num_products
             then for_each (fun _ => random_choice flat) (range1 num_products)
             else random_sample flat num_products) in
  products_loop 1 chosen.

(** ** generate_orders *)

Definition payment_methods : list string :=
  ["Credit Card"; "Debit Card"; "UPI"; "Net Banking"; "Cash on Delivery"; "Wallet"].

Definition statuses : list string :=
  ["Completed"; "Pending"; "Cancelled"; "Shipped"; "Delivered"].

(** max(ids): the maximum of no number is a ValueError. *)
Definition py_max (l : list Z) : gen Z :=
  match l with
  | [] => raise ValueError
  | x :: l' => ret (foldl Z.max x l')
  end.

(** list(product_map.keys()) for product_map = {p['product_id']: p ...}:
    the distinct ids, in the order of their first occurrence. *)
Definition product_keys (products : list Product.t) : list Z :=
  foldl (fun ks p => if bool_decide (Product.product_id p ∈ ks) then ks
                     else (ks ++ [Product.product_id p])%list) [] products.

(** product_map[pid]: of the products with one id the last one stays. *)
Definition product_of (products : list Product.t) (pid : Z) : option Product.t :=
  List.find (fun p => Product.product_id p =? pid) (rev products).

Definition make_order (products : list Product.t) (max_customer_id : Z)
    (include_order_value : bool) (i : Z) : gen Order.t :=
  let* pid := random_choice (product_keys products) in
  let* qty := random_randint 1 5 in
  let* p := match product_of products pid with
       | Some p => ret p
       | None => raise IndexError
       end in
  let order_value := round2_mul (Product.price p) qty in
  let* cid := random_randint 1 max_customer_id in
  let* ts := utcnow in
  let* pm := random_choice payment_methods in
  let* st := random_choices_first statuses [50; 15; 10; 15; 10] in
  let* city := ask fake_city in
  ret (Order.mk i cid pid qty (ts ++ "Z") pm st city
                (if include_order_value then Some order_value else None)).

Definition generate_orders (num_orders : Z)
    (customers : option (list Customer.t)) (products : option (list Product.t))
    (seed : option Z) (include_order_value : bool) : gen (list Order.t) :=
  match customers, products with
  | Some customers, Some products =>
      let* _ := match seed with
           | Some s => random_seed s
           | None => ret tt
           end in
      let* max_customer_id := py_max (map Customer.customer_id customers) in
      for_each (make_order products max_customer_id include_order_value) (range1 num_orders)
  | _, _ => raise ValueError
  end.

(** ** The streaming loop and main *)

(** One turn of the loop of stream_append_orders_loop: the event appended
    to the file. *)
Definition stream_event (current_id : Z)
    (customers : option (list Customer.t)) (products : option (list Product.t))
    (seed : option Z) : gen Order.t :=
  let* os := generate_orders 1 customers products seed true in
  let* o := item os 0 in
  ret (Order.mk current_id (Order.customer_id o) (Order.product_id o) (Order.quantity o)
                (Order.order_timestamp o) (Order.payment_method o) (Order.status o)
                (Order.shipping_city o) (Order.order_value o)).

Fixpoint stream_turns (n : nat) (current_id : Z)
    (customers : option (list Customer.t)) (products : option (list Product.t))
    (seed : option Z) : gen (list Order.t) :=
  match n with
  | O => ret []
  | S n' =>
      let* o := stream_event current_id customers products seed in
      let* rest := stream_turns n' (current_id + 1) customers products seed in
      ret (o :: rest)
  end.

(** stream_append_orders_loop, observed for its first n turns: the events
    appended to the file, from order_id [start_id] on.  (The loop never
    ends by itself; reading the last id of an existing file only changes
    the id it starts at.) *)
Definition stream_append_orders_loop (n : nat) (start_id : Z)
    (customers : option (list Customer.t)) (products : option (list Product.t))
    (seed : option Z) : gen (list Order.t) :=
  match customers, products with
  | Some _, Some _ => stream_turns n start_id customers products seed
  | _, _ => raise ValueError
  end.



End Gen.

(** A small instance of the libraries, used to run the generator: numbers
    are drawn in turn from a counter, and the unique proxy never runs out
    of values. *)
Definition RefEnv : Env := {|
  rng := Z;
  seed_rng := fun s => s;
  randint := fun a b g => (a + g mod (b - a + 1), g + 1);
  choice_index := fun n g => (Z.to_nat (g mod Z.of_nat n), g + 1);
  sample_indices := fun n k g => (seq 0 k, g + 1);
  choices_index := fun ws g => (Z.to_nat (g mod Z.of_nat (List.length ws)), g + 1);
  uniform_round2 := fun a b g => (FNum (100 * a + g mod (100 * (b - a) + 1)) (-2), g + 1);
  faker := Z;
  seed_faker := fun s => s;
  unique_name := fun _ k => (Some ("name" ++ Z_str k), k + 1);
  unique_email := fun _ k => (Some ("mail" ++ Z_str k ++ "@example.org"), k + 1);
  unique_phone_number := fun _ k => (Some ("+91 98" ++ Z_str k), k + 1);
  fake_city := fun k => ("City" ++ Z_str k, k + 1);
  fake_state := fun k => ("State" ++ Z_str k, k + 1);
  fake_date := fun k => ("2024-01-01", k + 1);
  utcnow_isoformat := fun n => "2024-01-01T00:00:" ++ Z_str (Z.of_nat n);
  round2_mul := fun p q => match p with FNum m e => FNum (m * q) e | _ => p end;
|}.

End Generator.

(** ** Statements used by the properties *)

(** Rows in ascending order of the date in column [c], the rows without a
    date after all the others: the order [sort_values] produces. *)
Definition ascending_na_last (c : string) (l : list row) : Prop :=
  forall (i j : nat) (r1 r2 : row),
    (i < j)%nat -> l !! i = Some r1 -> l !! j = Some r2 ->
    match datetime_key (row_get c r1), datetime_key (row_get c r2) with
    | Some a, Some b => a <= b
    | None, Some _ => False
    | _, None => True
    end.

(** The same with the rows without a date before all the others: the
    policy the specification documents. *)
Definition ascending_na_first (c : string) (l : list row) : Prop :=
  forall (i j : nat) (r1 r2 : row),
    (i < j)%nat -> l !! i = Some r1 -> l !! j = Some r2 ->
    match datetime_key (row_get c r1), datetime_key (row_get c r2) with
    | Some a, Some b => a <= b
    | Some _, None => False
    | None, _ => True
    end.

(** [out] is [l] with, for every key, the first row that has it kept and
    the later ones discarded. *)
Definition first_per_key (key : row -> cell) (l out : list row) : Prop :=
  sublist out l
  /\ List.NoDup (map key out)
  /\ (forall r, In r l -> exists r', In r' out /\ key r' = key r)
  /\ (forall r, In r out -> List.find (fun x => bool_decide (key x = key r)) l = Some r).

(** The order [sort_values] sorts by. *)
Definition row_le (by_ : string) (a b : row) : Prop :=
  key_leb (datetime_key (row_get by_ a)) (datetime_key (row_get by_ b)) = true.

(** The rows [dropna] keeps in clean_customers. *)
Definition has_id_and_name (r : row) : bool :=
  negb (isna (row_get "customer_id" r)) && negb (isna (row_get "name" r)).

(** Every row of [l] has the column [c], and its cell there satisfies [Q]. *)
Definition column_holds (c : string) (Q : cell -> Prop) (l : list row) : Prop :=
  forall r, In r l -> In c (map fst r) /\ Q (row_get c r).

(** A cell as safe_read_csv produces it: missing, or text that is not
    empty. *)
Definition csv_cell (v : cell) : Prop :=
  v = NaN \/ exists s, v = Str s /\ s <> "".

(** ** The stages of clean_products and clean_orders *)

Section Stages.
Context `{L : Lib}.

(** Lines 126-132: the column-wise normalisation of clean_products. *)
Definition normalize_products (df : DataFrame) : res DataFrame :=
  df ← transform "product_id" (fun v => astype_Int64 (to_numeric v)) df;
  df ← transform "product_name" (fun v => Ok (replace_empty (str_strip (astype_str v)))) df;
  df ← transform "category" (fun v => Ok (replace_empty (str_title (astype_str v)))) df;
  df ← transform "brand" (fun v => Ok (replace_empty (str_title (astype_str v)))) df;
  df ← transform "price" (fun v => money_round (to_numeric v) 2) df;
  transform "stock_quantity" (fun v => astype_Int64 (to_numeric v)) df.

(** The rows [dropna] keeps in clean_products. *)
Definition has_id_and_product_name (r : row) : bool :=
  negb (isna (row_get "product_id" r)) && negb (isna (row_get "product_name" r)).

(** A raw product row and the row the normalisation makes of it. *)
Definition normalized_product (raw r : row) : Prop :=
  exists id price stock,
    astype_Int64 (to_numeric (row_get "product_id" raw)) = Ok id
    /\ money_round (to_numeric (row_get "price" raw)) 2 = Ok price
    /\ astype_Int64 (to_numeric (row_get "stock_quantity" raw)) = Ok stock
    /\ r = row_set "stock_quantity" stock
          (row_set "price" price
          (row_set "brand" (replace_empty (str_title (astype_str (row_get "brand" raw))))
          (row_set "category" (replace_empty (str_title (astype_str (row_get "category" raw))))
          (row_set "product_name"
                   (replace_empty (str_strip (astype_str (row_get "product_name" raw))))
          (row_set "product_id" id raw))))).

(** A raw customer row and the row [normalize_customers] makes of it. *)
Definition normalized_customer (raw r : row) : Prop :=
  exists id email phone date,
    astype_Int64 (to_numeric (row_get "customer_id" raw)) = Ok id
    /\ normalize_email (row_get "email" raw) = Ok email
    /\ normalize_phone (row_get "phone" raw) "IN" = Ok phone
    /\ parse_date_safe (row_get "signup_date" raw) = Ok date
    /\ r = row_set "signup_date" date
          (row_set "state" (replace_empty (str_title (astype_str (row_get "state" raw))))
          (row_set "city" (replace_empty (str_title (astype_str (row_get "city" raw))))
          (row_set "phone" phone
          (row_set "email" email
          (row_set "name" (replace_empty (str_strip (astype_str (row_get "name" raw))))
          (row_set "customer_id" id raw)))))).

(** The column the order timestamps are read from (lines 152-155). *)
Definition timestamp_source (df : DataFrame) : string :=
  if has_col "order_timestamp" df then "order_timestamp" else "order_date".

(** The rows the referential filter keeps. *)
Definition references_valid (valid_customers valid_products : gset Z) (r : row) : bool :=
  isin valid_customers (row_get "customer_id" r) && isin valid_products (row_get "product_id" r).

(** A raw order row and the row the normalisation makes of it. *)
Definition normalized_order (src : string) (raw r : row) : Prop :=
  exists oid cid pid qty ts,
    astype_Int64 (to_numeric (row_get "order_id" raw)) = Ok oid
    /\ astype_Int64 (to_numeric (row_get "customer_id" raw)) = Ok cid
    /\ astype_Int64 (to_numeric (row_get "product_id" raw)) = Ok pid
    /\ coerce_quantity (row_get "quantity" raw) = Ok qty
    /\ parse_date_safe (row_get src raw) = Ok ts
    /\ r = row_set "status" (str_title (astype_str (row_get "status" raw)))
          (row_set "payment_method" (str_title (astype_str (row_get "payment_method" raw)))
          (row_set "shipping_city"
                   (replace_empty (str_title (astype_str (row_get "shipping_city" raw))))
          (row_set "order_timestamp" ts
          (row_set "quantity" qty
          (row_set "product_id" pid
          (row_set "customer_id" cid
          (row_set "order_id" oid raw))))))).

(** An order row that passed the referential filter, and the row lines
    167-176 make of it: the value is computed, a missing timestamp is
    replaced by the reading of the clock. *)
Definition finished_order (price_map : gmap Z float) (now : Z) (r0 r : row) : Prop :=
  exists v,
    compute_value price_map r0 = Ok v
    /\ r = row_set "order_timestamp" (fillna (Time now) (row_get "order_timestamp" r0))
                  (row_set "order_value" v r0).

End Stages.

(** Shapes of the cells of a cleaned table. *)
Section Shapes.
Context `{L : Lib}.

Definition int_cell (v : cell) : Prop := exists z, v = Int z.

Definition int_or_missing (v : cell) : Prop := v = NaN \/ exists z, v = Int z.

Definition name_cell (v : cell) : Prop :=
  exists s, v = Str s /\ s <> "" /\ strip s = s.

(** Text as str.title returns it. *)
Definition title_cell (v : cell) : Prop := exists s, v = Str (title s).

Definition title_or_missing (v : cell) : Prop :=
  v = NaN \/ exists s, v = Str (title s) /\ title s <> "".

Definition email_cell (v : cell) : Prop :=
  v = NaN
  \/ exists e, v = Str e /\ e <> ""
               /\ sall (fun c => negb (is_space c)) e = true
               /\ sall (fun c => negb (is_upper c)) e = true.

Definition phone_cell (v : cell) : Prop := v = NaN \/ exists s, v = Str s.

Definition date_cell (v : cell) : Prop := v = NaT \/ exists t, v = Time t.

Definition time_cell (v : cell) : Prop := exists t, v = Time t.

(** The float nearest to an amount of m hundredths, or -0.0. *)
Definition money_cell (v : cell) : Prop :=
  v = NaN \/ v = Flt FNegZero
  \/ exists m, v = Flt (float_round m (-2)) /\ - 10 ^ 28 < m < 10 ^ 28.





(** The Customer, Product and Order rows the cleaners hand back. *)
Definition customer_row (r : row) : Prop :=
  int_cell (row_get "customer_id" r)
  /\ name_cell (row_get "name" r)
  /\ email_cell (row_get "email" r)
  /\ phone_cell (row_get "phone" r)
  /\ title_or_missing (row_get "city" r)
  /\ title_or_missing (row_get "state" r)
  /\ date_cell (row_get "signup_date" r).

Definition product_row (r : row) : Prop :=
  int_cell (row_get "product_id" r)
  /\ name_cell (row_get "product_name" r)
  /\ title_or_missing (row_get "category" r)
  /\ title_or_missing (row_get "brand" r)
  /\ money_cell (row_get "price" r)
  /\ int_or_missing (row_get "stock_quantity" r).

Definition order_row (r : row) : Prop :=
  int_or_missing (row_get "order_id" r)
  /\ int_cell (row_get "customer_id" r)
  /\ int_cell (row_get "product_id" r)
  /\ int_cell (row_get "quantity" r)
  /\ time_cell (row_get "order_timestamp" r)
  /\ title_or_missing (row_get "shipping_city" r)
  /\ title_cell (row_get "payment_method" r)
  /\ title_cell (row_get "status" r)
  /\ money_cell (row_get "order_value" r).

End Shapes.

(** The columns each cleaner reads. *)
Definition customer_inputs : list string :=
  ["customer_id"; "name"; "email"; "phone"; "city"; "state"; "signup_date"].

Definition product_inputs : list string :=
  ["product_id"; "product_name"; "category"; "brand"; "price"; "stock_quantity"].

(** * Properties *)

(** ** The result monad *)

Lemma bind_Ok {A B} (m : res A) (f : A -> res B) (b : B) :
  (m ≫= f) = Ok b -> exists a, m = Ok a /\ f a = Ok b.
Proof. destruct m as [a|e]; simpl; [eauto | discriminate]. Qed.

Lemma mapM_res_Ok {A B} (f : A -> res B) (l : list A) (l' : list B) :
  mapM_res f l = Ok l' -> Forall2 (fun x y => f x = Ok y) l l'.
Proof.
  revert l'. induction l as [|x l IH]; intros l' H; simpl in H.
  - injection H as <-. constructor.
  - apply bind_Ok in H as (y & Hy & H).
    apply bind_Ok in H as (ys & Hys & H).
    injection H as <-. constructor; auto.
Qed.

Lemma Forall2_In_r {A B} (P : A -> B -> Prop) l l' y :
  Forall2 P l l' -> In y l' -> exists x, In x l /\ P x y.
Proof.
  induction 1 as [|x y' l l' HP _ IH]; simpl; [tauto|].
  intros [<- | Hin]; [eauto|].
  destruct (IH Hin) as (x0 & ? & ?); eauto.
Qed.

Lemma Forall2_In_l {A B} (P : A -> B -> Prop) l l' x :
  Forall2 P l l' -> In x l -> exists y, In y l' /\ P x y.
Proof.
  induction 1 as [|x' y l l' HP _ IH]; simpl; [tauto|].
  intros [<- | Hin]; [eauto|].
  destruct (IH Hin) as (y0 & ? & ?); eauto.
Qed.

(** ** Rows and frames *)

Lemma row_get_set_eq c v r : row_get c (row_set c v r) = v.
Proof.
  induction r as [|[k x] r IH]; simpl.
  - now rewrite String.eqb_refl.
  - destruct (String.eqb k c) eqn:E; simpl; rewrite E; auto.
Qed.

Lemma row_get_set_ne c c' v r : c <> c' -> row_get c' (row_set c v r) = row_get c' r.
Proof.
  intros Hne. induction r as [|[k x] r IH]; simpl.
  - destruct (String.eqb c c') eqn:E; [apply String.eqb_eq in E; contradiction | reflexivity].
  - destruct (String.eqb k c) eqn:E; simpl.
    + apply String.eqb_eq in E. subst k.
      destruct (String.eqb c c') eqn:E'; [apply String.eqb_eq in E'; contradiction | reflexivity].
    + now rewrite IH.
Qed.

Lemma row_get_del_ne c c' r : c <> c' -> row_get c' (row_del c r) = row_get c' r.
Proof.
  intros Hne. induction r as [|[k x] r IH]; simpl; [reflexivity|].
  destruct (String.eqb k c) eqn:E; simpl.
  - apply String.eqb_eq in E. subst k.
    destruct (String.eqb c c') eqn:E'; [apply String.eqb_eq in E'; contradiction | exact IH].
  - now rewrite IH.
Qed.

Section Frames.
Context `{L : Lib}.

Lemma assign_Ok c g df df' :
  assign c g df = Ok df' ->
  columns df' = add_col c (columns df)
  /\ Forall2 (fun r r' => exists v, g r = Ok v /\ r' = row_set c v r) (rows df) (rows df').
Proof.
  unfold assign. intros H. apply bind_Ok in H as (rs & Hrs & H).
  injection H as <-. simpl. split; [reflexivity|].
  apply mapM_res_Ok in Hrs.
  eapply Forall2_impl; [exact Hrs|].
  intros r r' Hr. simpl in Hr. apply bind_Ok in Hr as (v & Hv & Hr).
  injection Hr as <-. eauto.
Qed.

Lemma add_col_present c cols : existsb (String.eqb c) cols = true -> add_col c cols = cols.
Proof. unfold add_col. now intros ->. Qed.

Lemma transform_Ok c f df df' :
  transform c f df = Ok df' ->
  has_col c df = true
  /\ columns df' = columns df
  /\ Forall2 (fun r r' => exists v, f (row_get c r) = Ok v /\ r' = row_set c v r)
             (rows df) (rows df').
Proof.
  unfold transform, require. intros H.
  destruct (has_col c df) eqn:Hc; simpl in H; [|discriminate].
  apply assign_Ok in H as [Hcols Hrows].
  split; [reflexivity|]. split; [|exact Hrows].
  rewrite Hcols. now apply add_col_present.
Qed.

(** A column-wise step leaves every other column as it was. *)
Lemma assign_other c g df df' c' :
  assign c g df = Ok df' -> c <> c' ->
  Forall2 (fun r r' => row_get c' r' = row_get c' r) (rows df) (rows df').
Proof.
  intros H Hne. apply assign_Ok in H as [_ H].
  eapply Forall2_impl; [exact H|].
  intros r r' (v & _ & ->). now apply row_get_set_ne.
Qed.

Lemma transform_other c f df df' c' :
  transform c f df = Ok df' -> c <> c' ->
  Forall2 (fun r r' => row_get c' r' = row_get c' r) (rows df) (rows df').
Proof.
  intros H Hne. apply transform_Ok in H as (_ & _ & H).
  eapply Forall2_impl; [exact H|].
  intros r r' (v & _ & ->). now apply row_get_set_ne.
Qed.

End Frames.

(** ** drop_duplicates *)

Section KeepFirst.
Variable key : row -> cell.

Lemma keep_first_In seen l r : In r (keep_first key seen l) -> In r l.
Proof.
  revert seen. induction l as [|x l IH]; intros seen; simpl; [tauto|].
  destruct (bool_decide (key x ∈ seen)).
  - intros H. right. eauto.
  - simpl. intros [H | H]; [now left | right; eauto].
Qed.

Lemma keep_first_fresh seen l r : In r (keep_first key seen l) -> key r ∉ seen.
Proof.
  revert seen. induction l as [|x l IH]; intros seen; simpl; [tauto|].
  destruct (bool_decide (key x ∈ seen)) eqn:E.
  - apply IH.
  - simpl. intros [<- | H].
    + now apply bool_decide_eq_false in E.
    + apply IH in H. intros Hin. apply H. now right.
Qed.

Lemma keep_first_NoDup seen l : List.NoDup (map key (keep_first key seen l)).
Proof.
  revert seen. induction l as [|x l IH]; intros seen; simpl; [constructor|].
  destruct (bool_decide (key x ∈ seen)); [apply IH|].
  simpl. constructor; [|apply IH].
  intros Hin. apply in_map_iff in Hin as (r & Hk & Hr).
  apply keep_first_fresh in Hr. apply Hr. rewrite Hk. now left.
Qed.

Lemma keep_first_sublist seen l : sublist (keep_first key seen l) l.
Proof.
  revert seen. induction l as [|x l IH]; intros seen; simpl; [constructor|].
  destruct (bool_decide (key x ∈ seen)).
  - apply sublist_cons. apply IH.
  - apply sublist_skip. apply IH.
Qed.

End KeepFirst.

Lemma keep_first_covers (key : row -> cell) seen l r :
  In r l -> key r ∈ seen \/ exists r', In r' (keep_first key seen l) /\ key r' = key r.
Proof.
  revert seen. induction l as [|x l IH]; intros seen; simpl; [tauto|].
  intros [-> | Hin].
  - destruct (bool_decide (key r ∈ seen)) eqn:E.
    + left. now apply bool_decide_eq_true in E.
    + right. exists r. split; [now left | reflexivity].
  - destruct (bool_decide (key x ∈ seen)) eqn:E.
    + apply IH, Hin.
    + destruct (IH (key x :: seen) Hin) as [Hs | (r' & Hr' & Hk)].
      * apply elem_of_cons in Hs as [Hs | Hs].
        -- right. exists x. split; [now left | now symmetry].
        -- now left.
      * right. exists r'. split; [now right | exact Hk].
Qed.

Lemma keep_first_find (key : row -> cell) seen l r :
  In r (keep_first key seen l) ->
  List.find (fun x => bool_decide (key x = key r)) l = Some r.
Proof.
  revert seen. induction l as [|x l IH]; intros seen; simpl; [tauto|].
  destruct (bool_decide (key x ∈ seen)) eqn:E.
  - intros Hin. pose proof (keep_first_fresh key _ _ _ Hin) as Hfresh.
    apply bool_decide_eq_true in E.
    rewrite bool_decide_eq_false_2; [eapply IH, Hin|].
    intros Heq. apply Hfresh. now rewrite <- Heq.
  - simpl. intros [<- | Hin].
    + now rewrite bool_decide_eq_true_2.
    + pose proof (keep_first_fresh key _ _ _ Hin) as Hfresh.
      rewrite bool_decide_eq_false_2; [eapply IH, Hin|].
      intros Heq. apply Hfresh. rewrite <- Heq. now left.
Qed.

Lemma keep_first_spec (key : row -> cell) l :
  first_per_key key l (keep_first key [] l).
Proof.
  repeat split.
  - apply keep_first_sublist.
  - apply keep_first_NoDup.
  - intros r Hin. destruct (keep_first_covers key [] l r Hin) as [Hs | H]; [|exact H].
    now apply elem_of_nil in Hs.
  - intros r. apply keep_first_find.
Qed.

Lemma keep_first_map (f : row -> row) (key key' : row -> cell) seen l :
  (forall r, key (f r) = key' r) ->
  keep_first key seen (map f l) = map f (keep_first key' seen l).
Proof.
  intros Hk. revert seen. induction l as [|x l IH]; intros seen; simpl; [reflexivity|].
  rewrite Hk. destruct (bool_decide (key' x ∈ seen)); simpl; now rewrite IH.
Qed.

(** ** sort_values *)

Lemma key_leb_total a b : key_leb a b = false -> key_leb b a = true.
Proof. destruct a, b; simpl; try congruence. intros H. apply Z.leb_gt in H. apply Z.leb_le. lia. Qed.

Lemma key_leb_trans a b c : key_leb a b = true -> key_leb b c = true -> key_leb a c = true.
Proof.
  destruct a, b, c; simpl; try congruence.
  rewrite !Z.leb_le. lia.
Qed.

Lemma ranked_leb_key by_ a b :
  ranked_leb by_ a b = true -> row_le by_ (snd a) (snd b).
Proof.
  unfold ranked_leb, row_le.
  destruct (datetime_key (row_get by_ (snd a))) as [x|],
           (datetime_key (row_get by_ (snd b))) as [y|]; simpl; try congruence.
  intros H. apply Z.leb_le. apply orb_true_iff in H as [H | H].
  - apply Z.ltb_lt in H. lia.
  - apply andb_true_iff in H as [H _]. apply Z.eqb_eq in H. lia.
Qed.

Lemma ranked_leb_total by_ a b :
  ranked_leb by_ a b = false -> row_le by_ (snd b) (snd a).
Proof.
  unfold ranked_leb, row_le.
  destruct (datetime_key (row_get by_ (snd a))) as [x|],
           (datetime_key (row_get by_ (snd b))) as [y|]; simpl; try congruence.
  intros H. apply Z.leb_le. apply orb_false_iff in H as [H _].
  apply Z.ltb_ge in H. exact H.
Qed.

Lemma with_ranks_rows ranks l : map snd (with_ranks ranks l) = l.
Proof.
  revert ranks. induction l as [|x l IH]; intros ranks; simpl; [reflexivity|].
  now rewrite IH.
Qed.

Lemma sorted_map_snd (R : row -> row -> Prop) (l : list (nat * row)) :
  StronglySorted (fun a b => R (snd a) (snd b)) l -> StronglySorted R (map snd l).
Proof.
  induction 1 as [|x l Hs IH Hall]; simpl; constructor; [exact IH|].
  apply List.Forall_forall. intros y Hy. apply in_map_iff in Hy as (z & <- & Hz).
  rewrite List.Forall_forall in Hall. now apply Hall.
Qed.

Section Sorting.
Context `{L : Lib}.
Variable by_ : string.

Lemma insert_sorted_perm r l : Permutation (insert_sorted by_ r l) (r :: l).
Proof.
  induction l as [|x l IH]; simpl; [reflexivity|].
  destruct (ranked_leb by_ r x); [reflexivity|].
  rewrite IH. apply perm_swap.
Qed.

Lemma insertion_perm (l : list (nat * row)) :
  Permutation (foldr (insert_sorted by_) [] l) l.
Proof.
  induction l as [|x l IH]; simpl; [reflexivity|].
  rewrite insert_sorted_perm. now constructor.
Qed.

Lemma sort_rows_perm l : Permutation (sort_rows by_ l) l.
Proof.
  unfold sort_rows.
  rewrite (Permutation_map snd (insertion_perm _)). now rewrite with_ranks_rows.
Qed.

Lemma insert_sorted_sorted r l :
  StronglySorted (fun a b => row_le by_ (snd a) (snd b)) l ->
  StronglySorted (fun a b => row_le by_ (snd a) (snd b)) (insert_sorted by_ r l).
Proof.
  induction 1 as [|x l Hs IH Hall]; simpl.
  - repeat constructor.
  - destruct (ranked_leb by_ r x) eqn:E.
    + constructor; [now constructor|].
      apply ranked_leb_key in E.
      constructor; [exact E|].
      eapply Forall_impl; [exact Hall|].
      intros y Hy. unfold row_le in *. eapply key_leb_trans; eauto.
    + constructor; [exact IH|].
      eapply Permutation_Forall; [symmetry; apply insert_sorted_perm|].
      constructor; [|exact Hall]. now apply ranked_leb_total.
Qed.

Lemma sort_rows_sorted l : StronglySorted (row_le by_) (sort_rows by_ l).
Proof.
  unfold sort_rows. apply sorted_map_snd.
  induction (with_ranks _ l) as [|x p IH]; [constructor|].
  simpl. now apply insert_sorted_sorted.
Qed.

Lemma lookup_In (l : list row) (j : nat) r : l !! j = Some r -> In r l.
Proof.
  revert j. induction l as [|x l IH]; intros [|j]; simpl; try discriminate.
  - intros [= ->]. now left.
  - intros H. right. eauto.
Qed.

Lemma sorted_lookup l (i j : nat) r1 r2 :
  StronglySorted (row_le by_) l -> (i < j)%nat ->
  l !! i = Some r1 -> l !! j = Some r2 -> row_le by_ r1 r2.
Proof.
  intros Hs. revert i j. induction Hs as [|x l Hs IH Hall]; intros i j Hij Hi Hj.
  - destruct i; discriminate.
  - destruct j as [|j]; [now apply Nat.nlt_0_r in Hij|].
    simpl in Hj. destruct i as [|i]; simpl in Hi.
    + injection Hi as <-. rewrite Forall_forall in Hall. apply Hall.
      apply list_elem_of_In. eapply lookup_In, Hj.
    + apply (IH i j); [lia | exact Hi | exact Hj].
Qed.

Lemma sort_rows_ascending l : ascending_na_last by_ (sort_rows by_ l).
Proof.
  intros i j r1 r2 Hij Hi Hj.
  pose proof (sorted_lookup _ _ _ _ _ (sort_rows_sorted l) Hij Hi Hj) as H.
  unfold row_le, key_leb in H.
  destruct (datetime_key (row_get by_ r1)), (datetime_key (row_get by_ r2));
    try discriminate; try exact I.
  now apply Z.leb_le.
Qed.

End Sorting.

(** ** clean_orders *)

Section Orders.
Context `{L : Lib}.

Lemma finish_orders_Ok pm now d f :
  finish_orders pm now d = Ok f ->
  exists a b,
    rows d <> []
    /\ assign "order_value" (compute_value pm) d = Ok a
    /\ assign "order_timestamp"
         (fun r => Ok (fillna (Time now) (row_get "order_timestamp" r))) a = Ok b
    /\ f = drop_duplicates "order_id" (sort_values "order_timestamp" b).
Proof.
  unfold finish_orders. intros H.
  apply bind_Ok in H as (a & Ha & H).
  apply bind_Ok in H as (b & Hb & H).
  injection H as <-. exists a, b.
  unfold assign_apply in Ha. destruct (rows d) eqn:E; [discriminate|].
  repeat split; auto.
Qed.

(** Every row that leaves [finish_orders] is a row that entered it, with
    the order value and the timestamp filled in. *)
Lemma finish_orders_origin pm now d f r :
  finish_orders pm now d = Ok f -> In r (rows f) ->
  exists r0 v1 v2,
    In r0 (rows d) /\ r = row_set "order_timestamp" v2 (row_set "order_value" v1 r0).
Proof.
  intros H Hin. apply finish_orders_Ok in H as (a & b & _ & Ha & Hb & ->).
  simpl in Hin. apply keep_first_In in Hin.
  apply (Permutation_in _ (sort_rows_perm _ _)) in Hin.
  apply assign_Ok in Ha as [_ Ha]. apply assign_Ok in Hb as [_ Hb].
  destruct (Forall2_In_r _ _ _ _ Hb Hin) as (ra & Hra & v2 & _ & ->).
  destruct (Forall2_In_r _ _ _ _ Ha Hra) as (r0 & Hr0 & v1 & _ & ->).
  eauto.
Qed.

Lemma isin_true valid v : isin valid v = true -> exists z, v = Int z /\ z ∈ valid.
Proof.
  destruct v; simpl; try discriminate.
  intros H. apply bool_decide_eq_true in H. eauto.
Qed.

(** C1. Referential invariant: every order row that survives clean_orders,
    for any raw rows, any sets of valid ids and any price map, has its
    customer_id in valid_customers and its product_id in valid_products. *)
Theorem C1_referential_invariant
    (df : DataFrame) (valid_customers valid_products : gset Z)
    (price_map : gmap Z float) (now : Z) (out : DataFrame) (log : list output) :
  clean_orders df valid_customers valid_products price_map now = Ok (out, log) ->
  forall r, In r (rows out) ->
    (exists c, row_get "customer_id" r = Int c /\ c ∈ valid_customers)
    /\ (exists p, row_get "product_id" r = Int p /\ p ∈ valid_products).
Proof.
  unfold clean_orders. intros H r Hin.
  apply bind_Ok in H as (n & _ & H). simpl in H.
  apply bind_Ok in H as (f & Hf & H). injection H as <- _.
  destruct (finish_orders_origin _ _ _ _ _ Hf Hin) as (r0 & v1 & v2 & Hr0 & ->).
  rewrite !row_get_set_ne by discriminate.
  unfold filter_valid in Hr0. simpl in Hr0.
  apply filter_In in Hr0 as [Hr0 Hp]. apply filter_In in Hr0 as [_ Hc].
  split; [apply isin_true, Hc | apply isin_true, Hp].
Qed.

(** No two rows of the output of clean_orders share an order_id. *)
Lemma clean_orders_unique df vc vp pm now out log :
  clean_orders df vc vp pm now = Ok (out, log) ->
  List.NoDup (map (row_get "order_id") (rows out)).
Proof.
  unfold clean_orders. intros H.
  apply bind_Ok in H as (n & _ & H). simpl in H.
  apply bind_Ok in H as (f & Hf & H). injection H as <- _.
  apply finish_orders_Ok in Hf as (a & b & _ & _ & _ & ->).
  apply keep_first_NoDup.
Qed.

End Orders.

(** C1 at work on the sample orders: three rows survive, each with valid
    references. *)
Lemma C1_referential_invariant_witness :
  exists out log,
    clean_orders (L := RefLib) Sample.orders Sample.valid_customers Sample.valid_products
                 Sample.price_map Sample.now = Ok (out, log)
    /\ List.length (rows out) = 3%nat
    /\ forall r, In r (rows out) ->
         (exists c, row_get "customer_id" r = Int c /\ c ∈ Sample.valid_customers)
         /\ (exists p, row_get "product_id" r = Int p /\ p ∈ Sample.valid_products).
Proof.
  eexists _, _. split; [vm_compute; reflexivity|].
  split; [reflexivity|].
  eapply (C1_referential_invariant (L := RefLib) Sample.orders Sample.valid_customers
           Sample.valid_products Sample.price_map Sample.now).
  vm_compute. reflexivity.
Defined.

(** ** clean_customers and clean_products *)

Lemma Forall2_compose {A B C} (P : A -> B -> Prop) (Q : B -> C -> Prop) (R : A -> C -> Prop)
    l1 l2 l3 :
  (forall a b c, P a b -> Q b c -> R a c) ->
  Forall2 P l1 l2 -> Forall2 Q l2 l3 -> Forall2 R l1 l3.
Proof.
  intros HR H. revert l3. induction H as [|a b l1 l2 Hab _ IH]; intros l3 H3;
    inversion H3; subst; constructor; eauto.
Qed.

Lemma row_del_set c v r : row_del c (row_set c v r) = row_del c r.
Proof.
  induction r as [|[k x] r IH]; simpl.
  - now rewrite String.eqb_refl.
  - destruct (String.eqb k c) eqn:E; simpl; rewrite E; simpl; [reflexivity | now rewrite IH].
Qed.

Lemma dropna_id_name (df : DataFrame) :
  rows (dropna ["customer_id"; "name"] df) = List.filter has_id_and_name (rows df).
Proof.
  unfold dropna. simpl. apply filter_ext. intros r. unfold has_id_and_name.
  now destruct (isna (row_get "customer_id" r)), (isna (row_get "name" r)).
Qed.

Section Customers.
Context `{L : Lib}.

Lemma dup_key_row_del r : dup_key (row_del "dup_key" r) = dup_key r.
Proof. unfold dup_key. now rewrite !row_get_del_ne by discriminate. Qed.

Lemma mapM_res_pure {A B} (f : A -> B) (l : list A) :
  mapM_res (fun x => Ok (f x)) l = Ok (map f l).
Proof. induction l as [|x l IH]; cbn; [reflexivity | now rewrite IH]. Qed.

Lemma assign_pure c (g : row -> cell) df :
  assign c (fun r => Ok (g r)) df
  = Ok (mkDF (add_col c (columns df)) (map (fun r => row_set c (g r) r) (rows df))).
Proof.
  unfold assign.
  change (mapM_res _ (rows df)) with (mapM_res (fun r => Ok (row_set c (g r) r)) (rows df)).
  now rewrite mapM_res_pure.
Qed.

Lemma dedup_customers_Ok d :
  exists o,
    dedup_customers d = Ok o
    /\ rows o = map (row_del "dup_key")
                    (keep_first dup_key [] (sort_rows "signup_date" (rows d))).
Proof.
  unfold dedup_customers. rewrite assign_pure.
  eexists. split; [reflexivity|]. simpl.
  rewrite (keep_first_map (fun r => row_set "dup_key" (dup_key r) r) (row_get "dup_key") dup_key)
    by (intros r; apply row_get_set_eq).
  rewrite map_map. apply map_ext. intros r. apply row_del_set.
Qed.

(** The output of clean_customers, read off the code: normalise, drop the
    rows without id or name, sort by signup date, keep the first row of
    every key, drop the key column. *)
Lemma clean_customers_Ok df out log :
  clean_customers df = Ok (out, log) ->
  exists n,
    normalize_customers df = Ok n
    /\ rows out = map (row_del "dup_key")
                      (keep_first dup_key []
                         (sort_rows "signup_date" (List.filter has_id_and_name (rows n)))).
Proof.
  unfold clean_customers. intros H.
  apply bind_Ok in H as (n & Hn & H).
  destruct (dedup_customers_Ok (dropna ["customer_id"; "name"] n)) as (o & Ho & Hrows).
  cbv zeta in H. rewrite Ho in H. injection H as <- _.
  exists n. split; [exact Hn|].
  now rewrite Hrows, dropna_id_name.
Qed.

Lemma clean_customers_unique df out log :
  clean_customers df = Ok (out, log) -> List.NoDup (map dup_key (rows out)).
Proof.
  intros H. apply clean_customers_Ok in H as (n & _ & ->).
  rewrite map_map.
  rewrite (map_ext _ dup_key) by (intros r; apply dup_key_row_del).
  apply keep_first_NoDup.
Qed.

Lemma clean_products_unique df out log :
  clean_products df = Ok (out, log) -> List.NoDup (map (row_get "product_id") (rows out)).
Proof.
  unfold clean_products. intros H.
  repeat (apply bind_Ok in H as (? & _ & H)).
  simpl in H. injection H as <- _. apply keep_first_NoDup.
Qed.

(** C2. Dedup invariant: after cleaning, for any raw input, no two rows of
    the output of clean_customers have equal dedup keys (email if present,
    else phone if present, else name followed by the signup date as text),
    no two rows of the output of clean_products have equal product_id, and
    no two rows of the output of clean_orders have equal order_id. *)
Theorem C2_dedup_invariant :
  (forall df out log,
     clean_customers df = Ok (out, log) -> List.NoDup (map dup_key (rows out)))
  /\ (forall df out log,
        clean_products df = Ok (out, log) ->
        List.NoDup (map (row_get "product_id") (rows out)))
  /\ (forall df valid_customers valid_products price_map now out log,
        clean_orders df valid_customers valid_products price_map now = Ok (out, log) ->
        List.NoDup (map (row_get "order_id") (rows out))).
Proof.
  split; [|split].
  - apply clean_customers_unique.
  - apply clean_products_unique.
  - apply clean_orders_unique.
Qed.

(** What the dedup key of a row is, case by case. *)
Lemma dup_key_cases r :
  (isna (row_get "email" r) = false -> dup_key r = row_get "email" r)
  /\ (isna (row_get "email" r) = true -> isna (row_get "phone" r) = false ->
      dup_key r = row_get "phone" r)
  /\ (isna (row_get "email" r) = true -> isna (row_get "phone" r) = true ->
      forall name, row_get "name" r = Str name ->
      dup_key r = Str (name ++ py_str (row_get "signup_date" r))).
Proof.
  unfold dup_key, fillna. repeat split.
  - now intros ->.
  - now intros -> ->.
  - intros -> -> name ->. reflexivity.
Qed.

(** C3 (amended). In clean_customers, after the rows without customer_id or
    name are dropped, the remaining rows are sorted by signup_date
    ascending with the absent dates after all present dates; the dedup key
    of a row is its email if present, else its phone if present, else its
    name followed by its signup_date as text; exactly the first row per
    dedup key in that sorted order is kept and the later rows with the same
    key are discarded. *)
Theorem C3_sort_and_dedup (df out : DataFrame) (log : list output) :
  clean_customers df = Ok (out, log) ->
  exists n sorted picked,
    normalize_customers df = Ok n
    /\ Permutation sorted (List.filter has_id_and_name (rows n))
    /\ ascending_na_last "signup_date" sorted
    /\ first_per_key dup_key sorted picked
    /\ rows out = map (row_del "dup_key") picked
    /\ forall r, In r sorted ->
         (isna (row_get "email" r) = false -> dup_key r = row_get "email" r)
         /\ (isna (row_get "email" r) = true -> isna (row_get "phone" r) = false ->
             dup_key r = row_get "phone" r)
         /\ (isna (row_get "email" r) = true -> isna (row_get "phone" r) = true ->
             forall name, row_get "name" r = Str name ->
             dup_key r = Str (name ++ py_str (row_get "signup_date" r))).
Proof.
  intros H. apply clean_customers_Ok in H as (n & Hn & Hrows).
  exists n, (sort_rows "signup_date" (List.filter has_id_and_name (rows n))),
    (keep_first dup_key [] (sort_rows "signup_date" (List.filter has_id_and_name (rows n)))).
  split; [exact Hn|].
  split; [apply sort_rows_perm|].
  split; [apply sort_rows_ascending|].
  split; [apply keep_first_spec|].
  split; [exact Hrows|].
  intros r _. apply dup_key_cases.
Qed.

End Customers.

Section NullEmail.
Context `{L : Lib}.

Lemma normalize_email_NaN : normalize_email NaN = Ok (Str "nan").
Proof. reflexivity. Qed.

(** The email column of the normalised frame is normalize_email of the raw
    column. *)
Lemma normalize_customers_email df n :
  normalize_customers df = Ok n ->
  Forall2 (fun raw r => normalize_email (row_get "email" raw) = Ok (row_get "email" r))
          (rows df) (rows n).
Proof.
  unfold normalize_customers. intros H.
  apply bind_Ok in H as (d1 & H1 & H). apply bind_Ok in H as (d2 & H2 & H).
  apply bind_Ok in H as (d3 & H3 & H). apply bind_Ok in H as (d4 & H4 & H).
  apply bind_Ok in H as (d5 & H5 & H). apply bind_Ok in H as (d6 & H6 & H).
  apply transform_other with (c' := "email") in H1; [|discriminate].
  apply transform_other with (c' := "email") in H2; [|discriminate].
  apply transform_Ok in H3 as (_ & _ & H3).
  apply transform_other with (c' := "email") in H4; [|discriminate].
  apply transform_other with (c' := "email") in H5; [|discriminate].
  apply transform_other with (c' := "email") in H6; [|discriminate].
  apply transform_other with (c' := "email") in H; [|discriminate].
  pose proof (Forall2_compose _ _ (fun a c => row_get "email" c = row_get "email" a)
                _ _ _ (fun a b c Hab Hbc => eq_trans Hbc Hab) H1 H2) as E12.
  pose proof (Forall2_compose _ _ (fun a c => row_get "email" c = row_get "email" a)
                _ _ _ (fun a b c Hab Hbc => eq_trans Hbc Hab) H4 H5) as E45.
  pose proof (Forall2_compose _ _ (fun a c => row_get "email" c = row_get "email" a)
                _ _ _ (fun a b c Hab Hbc => eq_trans Hbc Hab) H6 H) as E67.
  pose proof (Forall2_compose _ _ (fun a c => row_get "email" c = row_get "email" a)
                _ _ _ (fun a b c Hab Hbc => eq_trans Hbc Hab) E45 E67) as E47.
  assert (E13 : Forall2 (fun raw r => normalize_email (row_get "email" raw)
                                      = Ok (row_get "email" r)) (rows df) (rows d3)).
  { eapply Forall2_compose; [|exact E12|exact H3].
    intros a b c Hab (v & Hv & ->). rewrite row_get_set_eq, <- Hab. exact Hv. }
  eapply Forall2_compose; [|exact E13|exact E47].
  intros a b c Hab Hbc. simpl in Hbc. now rewrite Hbc.
Qed.

Lemma at_most_one_with_key (key : row -> cell) (p : row -> bool) (k : cell) (l : list row) :
  List.NoDup (map key l) ->
  (forall r, In r l -> p r = true -> key r = k) ->
  (List.length (List.filter p l) <= 1)%nat.
Proof.
  induction l as [|x l IH]; simpl; intros Hnd Hk; [lia|].
  inversion Hnd as [|? ? Hx Hnd']; subst.
  destruct (p x) eqn:Px; [|apply IH; auto].
  simpl. destruct (List.filter p l) as [|y l'] eqn:E; [simpl; lia|].
  exfalso. apply Hx.
  assert (Hy : In y (List.filter p l)) by (rewrite E; now left).
  apply filter_In in Hy as [Hy Py].
  rewrite (Hk x (or_introl eq_refl) Px), <- (Hk y (or_intror Hy) Py).
  now apply in_map.
Qed.

(** C4. normalize_email applied to the missing marker NaN (what a blank,
    "NA" or "NaN" CSV cell is read as) returns the text "nan", not an
    absent value; so in clean_customers every row whose raw email was a
    null marker gets the email "nan" and the dedup key "nan", and at most
    one customer with that email survives deduplication. *)
Theorem C4_null_email_becomes_nan :
  normalize_email NaN = Ok (Str "nan")
  /\ normalize_email (Str "") = Ok NaN
  /\ (forall s, s = "" \/ s = "NA" \/ s = "NaN" -> read_cell s = NaN)
  /\ (forall df n,
        normalize_customers df = Ok n ->
        Forall2 (fun raw r =>
                   row_get "email" raw = NaN ->
                   row_get "email" r = Str "nan" /\ dup_key r = Str "nan")
                (rows df) (rows n))
  /\ (forall df out log,
        clean_customers df = Ok (out, log) ->
        (List.length
           (List.filter (fun r => bool_decide (row_get "email" r = Str "nan")) (rows out))
         <= 1)%nat).
Proof.
  split; [reflexivity|]. split; [reflexivity|]. split; [|split].
  - intros s [-> | [-> | ->]]; reflexivity.
  - intros df n Hn. apply normalize_customers_email in Hn.
    eapply Forall2_impl; [exact Hn|].
    intros raw r Hr Hraw. cbv beta in Hr. rewrite Hraw, normalize_email_NaN in Hr.
    injection Hr as Hr. split; [now symmetry|].
    unfold dup_key. now rewrite <- Hr.
  - intros df out log H. apply clean_customers_unique in H.
    apply (at_most_one_with_key dup_key _ (Str "nan")); [exact H|].
    intros r _ Hr. apply bool_decide_eq_true in Hr.
    unfold dup_key. now rewrite Hr.
Qed.

End NullEmail.

(** C2 on the sample tables. *)
Lemma C2_dedup_invariant_witness :
  (exists out log,
     clean_customers (L := RefLib) Sample.customers = Ok (out, log)
     /\ List.NoDup (map (dup_key (L := RefLib)) (rows out)))
  /\ (exists out log,
        clean_products (L := RefLib) Sample.products = Ok (out, log)
        /\ List.NoDup (map (row_get "product_id") (rows out)))
  /\ (exists out log,
        clean_orders (L := RefLib) Sample.orders Sample.valid_customers
                     Sample.valid_products Sample.price_map Sample.now = Ok (out, log)
        /\ List.NoDup (map (row_get "order_id") (rows out))).
Proof.
  destruct (C2_dedup_invariant (L := RefLib)) as (Hc & Hp & Ho).
  split; [|split].
  - eexists _, _. split; [vm_compute; reflexivity|].
    eapply (Hc Sample.customers). vm_compute. reflexivity.
  - eexists _, _. split; [vm_compute; reflexivity|].
    eapply (Hp Sample.products). vm_compute. reflexivity.
  - eexists _, _. split; [vm_compute; reflexivity|].
    eapply (Ho Sample.orders Sample.valid_customers Sample.valid_products
               Sample.price_map Sample.now).
    vm_compute. reflexivity.
Defined.

(** C3 as stated fails: on the sample customers the one row without a
    signup date (customer 3) comes after the dated rows, both in the sorted
    intermediate frame and in the output. *)
Lemma C3_absent_dates_first_counterexample :
  exists n out log,
    normalize_customers (L := RefLib) Sample.customers = Ok n
    /\ clean_customers (L := RefLib) Sample.customers = Ok (out, log)
    /\ map (row_get "customer_id") (rows out) = [Int 4; Int 2; Int 3]
    /\ map (row_get "signup_date") (rows out)
       = [Time 1704016800000000000; Time 1705276800000000000; NaT]
    /\ ~ ascending_na_first "signup_date"
           (sort_rows (L := RefLib) "signup_date" (List.filter has_id_and_name (rows n)))
    /\ ~ ascending_na_first "signup_date" (rows out).
Proof.
  eexists _, _, _. split; [vm_compute; reflexivity|].
  split; [vm_compute; reflexivity|].
  split; [reflexivity|]. split; [reflexivity|].
  split.
  - intros H. specialize (H 0%nat 3%nat). vm_compute in H.
    exact (H _ _ (le_S _ _ (le_S _ _ (le_n 1))) eq_refl eq_refl).
  - intros H. specialize (H 0%nat 2%nat). vm_compute in H.
    exact (H _ _ (le_S _ _ (le_n 1)) eq_refl eq_refl).
Qed.

(** C3 (amended) on the sample customers. *)
Lemma C3_sort_and_dedup_witness :
  exists out log,
    clean_customers (L := RefLib) Sample.customers = Ok (out, log)
    /\ exists n sorted picked,
         normalize_customers (L := RefLib) Sample.customers = Ok n
         /\ Permutation sorted (List.filter has_id_and_name (rows n))
         /\ ascending_na_last "signup_date" sorted
         /\ first_per_key (dup_key (L := RefLib)) sorted picked
         /\ rows out = map (row_del "dup_key") picked
         /\ forall r, In r sorted ->
              (isna (row_get "email" r) = false -> dup_key (L := RefLib) r = row_get "email" r)
              /\ (isna (row_get "email" r) = true -> isna (row_get "phone" r) = false ->
                  dup_key (L := RefLib) r = row_get "phone" r)
              /\ (isna (row_get "email" r) = true -> isna (row_get "phone" r) = true ->
                  forall name, row_get "name" r = Str name ->
                  dup_key (L := RefLib) r
                  = Str (name ++ py_str (L := RefLib) (row_get "signup_date" r))).
Proof.
  eexists _, _. split; [vm_compute; reflexivity|].
  eapply (C3_sort_and_dedup (L := RefLib) Sample.customers).
  vm_compute. reflexivity.
Defined.

(** C4 on the sample customers: customer 4 has a blank email, and ends up
    with the email "nan". *)
Lemma C4_null_email_becomes_nan_witness :
  exists n out log,
    normalize_customers (L := RefLib) Sample.customers = Ok n
    /\ clean_customers (L := RefLib) Sample.customers = Ok (out, log)
    /\ Forall2 (fun raw r =>
                  row_get "email" raw = NaN ->
                  row_get "email" r = Str "nan" /\ dup_key (L := RefLib) r = Str "nan")
               (rows Sample.customers) (rows n)
    /\ map (row_get "email") (rows out) = [Str "nan"; Str "asha@example.com"; NaN]
    /\ (List.length
          (List.filter (fun r => bool_decide (row_get "email" r = Str "nan")) (rows out))
        <= 1)%nat.
Proof.
  eexists _, _, _. split; [vm_compute; reflexivity|].
  split; [vm_compute; reflexivity|].
  split; [|split; [reflexivity|]].
  - destruct (C4_null_email_becomes_nan (L := RefLib)) as (_ & _ & _ & H & _).
    eapply (H Sample.customers). vm_compute. reflexivity.
  - destruct (C4_null_email_becomes_nan (L := RefLib)) as (_ & _ & _ & _ & H).
    eapply (H Sample.customers). vm_compute. reflexivity.
Defined.

(** ** money_round *)



Lemma count_digits_lt fuel c n :
  0 <= c -> Z.log2 c <= Z.of_nat fuel -> count_digits fuel c <= n -> c < 10 ^ n.
Proof.
  revert c n. induction fuel as [|fuel IH]; intros c n Hc Hlog Hn; simpl in Hn.
  - assert (c < 2).
    { destruct (Z_lt_le_dec c 2) as [|Hge]; [assumption|].
      pose proof (Z.log2_le_mono 2 c Hge) as Hl. change (Z.log2 2) with 1 in Hl. lia. }
    assert (10 ^ 1 <= 10 ^ n) by (apply Z.pow_le_mono_r; lia).
    change (10 ^ 1) with 10 in *. lia.
  - destruct (c <? 10) eqn:E.
    + apply Z.ltb_lt in E.
      assert (10 ^ 1 <= 10 ^ n) by (apply Z.pow_le_mono_r; lia).
      change (10 ^ 1) with 10 in *. lia.
    + apply Z.ltb_ge in E.
      assert (Hq : 1 <= c / 10) by (apply Z.div_le_lower_bound; lia).
      assert (Hfuel : Z.log2 (c / 10) <= Z.of_nat fuel).
      { pose proof (Z.log2_double (c / 10) ltac:(lia)) as Hd.
        assert (2 * (c / 10) <= c).
        { pose proof (Z.div_mod c 10 ltac:(lia)).
          pose proof (Z.mod_pos_bound c 10 ltac:(lia)). lia. }
        pose proof (Z.log2_le_mono (2 * (c / 10)) c ltac:(lia)). lia. }
      assert (Hcnt : 1 <= count_digits fuel (c / 10)).
      { clear. generalize (c / 10). induction fuel as [|f IHf]; intros z; simpl; [lia|].
        destruct (z <? 10); [lia|]. specialize (IHf (z / 10)). lia. }
      specialize (IH (c / 10) (n - 1) ltac:(lia) Hfuel ltac:(lia)).
      replace n with (1 + (n - 1)) by lia. rewrite Z.pow_add_r by lia.
      change (10 ^ 1) with 10.
      pose proof (Z.div_mod c 10 ltac:(lia)).
      pose proof (Z.mod_pos_bound c 10 ltac:(lia)). lia.
Qed.

Lemma num_digits_lt c n : 0 <= c -> num_digits c <= n -> c < 10 ^ n.
Proof.
  intros Hc. apply count_digits_lt; [exact Hc|].
  pose proof (Z.log2_nonneg c). lia.
Qed.

Lemma digits_value_app acc a b :
  digits_value acc (a ++ b) = digits_value (digits_value acc a) b.
Proof. revert acc. induction a as [|ch a IH]; intros acc; simpl; [reflexivity | apply IH]. Qed.

Lemma digits_value_span s acc :
  0 <= acc -> 0 <= digits_value acc (fst (span_digits s)).
Proof.
  revert acc. induction s as [|ch s IH]; intros acc Hacc; simpl; [exact Hacc|].
  destruct (is_digit ch) eqn:E; simpl; [|exact Hacc].
  destruct (span_digits s) as [d r] eqn:Es. simpl in *. apply IH.
  unfold is_digit in E. apply andb_true_iff in E as [E _].
  apply N.leb_le in E. lia.
Qed.

(** The coefficient Decimal reads from a string is not negative. *)
Lemma Decimal_of_string_coeff s neg c e :
  Decimal_of_string s = Some (DFinite neg c e) -> 0 <= c.
Proof.
  unfold Decimal_of_string.
  destruct (sign_split _) as [sg u].
  destruct (String.eqb u "inf" || String.eqb u "infinity"); [discriminate|].
  destruct (drop_prefix "nan" u); [destruct (all_digits _); discriminate|].
  destruct (drop_prefix "snan" u); [destruct (all_digits _); discriminate|].
  pose proof (digits_value_span u 0 (Z.le_refl 0)) as Hip.
  destruct (span_digits u) as [ip r1]. simpl in Hip.
  assert (Hfp : forall fp r2,
             match drop_prefix "." r1 with
             | Some r' => span_digits r'
             | None => ("", r1)
             end = (fp, r2) -> 0 <= digits_value 0 (ip ++ fp)).
  { intros fp r2 Hfp. rewrite digits_value_app.
    destruct (drop_prefix "." r1) as [r'|].
    - pose proof (digits_value_span r' _ Hip) as H'. now rewrite Hfp in H'.
    - injection Hfp as <- _. exact Hip. }
  destruct (match drop_prefix "." r1 with
            | Some r' => span_digits r'
            | None => ("", r1)
            end) as [fp r2].
  specialize (Hfp fp r2 eq_refl).
  destruct (String.eqb ip "" && String.eqb fp ""); [discriminate|].
  destruct (parse_exponent r2); [|discriminate].
  intros [= _ <- _]. exact Hfp.
Qed.




Section MoneyRound.
Context `{L : Lib}.





End MoneyRound.

(** C5 as stated fails for large amounts: the float 1e26 is numeric and
    money_round returns absent for it, and an amount of 17 digits comes
    back as the nearest float, which is not the amount rounded to 2
    digits. *)
Lemma C5_large_amount_counterexample :
  Decimal_of_string (py_str (L := RefLib) (Flt (FNum 1 26))) = Some (DFinite false 1 26)
  /\ money_round (L := RefLib) (Flt (FNum 1 26)) 2 = Ok NaN
  /\ money_round (L := RefLib) (Str "200000000000000.02") 2
     = Ok (Flt (FNum 20000000000000003 (-2)))
  /\ ~ (forall x neg c e,
          Decimal_of_string (py_str (L := RefLib) x) = Some (DFinite neg c e) ->
          exists r, money_round (L := RefLib) x 2 = Ok (Flt (FNum r (-2)))).
Proof.
  split; [vm_compute; reflexivity|]. split; [vm_compute; reflexivity|].
  split; [vm_compute; reflexivity|].
  intros H. destruct (H (Flt (FNum 1 26)) false 1 26) as (r & Hr).
  - vm_compute. reflexivity.
  - vm_compute in Hr. discriminate.
Qed.


(** ** Following one column through the normalisation of the orders *)

Lemma Forall2_pre_eq (g : row -> cell) (P : cell -> cell -> Prop) l1 l2 l3 :
  Forall2 (fun a b => g b = g a) l1 l2 ->
  Forall2 (fun b c => P (g b) (g c)) l2 l3 ->
  Forall2 (fun a c => P (g a) (g c)) l1 l3.
Proof.
  apply Forall2_compose. intros a b c Hab Hbc. now rewrite <- Hab.
Qed.

Lemma Forall2_post_eq (g : row -> cell) (P : cell -> cell -> Prop) l1 l2 l3 :
  Forall2 (fun a b => P (g a) (g b)) l1 l2 ->
  Forall2 (fun b c => g c = g b) l2 l3 ->
  Forall2 (fun a c => P (g a) (g c)) l1 l3.
Proof.
  apply Forall2_compose. intros a b c Hab Hbc. now rewrite Hbc.
Qed.

Section OrderColumns.
Context `{L : Lib}.

Lemma transform_col c f df df' :
  transform c f df = Ok df' ->
  Forall2 (fun r r' => f (row_get c r) = Ok (row_get c r')) (rows df) (rows df').
Proof.
  intros H. apply transform_Ok in H as (_ & _ & H).
  eapply Forall2_impl; [exact H|].
  intros r r' (v & Hv & ->). now rewrite row_get_set_eq.
Qed.

Lemma timestamp_step_other df df' c' :
  (if has_col "order_timestamp" df
   then transform "order_timestamp" parse_date_safe df
   else _ ← require "order_date" df;
        assign "order_timestamp" (fun r => parse_date_safe (row_get "order_date" r)) df)
  = Ok df' ->
  "order_timestamp" <> c' ->
  Forall2 (fun r r' => row_get c' r' = row_get c' r) (rows df) (rows df').
Proof.
  intros H Hne. destruct (has_col "order_timestamp" df).
  - eapply transform_other; eauto.
  - apply bind_Ok in H as (_ & _ & H). eapply assign_other; eauto.
Qed.


Lemma normalize_orders_payment_method df n :
  normalize_orders df = Ok n ->
  Forall2 (fun raw r =>
             row_get "payment_method" r = str_title (astype_str (row_get "payment_method" raw)))
          (rows df) (rows n).
Proof.
  unfold normalize_orders. intros H.
  apply bind_Ok in H as (d1 & H1 & H). apply bind_Ok in H as (d2 & H2 & H).
  apply bind_Ok in H as (d3 & H3 & H). apply bind_Ok in H as (d4 & H4 & H).
  apply bind_Ok in H as (d5 & H5 & H). apply bind_Ok in H as (d6 & H6 & H).
  apply bind_Ok in H as (d7 & H7 & H).
  apply transform_other with (c' := "payment_method") in H1; [|discriminate].
  apply transform_other with (c' := "payment_method") in H2; [|discriminate].
  apply transform_other with (c' := "payment_method") in H3; [|discriminate].
  apply transform_other with (c' := "payment_method") in H4; [|discriminate].
  apply timestamp_step_other with (c' := "payment_method") in H5; [|discriminate].
  apply transform_other with (c' := "payment_method") in H6; [|discriminate].
  apply transform_col in H7.
  apply transform_other with (c' := "payment_method") in H; [|discriminate].
  pose (P := fun a b : cell => b = str_title (astype_str a)).
  apply (Forall2_pre_eq (row_get "payment_method") P _ _ _ H1).
  apply (Forall2_pre_eq (row_get "payment_method") P _ _ _ H2).
  apply (Forall2_pre_eq (row_get "payment_method") P _ _ _ H3).
  apply (Forall2_pre_eq (row_get "payment_method") P _ _ _ H4).
  apply (Forall2_pre_eq (row_get "payment_method") P _ _ _ H5).
  apply (Forall2_pre_eq (row_get "payment_method") P _ _ _ H6).
  refine (Forall2_post_eq (row_get "payment_method") P _ _ _ _ H).
  eapply Forall2_impl; [exact H7|].
  intros r r' [= Hr]. unfold P. now symmetry.
Qed.

Lemma normalize_orders_status df n :
  normalize_orders df = Ok n ->
  Forall2 (fun raw r => row_get "status" r = str_title (astype_str (row_get "status" raw)))
          (rows df) (rows n).
Proof.
  unfold normalize_orders. intros H.
  apply bind_Ok in H as (d1 & H1 & H). apply bind_Ok in H as (d2 & H2 & H).
  apply bind_Ok in H as (d3 & H3 & H). apply bind_Ok in H as (d4 & H4 & H).
  apply bind_Ok in H as (d5 & H5 & H). apply bind_Ok in H as (d6 & H6 & H).
  apply bind_Ok in H as (d7 & H7 & H).
  apply transform_other with (c' := "status") in H1; [|discriminate].
  apply transform_other with (c' := "status") in H2; [|discriminate].
  apply transform_other with (c' := "status") in H3; [|discriminate].
  apply transform_other with (c' := "status") in H4; [|discriminate].
  apply timestamp_step_other with (c' := "status") in H5; [|discriminate].
  apply transform_other with (c' := "status") in H6; [|discriminate].
  apply transform_other with (c' := "status") in H7; [|discriminate].
  apply transform_col in H.
  pose (P := fun a b : cell => b = str_title (astype_str a)).
  apply (Forall2_pre_eq (row_get "status") P _ _ _ H1).
  apply (Forall2_pre_eq (row_get "status") P _ _ _ H2).
  apply (Forall2_pre_eq (row_get "status") P _ _ _ H3).
  apply (Forall2_pre_eq (row_get "status") P _ _ _ H4).
  apply (Forall2_pre_eq (row_get "status") P _ _ _ H5).
  apply (Forall2_pre_eq (row_get "status") P _ _ _ H6).
  apply (Forall2_pre_eq (row_get "status") P _ _ _ H7).
  eapply Forall2_impl; [exact H|].
  intros r r' [= Hr]. unfold P. now symmetry.
Qed.

End OrderColumns.

(** ** The quantity column *)




Section Quantity.
Context `{L : Lib}.


End Quantity.



(** ** payment_method and status *)

Section Unknown.
Context `{L : Lib}.

(** What the code does with an absent payment_method or status: the text
    of the missing marker, title-cased. *)
Lemma absent_payment_method df n :
  normalize_orders df = Ok n ->
  Forall2 (fun raw r =>
             (row_get "payment_method" raw = NaN -> row_get "payment_method" r = Str "Nan")
             /\ (row_get "status" raw = NaN -> row_get "status" r = Str "Nan"))
          (rows df) (rows n).
Proof.
  intros H.
  pose proof (normalize_orders_payment_method _ _ H) as Hp.
  pose proof (normalize_orders_status _ _ H) as Hs.
  clear H. revert Hs. induction Hp as [|raw r l l' Hr _ IH]; intros Hs;
    inversion Hs; subst; constructor; auto.
  split; intros E.
  - rewrite Hr, E. reflexivity.
  - match goal with H : row_get "status" r = _ |- _ => rewrite H, E end. reflexivity.
Qed.

End Unknown.

(** C7 fails on the code: the sample order 101 has a blank payment_method
    and a blank status; both come out as "Nan", not "Unknown".  A table
    without the payment_method column, the one case where the default
    "Unknown" of df.get is used, cannot be cleaned at all. *)
Theorem C7_absent_payment_method_becomes_Nan :
  exists out log,
    clean_orders (L := RefLib) Sample.orders Sample.valid_customers Sample.valid_products
                 Sample.price_map Sample.now = Ok (out, log)
    /\ map (fun r => (row_get "order_id" r, row_get "payment_method" r, row_get "status" r))
           (rows Sample.orders)
       = [(Str "100", Str "upi", Str "DELIVERED"); (Str "101", NaN, NaN);
          (Str "102", Str "card", Str "x"); (Str "100", Str "card", Str "x");
          (Str "103", Str "card", Str "x")]
    /\ map (fun r => (row_get "order_id" r, row_get "payment_method" r, row_get "status" r))
           (rows out)
       = [(Int 102, Str "Card", Str "X"); (Int 101, Str "Nan", Str "Nan");
          (Int 100, Str "Upi", Str "Delivered")]
    /\ clean_orders (L := RefLib) Sample.orders_without_payment_method Sample.valid_customers
                    Sample.valid_products Sample.price_map Sample.now
       = Raise AttributeError.
Proof.
  eexists _, _. split; [vm_compute; reflexivity|].
  repeat (split; [reflexivity|]). vm_compute. reflexivity.
Qed.

(** ** No exception leaves a normaliser *)

Section Total.
Context `{L : Lib}.

Lemma to_datetime_result v r : to_datetime v = Ok r -> r = NaT \/ exists t, r = Time t.
Proof.
  unfold to_datetime.
  destruct v as [s | [m e | | neg |] | z | t |]; intros H;
    try (injection H as <-; eauto; fail);
    apply bind_Ok in H as ([t'|] & _ & H); injection H as <-; eauto.
Qed.

Lemma parse_date_safe_result v :
  exists r, parse_date_safe v = Ok r /\ (r = NaT \/ exists t, r = Time t).
Proof.
  unfold parse_date_safe. destruct (blank v); [eauto|].
  destruct (to_datetime v) as [r|e] eqn:E; simpl.
  - exists r. split; [reflexivity|]. eapply to_datetime_result, E.
  - unfold to_datetime_coerce. rewrite E. simpl. eauto.
Qed.



End Total.

(** C8 as first stated fails: a phone number of twenty digits makes
    phonenumbers.parse raise NumberParseException (too long to be a phone
    number), the bare except swallows it, and the digit fallback returns
    the twenty digits, not the absent value.  The same holds for a number
    the library parses and finds invalid. *)
Lemma C8_phone_failure_keeps_digits_counterexample :
  phonenumbers_parse (Lib := RefLib) "12345678901234567890" "IN"
  = Raise NumberParseException
  /\ normalize_phone (L := RefLib) (Str "12345678901234567890") "IN"
     = Ok (Str "12345678901234567890")
  /\ normalize_phone (L := RefLib) (Str "12345678") "IN" = Ok (Str "12345678")
  /\ ~ (forall (v : cell) (region : string) (e : exn),
          phonenumbers_parse (Lib := RefLib)
            (sfilter (fun c => is_digit c || Ascii.eqb c "+") (py_str (L := RefLib) v))
            region = Raise e ->
          normalize_phone (L := RefLib) v region = Ok NaN).
Proof.
  split; [reflexivity|]. split; [reflexivity|]. split; [reflexivity|].
  intros H. specialize (H (Str "12345678901234567890") "IN" NumberParseException eq_refl).
  discriminate H.
Qed.


(** ** Cleaning twice *)

Section Backfill.
Context `{L : Lib}.

(** After clean_orders every order has a timestamp, so a second run has
    nothing to backfill. *)
Lemma clean_orders_timestamps_present df vc vp pm now out log r :
  clean_orders df vc vp pm now = Ok (out, log) -> In r (rows out) ->
  isna (row_get "order_timestamp" r) = false.
Proof.
  unfold clean_orders. intros H Hin.
  apply bind_Ok in H as (n & _ & H). simpl in H.
  apply bind_Ok in H as (f & Hf & H). injection H as <- _.
  apply finish_orders_Ok in Hf as (a & b & _ & _ & Hb & ->).
  simpl in Hin. apply keep_first_In in Hin.
  apply (Permutation_in _ (sort_rows_perm _ _)) in Hin.
  apply assign_Ok in Hb as [_ Hb].
  destruct (Forall2_In_r _ _ _ _ Hb Hin) as (ra & _ & v & Hv & ->).
  rewrite row_get_set_eq. injection Hv as <-.
  unfold fillna. now destruct (isna (row_get "order_timestamp" ra)) eqn:E.
Qed.

End Backfill.

(** C9 fails on the code: clean_customers is not idempotent.  A customer
    whose email cell is a single space leaves the first run with an absent
    email; the second run turns that absent email into the text "nan".  On
    the sample customers the second run thereby gives customers 3 and 4 the
    same dedup key and drops customer 3.  clean_products and clean_orders
    return the sample tables unchanged on a second run, the timestamp
    backfill included. *)
Theorem C9_clean_customers_not_idempotent :
  (exists out1 log1 out2 log2,
     clean_customers (L := RefLib) Sample.customer_with_blank_email = Ok (out1, log1)
     /\ clean_customers (L := RefLib) out1 = Ok (out2, log2)
     /\ map (row_get "email") (rows Sample.customer_with_blank_email) = [Str " "]
     /\ map (row_get "email") (rows out1) = [NaN]
     /\ map (row_get "email") (rows out2) = [Str "nan"]
     /\ out2 <> out1)
  /\ (exists out1 log1 out2 log2,
        clean_customers (L := RefLib) Sample.customers = Ok (out1, log1)
        /\ clean_customers (L := RefLib) out1 = Ok (out2, log2)
        /\ map (row_get "customer_id") (rows out1) = [Int 4; Int 2; Int 3]
        /\ map (row_get "customer_id") (rows out2) = [Int 4; Int 2])
  /\ (exists out log,
        clean_products (L := RefLib) Sample.products = Ok (out, log)
        /\ exists log', clean_products (L := RefLib) out = Ok (out, log'))
  /\ (exists out log,
        clean_orders (L := RefLib) Sample.orders Sample.valid_customers Sample.valid_products
                     Sample.price_map Sample.now = Ok (out, log)
        /\ exists log',
             clean_orders (L := RefLib) out Sample.valid_customers Sample.valid_products
                          Sample.price_map (Sample.now + 1) = Ok (out, log')).
Proof.
  split; [|split; [|split]].
  - eexists _, _, _, _. split; [vm_compute; reflexivity|].
    split; [vm_compute; reflexivity|].
    repeat (split; [reflexivity|]). intros [=].
  - eexists _, _, _, _. split; [vm_compute; reflexivity|].
    split; [vm_compute; reflexivity|]. split; reflexivity.
  - eexists _, _. split; [vm_compute; reflexivity|].
    eexists. vm_compute. reflexivity.
  - eexists _, _. split; [vm_compute; reflexivity|].
    eexists. vm_compute. reflexivity.
Qed.

(** ** analytics *)

Lemma existsb_map_col (p : cell -> bool) (c : string) (l : list row) :
  existsb p (map (row_get c) l) = existsb (fun r => p (row_get c r)) l.
Proof. induction l as [|x l IH]; simpl; [reflexivity | now rewrite IH]. Qed.

Section ReadOnly.
Context `{L : Lib}.

(** What analytics does to the tables it is given: customers and products
    are left alone; the orders table is left alone only when no order has a
    timestamp, and gets a "month" column otherwise. *)
Lemma analytics_frames s s' out :
  analytics s = Ok (s', out) ->
  cust s' = cust s
  /\ prod s' = prod s
  /\ (existsb (fun r => negb (isna (row_get "order_timestamp" r))) (rows (ords s)) = false ->
      ords s' = ords s)
  /\ (existsb (fun r => negb (isna (row_get "order_timestamp" r))) (rows (ords s)) = true ->
      columns (ords s') = add_col "month" (columns (ords s))
      /\ Forall2 (fun r r' => exists m, r' = row_set "month" m r)
                 (rows (ords s)) (rows (ords s'))).
Proof.
  unfold analytics. intros H.
  apply bind_Ok in H as (prices & _ & H).
  apply bind_Ok in H as (values & _ & H).
  apply bind_Ok in H as (out1 & _ & H).
  apply bind_Ok in H as (stamps & Hst & H).
  unfold column in Hst. destruct (has_col "order_timestamp" (ords s)); [|discriminate].
  injection Hst as <-. rewrite existsb_map_col in H.
  destruct (existsb _ (rows (ords s))) eqn:E.
  - apply bind_Ok in H as (o & Ho & H).
    apply bind_Ok in H as (monthly & _ & H). injection H as <- _. simpl.
    apply assign_Ok in Ho as [Hc Hr].
    repeat split; try discriminate; auto.
    eapply Forall2_impl; [exact Hr|]. intros r r' (m & _ & ->). eauto.
  - injection H as <- _. repeat split; auto; discriminate.
Qed.

End ReadOnly.

(** C10 fails on the code: analytics assigns ords['month'] on the very
    table it was given.  On the cleaned sample tables the orders table has
    one column more after the call; customers and products are unchanged.
    main writes the orders file after the call, so the file carries the
    month column too. *)
Theorem C10_analytics_adds_month_column :
  exists s s' out,
    Sample.cleaned = Ok s
    /\ analytics (L := RefLib) s = Ok (s', out)
    /\ cust s' = cust s
    /\ prod s' = prod s
    /\ columns (ords s) = Sample.order_columns
    /\ columns (ords s') = (Sample.order_columns ++ ["month"])%list
    /\ map (row_get "month") (rows (ords s')) = [Int 646; Int 650; Int 650]
    /\ ords s' <> ords s
    /\ exists f out',
         main (L := RefLib) Sample.customers Sample.products Sample.orders Sample.now
         = Ok (f, out')
         /\ columns (clean_orders_csv f) = (Sample.order_columns ++ ["month"])%list.
Proof.
  eexists _, _, _. split; [vm_compute; reflexivity|].
  split; [vm_compute; reflexivity|].
  repeat (split; [reflexivity|]).
  split; [intros [=]|].
  eexists _, _. split; [vm_compute; reflexivity|]. reflexivity.
Qed.

(** ** A second run of clean_customers, for every library *)

Lemma rstrip_by_empty p s :
  rstrip_by p s = "" <-> sfilter (fun c => negb (p c)) s = "".
Proof.
  induction s as [|c s IH]; simpl; [tauto|].
  destruct (p c); simpl.
  - destruct (String.eqb (rstrip_by p s) "") eqn:E.
    + apply String.eqb_eq in E. tauto.
    + apply String.eqb_neq in E. split; [discriminate | intros H; apply IH in H; contradiction].
  - split; discriminate.
Qed.

Lemma sfilter_lstrip_by p s :
  sfilter (fun c => negb (p c)) (lstrip_by p s) = sfilter (fun c => negb (p c)) s.
Proof.
  induction s as [|c s IH]; simpl; [reflexivity|].
  destruct (p c) eqn:E; simpl; [exact IH | now rewrite E].
Qed.

Lemma strip_empty s :
  strip s = "" <-> sfilter (fun c => negb (is_space c)) s = "".
Proof. unfold strip. now rewrite rstrip_by_empty, sfilter_lstrip_by. Qed.

Lemma sfilter_idem p s : sfilter p (sfilter p s) = sfilter p s.
Proof.
  induction s as [|c s IH]; simpl; [reflexivity|].
  destruct (p c) eqn:E; simpl; [now rewrite E, IH | exact IH].
Qed.

Lemma is_space_lower_char c : is_space (lower_char c) = is_space c.
Proof. destruct c as [[] [] [] [] [] [] [] []]; reflexivity. Qed.

Lemma sfilter_lower_empty s :
  sfilter (fun c => negb (is_space c)) (lower s) = "" <->
  sfilter (fun c => negb (is_space c)) s = "".
Proof.
  unfold lower. induction s as [|c s IH]; simpl; [tauto|].
  rewrite is_space_lower_char. destruct (is_space c); simpl; [exact IH|].
  split; discriminate.
Qed.

Section SecondRun.
Context `{L : Lib}.

(** What normalize_email returns is never blank: normalising it again
    gives text, also when it was the absent value. *)
Lemma normalize_email_twice v r :
  normalize_email v = Ok r -> exists s, normalize_email r = Ok (Str s).
Proof.
  unfold normalize_email at 1. destruct (blank v) eqn:Hb.
  - intros [= <-]. exists "nan". reflexivity.
  - intros [= <-]. unfold normalize_email.
    set (e := sfilter _ (lower (py_str v))).
    assert (He : e <> "").
    { unfold e. rewrite sfilter_lower_empty, <- strip_empty.
      unfold blank in Hb. apply orb_false_iff in Hb as [_ Hb].
      now apply String.eqb_neq in Hb. }
    assert (Hb' : blank (Str e) = false).
    { unfold blank. simpl. apply orb_false_iff. split.
      - apply negb_false_iff, negb_true_iff. now apply String.eqb_neq.
      - apply String.eqb_neq. rewrite strip_empty. unfold e. now rewrite sfilter_idem. }
    rewrite Hb'. eauto.
Qed.

Lemma clean_customers_emails df out log r :
  clean_customers df = Ok (out, log) -> In r (rows out) ->
  exists raw,
    In raw (rows df)
    /\ normalize_email (row_get "email" raw) = Ok (row_get "email" r).
Proof.
  intros H Hin. apply clean_customers_Ok in H as (n & Hn & Hrows).
  rewrite Hrows in Hin. apply in_map_iff in Hin as (r0 & <- & Hin).
  apply keep_first_In in Hin.
  apply (Permutation_in _ (sort_rows_perm _ _)) in Hin.
  apply filter_In in Hin as [Hin _].
  apply normalize_customers_email in Hn.
  destruct (Forall2_In_r _ _ _ _ Hn Hin) as (raw & Hraw & He).
  exists raw. split; [exact Hraw|].
  now rewrite row_get_del_ne by discriminate.
Qed.

(** After a second run every customer has an email, so a cleaned table
    that holds a customer without one is changed by cleaning it again. *)
Lemma second_run_fills_emails df out1 log1 out2 log2 :
  clean_customers df = Ok (out1, log1) ->
  clean_customers out1 = Ok (out2, log2) ->
  (forall r, In r (rows out2) -> exists s, row_get "email" r = Str s)
  /\ ((exists r, In r (rows out1) /\ row_get "email" r = NaN) -> out2 <> out1).
Proof.
  intros H1 H2.
  assert (Hall : forall r, In r (rows out2) -> exists s, row_get "email" r = Str s).
  { intros r Hr.
    destruct (clean_customers_emails _ _ _ _ H2 Hr) as (r1 & Hr1 & E2).
    destruct (clean_customers_emails _ _ _ _ H1 Hr1) as (raw & _ & E1).
    destruct (normalize_email_twice _ _ E1) as (s & Hs).
    rewrite Hs in E2. injection E2 as E2. eauto. }
  split; [exact Hall|].
  intros (r & Hr & Hnan) ->.
  destruct (Hall r Hr) as (s & Hs). congruence.
Qed.

End SecondRun.

(** * Further properties of the pipeline *)

(** ** Text *)

Lemma sall_sfilter_id p s : sall p s = true -> sfilter p s = s.
Proof.
  induction s as [|c s IH]; simpl; [reflexivity|].
  intros H. apply andb_true_iff in H as [Hc Hs]. rewrite Hc. now rewrite IH.
Qed.

Lemma sall_sfilter p s : sall p (sfilter p s) = true.
Proof.
  induction s as [|c s IH]; simpl; [reflexivity|].
  destruct (p c) eqn:E; simpl; [now rewrite E | exact IH].
Qed.

Lemma sall_impl (p q : ascii -> bool) s :
  (forall c, p c = true -> q c = true) -> sall p s = true -> sall q s = true.
Proof.
  intros Hpq. induction s as [|c s IH]; simpl; [reflexivity|].
  intros H. apply andb_true_iff in H as [Hc Hs]. now rewrite (Hpq c Hc), IH.
Qed.

Lemma sall_app p a b : sall p (a ++ b) = sall p a && sall p b.
Proof.
  induction a as [|c a IH]; simpl; [reflexivity|]. now rewrite IH, andb_assoc.
Qed.

Lemma sall_smap (p : ascii -> bool) (f : ascii -> ascii) s :
  (forall c, p (f c) = true) -> sall p (smap f s) = true.
Proof. intros H. induction s as [|c s IH]; simpl; [reflexivity | now rewrite H, IH]. Qed.

Lemma sall_smap_id (p : ascii -> bool) (f : ascii -> ascii) s :
  (forall c, p c = true -> f c = c) -> sall p s = true -> smap f s = s.
Proof.
  intros Hf. induction s as [|c s IH]; simpl; [reflexivity|].
  intros H. apply andb_true_iff in H as [Hc Hs]. now rewrite (Hf c Hc), IH.
Qed.

Lemma sall_and p q s : sall (fun c => p c && q c) s = sall p s && sall q s.
Proof.
  induction s as [|c s IH]; simpl; [reflexivity|]. rewrite IH.
  destruct (p c), (q c), (sall p s), (sall q s); reflexivity.
Qed.

Lemma lstrip_by_id p s : sall (fun c => negb (p c)) s = true -> lstrip_by p s = s.
Proof.
  destruct s as [|c s]; simpl; [reflexivity|].
  intros H. apply andb_true_iff in H as [Hc _]. apply negb_true_iff in Hc. now rewrite Hc.
Qed.

Lemma rstrip_by_id p s : sall (fun c => negb (p c)) s = true -> rstrip_by p s = s.
Proof.
  induction s as [|c s IH]; simpl; [reflexivity|].
  intros H. apply andb_true_iff in H as [Hc Hs]. apply negb_true_iff in Hc.
  now rewrite Hc, IH.
Qed.

Lemma strip_id s : sall (fun c => negb (is_space c)) s = true -> strip s = s.
Proof. intros H. unfold strip. now rewrite lstrip_by_id, rstrip_by_id. Qed.

Lemma sfilter_smap (p : ascii -> bool) (f : ascii -> ascii) s :
  (forall c, p (f c) = p c) -> sfilter p (smap f s) = smap f (sfilter p s).
Proof.
  intros H. induction s as [|c s IH]; simpl; [reflexivity|].
  rewrite H. destruct (p c); simpl; now rewrite IH.
Qed.

Lemma sfilter_sfilter (p q : ascii -> bool) s :
  (forall c, p c = true -> q c = true) -> sfilter p (sfilter q s) = sfilter p s.
Proof.
  intros H. induction s as [|c s IH]; simpl; [reflexivity|].
  destruct (q c) eqn:Eq; simpl.
  - destruct (p c); now rewrite IH.
  - destruct (p c) eqn:Ep; [|exact IH]. apply H in Ep. congruence.
Qed.

Lemma is_upper_lower_char c : is_upper (lower_char c) = false.
Proof. destruct c as [[] [] [] [] [] [] [] []]; reflexivity. Qed.

Lemma lower_char_id c : is_upper c = false -> lower_char c = c.
Proof. unfold lower_char. now intros ->. Qed.

(** ** normalize_email *)

Section EmailForm.
Context `{L : Lib}.

Lemma normalize_email_form (v r : cell) :
  normalize_email v = Ok r ->
  (blank v = true /\ r = NaN)
  \/ (blank v = false
      /\ exists e,
           r = Str e
           /\ e <> ""
           /\ sall (fun c => negb (is_space c)) e = true
           /\ sall (fun c => negb (is_upper c)) e = true
           /\ normalize_email (Str e) = Ok (Str e)).
Proof.
  unfold normalize_email at 1. destruct (blank v) eqn:Hb; intros [= <-]; [now left|].
  right. split; [reflexivity|].
  set (e := sfilter (fun c => negb (is_space c)) (lower (py_str v))).
  assert (Hsp : sall (fun c => negb (is_space c)) e = true) by apply sall_sfilter.
  assert (Hup : sall (fun c => negb (is_upper c)) e = true).
  { unfold e, lower.
    rewrite (sfilter_smap (fun c => negb (is_space c)) lower_char)
      by (intros c; now rewrite is_space_lower_char).
    apply sall_smap. intros c. now rewrite is_upper_lower_char. }
  assert (He : e <> "").
  { unfold e. rewrite sfilter_lower_empty, <- strip_empty.
    unfold blank in Hb. apply orb_false_iff in Hb as [_ Hb].
    now apply String.eqb_neq in Hb. }
  exists e. repeat split; auto.
  unfold normalize_email, blank. simpl.
  rewrite (strip_id e Hsp).
  rewrite (proj2 (String.eqb_neq e "") He). simpl.
  unfold lower.
  rewrite (sall_smap_id (fun c => negb (is_upper c)) lower_char e)
    by (auto; intros c Hc; apply lower_char_id; now apply negb_true_iff).
  now rewrite (sall_sfilter_id _ e Hsp).
Qed.

(** A present email returned by normalize_email is not empty, holds no
    whitespace and no upper-case letter, and normalize_email returns it
    unchanged when applied to it again; the result is absent exactly when
    the input is blank. *)
Theorem normalize_email_normal_form (v r : cell) :
  normalize_email v = Ok r ->
  (blank v = true /\ r = NaN)
  \/ (blank v = false
      /\ exists e,
           r = Str e
           /\ e <> ""
           /\ sall (fun c => negb (is_space c)) e = true
           /\ sall (fun c => negb (is_upper c)) e = true
           /\ normalize_email (Str e) = Ok (Str e)).
Proof. exact (normalize_email_form v r). Qed.

End EmailForm.

Lemma normalize_email_normal_form_witness :
  exists e,
    normalize_email (L := RefLib) (Str "  Asha.Rao @Example.COM ") = Ok (Str e)
    /\ e = "asha.rao@example.com"
    /\ normalize_email (L := RefLib) (Str e) = Ok (Str e).
Proof.
  destruct (normalize_email_normal_form (L := RefLib) (Str "  Asha.Rao @Example.COM ")
              (Str "asha.rao@example.com") eq_refl)
    as [[Hb _] | (_ & e & He & _ & _ & _ & Hid)]; [discriminate|].
  injection He as <-. eexists. split; [reflexivity|]. split; [reflexivity | exact Hid].
Defined.

(** ** normalize_phone and parse_date_safe *)

Section PhoneDate.
Context `{L : Lib}.

(** normalize_phone returns one of three things: the E.164 text of a number
    the library parses and accepts; otherwise all the digits of the input
    (a "+" is not kept) when there are at least 8 of them; otherwise the
    absent value.  A blank input is absent. *)
Theorem normalize_phone_cases (v : cell) (region : string) (r : cell) :
  normalize_phone v region = Ok r ->
  let cleaned := sfilter (fun c => is_digit c || Ascii.eqb c "+") (py_str v) in
  let digits := sfilter is_digit (py_str v) in
  let accepted s :=
    exists p, phonenumbers_parse cleaned region = Ok p
              /\ is_valid_number p = Ok true
              /\ format_number_E164 p = Ok s in
  (blank v = true /\ r = NaN)
  \/ (blank v = false /\ exists s, accepted s /\ r = Str s)
  \/ (blank v = false /\ (forall s, ~ accepted s)
      /\ (8 <= String.length digits)%nat /\ r = Str digits /\ sall is_digit digits = true)
  \/ (blank v = false /\ (forall s, ~ accepted s)
      /\ (String.length digits < 8)%nat /\ r = NaN).
Proof.
  cbv zeta. unfold normalize_phone. destruct (blank v); [intros [= <-]; now left|].
  intros H. right.
  rewrite <- (sfilter_sfilter is_digit (fun c => is_digit c || Ascii.eqb c "+") (py_str v))
    by (intros c ->; reflexivity).
  revert H.
  set (cleaned := sfilter (fun c => is_digit c || Ascii.eqb c "+") (py_str v)).
  assert (Hfb : forall r,
             (forall s, ~ exists p, phonenumbers_parse cleaned region = Ok p
                                    /\ is_valid_number p = Ok true
                                    /\ format_number_E164 p = Ok s) ->
             Ok (if (8 <=? String.length (sfilter is_digit cleaned))%nat
                 then Str (sfilter is_digit cleaned) else NaN) = Ok r ->
             (false = false /\ exists s,
                 (exists p, phonenumbers_parse cleaned region = Ok p
                            /\ is_valid_number p = Ok true
                            /\ format_number_E164 p = Ok s) /\ r = Str s)
             \/ (false = false
                 /\ (forall s, ~ exists p, phonenumbers_parse cleaned region = Ok p
                                           /\ is_valid_number p = Ok true
                                           /\ format_number_E164 p = Ok s)
                 /\ (8 <= String.length (sfilter is_digit cleaned))%nat
                 /\ r = Str (sfilter is_digit cleaned)
                 /\ sall is_digit (sfilter is_digit cleaned) = true)
             \/ (false = false
                 /\ (forall s, ~ exists p, phonenumbers_parse cleaned region = Ok p
                                           /\ is_valid_number p = Ok true
                                           /\ format_number_E164 p = Ok s)
                 /\ (String.length (sfilter is_digit cleaned) < 8)%nat /\ r = NaN)).
  { intros r0 Hno Hr0. right. destruct (8 <=? _)%nat eqn:E.
    - assert (r0 = Str (sfilter is_digit cleaned)) by congruence. subst r0.
      left. apply Nat.leb_le in E. repeat split; auto. apply sall_sfilter.
    - assert (r0 = NaN) by congruence. subst r0.
      right. apply Nat.leb_gt in E. repeat split; auto. }
  destruct (phonenumbers_parse cleaned region) as [p|e0] eqn:Ep; simpl.
  - destruct (is_valid_number p) as [[|]|e1] eqn:Ev; simpl.
    + destruct (format_number_E164 p) as [s|e2] eqn:Ef; simpl.
      * intros [= <-]. left. split; [reflexivity|]. exists s. split; [|reflexivity].
        exists p. auto.
      * apply Hfb. intros s (p' & [= <-] & _ & Hf). congruence.
    + apply Hfb. intros s (p' & [= <-] & Hv' & _). congruence.
    + apply Hfb. intros s (p' & [= <-] & Hv' & _). congruence.
  - apply Hfb. intros s (p' & Hp' & _). discriminate.
Qed.

(** parse_date_safe returns a timestamp or NaT, nothing else: NaT for a
    blank or missing value, the timestamp itself for a timestamp, and what
    pd.to_datetime reads otherwise (NaT when it raises). *)
Theorem parse_date_safe_cases (v r : cell) :
  parse_date_safe v = Ok r ->
  (r = NaT \/ exists t, r = Time t)
  /\ (blank v = true -> r = NaT)
  /\ (v = NaN \/ v = NaT -> r = NaT)
  /\ (forall t, v = Time t -> blank v = false -> r = Time t)
  /\ (forall w, blank v = false -> to_datetime v = Ok w -> r = w)
  /\ (forall e, to_datetime v = Raise e -> r = NaT).
Proof.
  intros H. split.
  { destruct (parse_date_safe_result v) as (r' & Hr' & Hshape).
    rewrite H in Hr'. injection Hr' as <-. exact Hshape. }
  unfold parse_date_safe in H. split; [|split; [|split; [|split]]].
  - intros Hb. rewrite Hb in H. now injection H as <-.
  - intros [-> | ->]; simpl in H; now injection H as <-.
  - intros t -> Hb. rewrite Hb in H. simpl in H. now injection H as <-.
  - intros w Hb Hw. rewrite Hb, Hw in H. simpl in H. now injection H as <-.
  - intros e He. unfold to_datetime_coerce in H. rewrite He in H. simpl in H.
    destruct (blank v); now injection H as <-.
Qed.

End PhoneDate.

Lemma normalize_phone_cases_witness :
  normalize_phone (L := RefLib) (Str "+0 (98765) 43-210") "IN" = Ok (Str "09876543210")
  /\ ((blank (L := RefLib) (Str "+0 (98765) 43-210") = true /\ Str "09876543210" = NaN)
      \/ (blank (L := RefLib) (Str "+0 (98765) 43-210") = false
          /\ exists s,
               (exists p, phonenumbers_parse (Lib := RefLib) "+09876543210" "IN" = Ok p
                          /\ is_valid_number p = Ok true
                          /\ format_number_E164 p = Ok s)
               /\ Str "09876543210" = Str s)
      \/ (blank (L := RefLib) (Str "+0 (98765) 43-210") = false
          /\ (forall s, ~ exists p, phonenumbers_parse (Lib := RefLib) "+09876543210" "IN" = Ok p
                                    /\ is_valid_number p = Ok true
                                    /\ format_number_E164 p = Ok s)
          /\ (8 <= String.length "09876543210")%nat
          /\ Str "09876543210" = Str "09876543210"
          /\ sall is_digit "09876543210" = true)
      \/ (blank (L := RefLib) (Str "+0 (98765) 43-210") = false
          /\ (forall s, ~ exists p, phonenumbers_parse (Lib := RefLib) "+09876543210" "IN" = Ok p
                                    /\ is_valid_number p = Ok true
                                    /\ format_number_E164 p = Ok s)
          /\ (String.length "09876543210" < 8)%nat /\ Str "09876543210" = NaN)).
Proof.
  split; [reflexivity|].
  exact (normalize_phone_cases (L := RefLib) (Str "+0 (98765) 43-210") "IN"
           (Str "09876543210") eq_refl).
Defined.

Lemma parse_date_safe_cases_witness :
  parse_date_safe (L := RefLib) (Str "2024-02-30") = Ok NaT
  /\ parse_date_safe (L := RefLib) (Time 1709164800000000000) = Ok (Time 1709164800000000000)
  /\ (NaT = NaT \/ exists t, NaT = Time t).
Proof.
  split; [reflexivity|]. split; [reflexivity|].
  exact (proj1 (parse_date_safe_cases (L := RefLib) (Str "2024-02-30") NaT eq_refl)).
Defined.

(** ** money_round: the shape of a result *)

Lemma rescale_half_up_nonneg c e expq : 0 <= c -> 0 <= rescale_half_up c e expq.
Proof.
  intros Hc. unfold rescale_half_up. destruct (expq <=? e) eqn:E.
  - apply Z.leb_le in E. apply Z.mul_nonneg_nonneg; [lia | apply Z.pow_nonneg; lia].
  - apply Z.leb_gt in E.
    assert (0 <= c / 10 ^ (expq - e)).
    { apply Z.div_pos; [lia | apply Z.pow_pos_nonneg; lia]. }
    destruct (10 ^ (expq - e) <=? _); lia.
Qed.

Section MoneyShape.
Context `{L : Lib}.

(** What quantize accepts has at most 28 digits. *)
Lemma quantize_Ok d n q :
  quantize d n = Ok q ->
  (exists neg, d = DNaN neg false /\ q = d)
  \/ (exists neg c e c',
        d = DFinite neg c e /\ q = DFinite neg c' (- Z.of_nat n)
        /\ (0 <= c -> 0 <= c' < 10 ^ 28)).
Proof.
  unfold quantize. destruct d as [neg c e | neg | neg [|]]; try discriminate.
  - destruct (negb _); [discriminate|].
    destruct (c =? 0) eqn:E0.
    + intros [= <-]. right. exists neg, c, e, 0. repeat split; auto; lia.
    + destruct (Emax <? _); [discriminate|]. destruct (prec <? _); [discriminate|].
      destruct (Emax <? _); [discriminate|].
      destruct (prec <? num_digits _) eqn:Ep; [discriminate|].
      intros [= <-]. right. exists neg, c, e, (rescale_half_up c e (- Z.of_nat n)).
      repeat split; auto.
      * now apply rescale_half_up_nonneg.
      * apply Z.ltb_ge in Ep. apply num_digits_lt; [now apply rescale_half_up_nonneg|].
        exact Ep.
  - intros [= <-]. left. eauto.
Qed.

Lemma money_round_result (x : cell) (ndigits : nat) (r : cell) :
  money_round x ndigits = Ok r ->
  r = NaN \/ r = Flt FNegZero
  \/ exists m, r = Flt (float_round m (- Z.of_nat ndigits)) /\ - 10 ^ 28 < m < 10 ^ 28.
Proof.
  unfold money_round.
  destruct (Decimal_of_string (py_str x)) as [d|] eqn:Ed; simpl; [|intros [= <-]; now left].
  destruct (quantize d ndigits) as [q|e] eqn:Eq; simpl; [|intros [= <-]; now left].
  intros [= <-].
  apply quantize_Ok in Eq as [(neg & -> & ->) | (neg & c & e & c' & -> & -> & Hc')];
    [now left|].
  right. specialize (Hc' (Decimal_of_string_coeff _ _ _ _ Ed)).
  unfold float_of_Decimal. destruct (neg && (c' =? 0)); [now left | right].
  exists (if neg then - c' else c'). split; [reflexivity|]. destruct neg; lia.
Qed.


End MoneyShape.


(** ** More on text: strip and title applied twice *)

Lemma rstrip_by_idem p s : rstrip_by p (rstrip_by p s) = rstrip_by p s.
Proof.
  induction s as [|c s IH]; simpl; [reflexivity|].
  destruct (p c) eqn:Ec; simpl.
  - destruct (String.eqb (rstrip_by p s) "") eqn:E; simpl; [reflexivity|].
    now rewrite Ec, IH, E.
  - now rewrite Ec, IH.
Qed.

Lemma lstrip_by_head p s :
  match lstrip_by p s with String c _ => p c = false | EmptyString => True end.
Proof.
  induction s as [|c s IH]; simpl; [exact I|].
  destruct (p c) eqn:E; [exact IH | exact E].
Qed.

Lemma rstrip_by_head p s :
  match s with String c _ => p c = false | EmptyString => True end ->
  match rstrip_by p s with String c _ => p c = false | EmptyString => True end.
Proof. destruct s as [|c s]; simpl; [auto|]. intros H. rewrite H. simpl. exact H. Qed.

Lemma lstrip_by_head_id p s :
  match s with String c _ => p c = false | EmptyString => True end -> lstrip_by p s = s.
Proof. destruct s as [|c s]; simpl; [auto|]. now intros ->. Qed.

Lemma strip_idem s : strip (strip s) = strip s.
Proof.
  unfold strip.
  rewrite (lstrip_by_head_id is_space (rstrip_by is_space (lstrip_by is_space s)))
    by apply rstrip_by_head, lstrip_by_head.
  apply rstrip_by_idem.
Qed.

Lemma cased_chars c :
  (is_lower c = true -> is_upper c = false /\ is_lower (upper_char c) = false
                        /\ is_upper (upper_char c) = true)
  /\ (is_upper c = true -> is_lower c = false /\ is_lower (lower_char c) = true).
Proof. destruct c as [[] [] [] [] [] [] [] []]; simpl; split; intros H; try discriminate; auto. Qed.

Lemma title_from_idem b s : title_from b (title_from b s) = title_from b s.
Proof.
  revert b. induction s as [|c s IH]; intros b; simpl; [reflexivity|].
  destruct (cased_chars c) as [Hl Hu].
  destruct (is_lower c) eqn:El.
  - destruct (Hl eq_refl) as (Hnu & Hlu & Huu). destruct b; simpl.
    + now rewrite El, IH.
    + now rewrite Hlu, Huu, IH.
  - destruct (is_upper c) eqn:Eu.
    + destruct (Hu eq_refl) as (_ & Hll). destruct b; simpl.
      * now rewrite Hll, IH.
      * now rewrite El, Eu, IH.
    + simpl. now rewrite El, Eu, IH.
Qed.

Lemma title_from_empty b s : title_from b s = "" -> s = "".
Proof. destruct s as [|c s]; simpl; [auto|]. destruct (is_lower c), (is_upper c); discriminate. Qed.

(** ** Columns of a frame *)

Lemma row_set_keys c v r c' :
  In c' (map fst (row_set c v r)) <-> c' = c \/ In c' (map fst r).
Proof.
  induction r as [|[k x] r IH]; simpl.
  - intuition.
  - destruct (String.eqb k c) eqn:E; simpl.
    + apply String.eqb_eq in E. subst k. intuition.
    + rewrite IH. intuition.
Qed.

Lemma row_del_keys c r c' :
  In c' (map fst (row_del c r)) <-> c' <> c /\ In c' (map fst r).
Proof.
  induction r as [|[k x] r IH]; simpl; [intuition|].
  destruct (String.eqb k c) eqn:E; simpl.
  - apply String.eqb_eq in E. subst k. rewrite IH. intuition. subst. contradiction.
  - apply String.eqb_neq in E. rewrite IH. intuition. subst. contradiction.
Qed.

Lemma row_set_same c r : In c (map fst r) -> row_set c (row_get c r) r = r.
Proof.
  induction r as [|[k x] r IH]; simpl; [tauto|].
  destruct (String.eqb k c) eqn:E; [reflexivity|].
  apply String.eqb_neq in E. intros [H | H]; [contradiction|]. now rewrite IH.
Qed.

Lemma column_holds_impl c (Q Q' : cell -> Prop) l :
  (forall v, Q v -> Q' v) -> column_holds c Q l -> column_holds c Q' l.
Proof. intros HQ H r Hr. destruct (H r Hr). auto. Qed.

Lemma column_holds_incl c Q l l' :
  (forall r, In r l' -> In r l) -> column_holds c Q l -> column_holds c Q l'.
Proof. intros Hi H r Hr. apply H, Hi, Hr. Qed.

Lemma column_holds_and c (Q Q' : cell -> Prop) l :
  column_holds c Q l -> (forall r, In r l -> Q' (row_get c r)) ->
  column_holds c (fun v => Q v /\ Q' v) l.
Proof. intros H H' r Hr. destruct (H r Hr). auto. Qed.

Lemma column_holds_row_del c Q l d :
  c <> d -> column_holds c Q l -> column_holds c Q (map (row_del d) l).
Proof.
  intros Hne H r Hr. apply in_map_iff in Hr as (r0 & <- & Hr0).
  destruct (H r0 Hr0) as [Hk HQ]. split.
  - apply row_del_keys. auto.
  - now rewrite row_get_del_ne by auto.
Qed.

Section ColumnSteps.
Context `{L : Lib}.

Lemma assign_establishes c g df df' :
  assign c g df = Ok df' ->
  column_holds c (fun w => exists r, In r (rows df) /\ g r = Ok w) (rows df').
Proof.
  intros H r' Hr'. apply assign_Ok in H as [_ H].
  destruct (Forall2_In_r _ _ _ _ H Hr') as (r & Hr & v & Hv & ->).
  split; [apply row_set_keys; now left|]. rewrite row_get_set_eq. eauto.
Qed.

Lemma assign_preserves c' g df df' c Q :
  assign c' g df = Ok df' -> c' <> c ->
  column_holds c Q (rows df) -> column_holds c Q (rows df').
Proof.
  intros H Hne HQ r' Hr'. apply assign_Ok in H as [_ H].
  destruct (Forall2_In_r _ _ _ _ H Hr') as (r & Hr & v & _ & ->).
  destruct (HQ r Hr) as [Hk Hv]. split.
  - apply row_set_keys. now right.
  - now rewrite row_get_set_ne.
Qed.

Lemma transform_establishes c f df df' :
  transform c f df = Ok df' ->
  column_holds c (fun w => exists v, f v = Ok w) (rows df').
Proof.
  unfold transform. intros H. apply bind_Ok in H as (_ & _ & H).
  apply assign_establishes in H.
  eapply column_holds_impl; [|exact H]. intros w (r & _ & Hw). eauto.
Qed.

Lemma transform_preserves c' f df df' c Q :
  transform c' f df = Ok df' -> c' <> c ->
  column_holds c Q (rows df) -> column_holds c Q (rows df').
Proof.
  unfold transform. intros H Hne HQ. apply bind_Ok in H as (_ & _ & H).
  exact (assign_preserves _ _ _ _ _ _ H Hne HQ).
Qed.

Lemma transform_columns c f df df' :
  transform c f df = Ok df' -> has_col c df = true /\ columns df' = columns df.
Proof. intros H. apply transform_Ok in H. tauto. Qed.

Lemma transform_length c f df df' :
  transform c f df = Ok df' -> List.length (rows df') = List.length (rows df).
Proof.
  intros H. apply transform_Ok in H as (_ & _ & H). symmetry. eapply Forall2_length, H.
Qed.

(** A step whose function cannot raise succeeds whenever the column
    exists. *)
Lemma transform_total c f df :
  has_col c df = true -> (forall r, In r (rows df) -> exists w, f (row_get c r) = Ok w) ->
  exists df', transform c f df = Ok df'.
Proof.
  intros Hc Hf. unfold transform, require. rewrite Hc. simpl. unfold assign.
  assert (exists rs, mapM_res (fun r => v ← f (row_get c r); Ok (row_set c v r)) (rows df)
                     = Ok rs) as (rs & ->).
  { induction (rows df) as [|r l IH]; simpl; [eauto|].
    destruct (Hf r (or_introl eq_refl)) as (w & ->). simpl.
    destruct IH as (rs & ->); [intros r' Hr'; apply Hf; now right|]. simpl. eauto. }
  simpl. eauto.
Qed.

Lemma transform_missing c f df : has_col c df = false -> transform c f df = Raise AttributeError.
Proof. intros H. unfold transform, require. now rewrite H. Qed.

(** A step that finds every cell already in its final form changes
    nothing. *)
Lemma transform_fixed c f df :
  has_col c df = true ->
  column_holds c (fun w => f w = Ok w) (rows df) ->
  transform c f df = Ok df.
Proof.
  intros Hc Hf. unfold transform, require. rewrite Hc. simpl. unfold assign.
  assert (mapM_res (fun r => v ← f (row_get c r); Ok (row_set c v r)) (rows df)
          = Ok (rows df)) as ->.
  { induction (rows df) as [|r l IH]; simpl; [reflexivity|].
    destruct (Hf r (or_introl eq_refl)) as [Hk ->]. simpl.
    rewrite IH by (intros r' Hr'; apply Hf; now right). simpl.
    now rewrite row_set_same. }
  simpl. rewrite add_col_present by exact Hc. now destruct df.
Qed.

End ColumnSteps.

(** ** Cells after one normalisation step *)

Section CellSteps.
Context `{L : Lib}.

Lemma id_step v w : astype_Int64 (to_numeric v) = Ok w -> int_or_missing w.
Proof.
  unfold astype_Int64, int_or_missing.
  destruct (to_numeric v) as [s | [m e | | neg |] | z | t |]; try discriminate.
  - destruct (double_of_decimal m e) as [M k|sg|]; [|discriminate|intros [= <-]; eauto].
    destruct (_ && _); [intros [= <-]; eauto | discriminate].
  - intros [= <-]. now left.
  - intros [= <-]. eauto.
  - intros [= <-]. eauto.
  - intros [= <-]. now left.
Qed.


Lemma id_fixed w : int_or_missing w -> astype_Int64 (to_numeric w) = Ok w.
Proof. intros [-> | (z & ->)]; reflexivity. Qed.

Lemma name_step v :
  let w := replace_empty (str_strip (astype_str v)) in w = NaN \/ name_cell w.
Proof.
  unfold astype_str, str_strip, replace_empty.
  destruct (strip (py_str v)) as [|c s] eqn:E; [now left|].
  right. exists (String c s). split; [reflexivity|]. split; [discriminate|].
  rewrite <- E. apply strip_idem.
Qed.

Lemma name_fixed w : name_cell w -> replace_empty (str_strip (astype_str w)) = w.
Proof.
  intros (s & -> & Hne & Hs). unfold astype_str, str_strip, replace_empty.
  cbn [py_str]. rewrite Hs. destruct s; [contradiction | reflexivity].
Qed.

Lemma title_step v : title_or_missing (replace_empty (str_title (astype_str v))).
Proof.
  unfold astype_str, str_title, replace_empty.
  destruct (title (py_str v)) as [|c s] eqn:E; [now left|].
  right. exists (py_str v). rewrite E. split; [reflexivity | discriminate].
Qed.

Lemma title_empty s : title s = "" -> s = "".
Proof.
  unfold title. destruct (sall is_ascii s); [apply title_from_empty|].
  destruct (unicode_title s). discriminate.
Qed.

Lemma text_step v : title_cell (str_title (astype_str v)).
Proof. exists (py_str v). reflexivity. Qed.

Lemma email_step v w : normalize_email v = Ok w -> email_cell w.
Proof.
  intros H. apply normalize_email_form in H as [[_ ->] | (_ & e & -> & H1 & H2 & H3 & _)].
  - now left.
  - right. eauto.
Qed.


Lemma phone_total v region :
  exists w, normalize_phone v region = Ok w /\ phone_cell w.
Proof.
  unfold normalize_phone, phone_cell. destruct (blank v); [eauto|].
  set (digits := sfilter is_digit _).
  assert (Hfb : exists w, Ok (if (8 <=? String.length digits)%nat then Str digits else NaN)
                          = Ok w /\ (w = NaN \/ exists s, w = Str s)).
  { destruct (8 <=? String.length digits)%nat; eauto. }
  destruct (phonenumbers_parse _ _) as [p|e]; cbn [try_except mbind res_bind]; [|exact Hfb].
  destruct (is_valid_number p) as [[|]|e]; cbn [try_except mbind res_bind]; try exact Hfb.
  destruct (format_number_E164 p) as [s|e]; cbn [try_except mbind res_bind]; [eauto | exact Hfb].
Qed.

Lemma phone_step v region w : normalize_phone v region = Ok w -> phone_cell w.
Proof.
  intros H. destruct (phone_total v region) as (w' & Hw & Hs).
  rewrite H in Hw. now injection Hw as <-.
Qed.

Lemma date_step v w : parse_date_safe v = Ok w -> date_cell w.
Proof.
  intros H. destruct (parse_date_safe_result v) as (w' & Hw & Hs).
  rewrite H in Hw. now injection Hw as <-.
Qed.


Lemma money_step v w : money_round v 2 = Ok w -> money_cell w.
Proof. intros H. now apply money_round_result in H. Qed.


Lemma quantity_step v w : coerce_quantity v = Ok w -> int_cell w.
Proof.
  unfold coerce_quantity, astype_int, int_cell.
  destruct (fillna (Int 1) (to_numeric v)) as [s | [m e | | neg |] | z | t |]; try discriminate.
  - destruct (double_of_decimal m e) as [M k|sg|];
      [intros [= <-]; eauto | discriminate | intros [= <-]; eauto].
  - intros [= <-]. eauto.
  - intros [= <-]. eauto.
Qed.

Lemma quantity_fixed w : int_cell w -> coerce_quantity w = Ok w.
Proof. intros (z & ->). reflexivity. Qed.


End CellSteps.

(** ** Sorted lists of rows *)

Lemma StronglySorted_sublist {A} (R : A -> A -> Prop) (l l' : list A) :
  sublist l' l -> StronglySorted R l -> StronglySorted R l'.
Proof.
  induction 1 as [|x l1 l2 Hs IH|x l1 l2 Hs IH]; intros H.
  - constructor.
  - apply StronglySorted_inv in H as [H Hall]. constructor; [auto|].
    apply List.Forall_forall. intros y Hy.
    apply (proj1 (List.Forall_forall _ _) Hall).
    apply list_elem_of_In. eapply elem_of_sublist; [|exact Hs]. now apply list_elem_of_In.
  - apply StronglySorted_inv in H as [H _]. auto.
Qed.

Lemma StronglySorted_map {A B} (R : A -> A -> Prop) (R' : B -> B -> Prop) (f : A -> B) l :
  (forall a b, R a b -> R' (f a) (f b)) ->
  StronglySorted R l -> StronglySorted R' (map f l).
Proof.
  intros Hf. induction 1 as [|x l Hs IH Hall]; simpl; constructor; [exact IH|].
  apply List.Forall_forall. intros y Hy.
  apply in_map_iff in Hy as (a & <- & Ha).
  apply Hf. exact (proj1 (List.Forall_forall _ _) Hall a Ha).
Qed.

Lemma sorted_ascending by_ l : StronglySorted (row_le by_) l -> ascending_na_last by_ l.
Proof.
  intros Hs i j r1 r2 Hij Hi Hj.
  pose proof (sorted_lookup by_ _ _ _ _ _ Hs Hij Hi Hj) as H.
  unfold row_le, key_leb in H.
  destruct (datetime_key (row_get by_ r1)), (datetime_key (row_get by_ r2));
    try discriminate; try exact I.
  now apply Z.leb_le.
Qed.

Lemma key_leb_refl a : key_leb a a = true.
Proof. destruct a; simpl; [apply Z.leb_refl | reflexivity]. Qed.

(** In a sorted list the first row with a given property comes before, and
    so is not later than, every other row with it. *)
Lemma sorted_find_least by_ (p : row -> bool) l r :
  StronglySorted (row_le by_) l -> List.find p l = Some r ->
  forall r', In r' l -> p r' = true -> row_le by_ r r'.
Proof.
  induction 1 as [|x l Hs IH Hall]; simpl; [discriminate|].
  destruct (p x) eqn:E.
  - intros [= <-] r' [<- | Hin] _.
    + apply key_leb_refl.
    + exact (proj1 (List.Forall_forall _ _) Hall r' Hin).
  - intros Hf r' [<- | Hin] Hp; [congruence|]. now apply IH.
Qed.

(** Rows with distinct keys are all kept by drop_duplicates. *)
Lemma keep_first_NoDup_id (key : row -> cell) seen l :
  List.NoDup (map key l) -> (forall r, In r l -> key r ∉ seen) ->
  keep_first key seen l = l.
Proof.
  revert seen. induction l as [|x l IH]; intros seen Hnd Hseen; simpl; [reflexivity|].
  inversion Hnd as [|? ? Hx Hnd']; subst.
  rewrite bool_decide_eq_false_2 by (apply Hseen; now left).
  f_equal. apply IH; [exact Hnd'|].
  intros r Hr Hin. apply elem_of_cons in Hin as [Heq | Hin].
  - apply Hx. rewrite <- Heq. now apply in_map.
  - apply (Hseen r); [now right | exact Hin].
Qed.

Lemma filter_all {A} (p : A -> bool) l : (forall x, In x l -> p x = true) -> List.filter p l = l.
Proof.
  induction l as [|x l IH]; intros H; simpl; [reflexivity|].
  rewrite (H x (or_introl eq_refl)). f_equal. apply IH. intros y Hy. apply H. now right.
Qed.

(** ** clean_customers: the rows it returns *)

Ltac carry :=
  repeat (eapply transform_preserves; [eassumption | discriminate |]).

Ltac settle :=
  eapply column_holds_impl; [| eapply transform_establishes; eassumption].

Lemma filter_drop_add c cols :
  List.filter (fun k => negb (String.eqb k c)) (add_col c cols)
  = List.filter (fun k => negb (String.eqb k c)) cols.
Proof.
  unfold add_col. destruct (existsb _ cols); [reflexivity|].
  rewrite List.filter_app. simpl. rewrite String.eqb_refl. simpl. apply app_nil_r.
Qed.

Section CustomerRows.
Context `{L : Lib}.

Lemma normalize_customers_columns df n :
  normalize_customers df = Ok n ->
  column_holds "customer_id" int_or_missing (rows n)
  /\ column_holds "name" (fun w => w = NaN \/ name_cell w) (rows n)
  /\ column_holds "email" email_cell (rows n)
  /\ column_holds "phone" phone_cell (rows n)
  /\ column_holds "city" title_or_missing (rows n)
  /\ column_holds "state" title_or_missing (rows n)
  /\ column_holds "signup_date" date_cell (rows n).
Proof.
  unfold normalize_customers. intros H.
  apply bind_Ok in H as (d1 & H1 & H). apply bind_Ok in H as (d2 & H2 & H).
  apply bind_Ok in H as (d3 & H3 & H). apply bind_Ok in H as (d4 & H4 & H).
  apply bind_Ok in H as (d5 & H5 & H). apply bind_Ok in H as (d6 & H6 & H7).
  split; [|split; [|split; [|split; [|split; [|split]]]]].
  - carry. settle. intros w (v & Hv). eapply id_step, Hv.
  - carry. settle. intros w (v & [= <-]). apply name_step.
  - carry. settle. intros w (v & Hv). eapply email_step, Hv.
  - carry. settle. intros w (v & Hv). eapply phone_step, Hv.
  - carry. settle. intros w (v & [= <-]). apply title_step.
  - carry. settle. intros w (v & [= <-]). apply title_step.
  - settle. intros w (v & Hv). eapply date_step, Hv.
Qed.

Lemma normalize_customers_frame df n :
  normalize_customers df = Ok n ->
  columns n = columns df
  /\ List.length (rows n) = List.length (rows df)
  /\ Forall (fun c => has_col c df = true) customer_inputs.
Proof.
  unfold normalize_customers. intros H.
  apply bind_Ok in H as (d1 & H1 & H). apply bind_Ok in H as (d2 & H2 & H).
  apply bind_Ok in H as (d3 & H3 & H). apply bind_Ok in H as (d4 & H4 & H).
  apply bind_Ok in H as (d5 & H5 & H). apply bind_Ok in H as (d6 & H6 & H7).
  pose proof (transform_length _ _ _ _ H1) as L1.
  pose proof (transform_length _ _ _ _ H2) as L2.
  pose proof (transform_length _ _ _ _ H3) as L3.
  pose proof (transform_length _ _ _ _ H4) as L4.
  pose proof (transform_length _ _ _ _ H5) as L5.
  pose proof (transform_length _ _ _ _ H6) as L6.
  pose proof (transform_length _ _ _ _ H7) as L7.
  apply transform_columns in H1 as [C1 E1]. apply transform_columns in H2 as [C2 E2].
  apply transform_columns in H3 as [C3 E3]. apply transform_columns in H4 as [C4 E4].
  apply transform_columns in H5 as [C5 E5]. apply transform_columns in H6 as [C6 E6].
  apply transform_columns in H7 as [C7 E7].
  unfold has_col in *.
  rewrite E6, E5, E4, E3, E2, E1 in C7. rewrite E5, E4, E3, E2, E1 in C6.
  rewrite E4, E3, E2, E1 in C5. rewrite E3, E2, E1 in C4. rewrite E2, E1 in C3.
  rewrite E1 in C2.
  split; [congruence|]. split; [congruence|].
  unfold customer_inputs. repeat constructor; assumption.
Qed.

Lemma clean_customers_rows df out log :
  clean_customers df = Ok (out, log) ->
  exists n,
    normalize_customers df = Ok n
    /\ forall r, In r (rows out) ->
         exists r0, In r0 (rows n) /\ has_id_and_name r0 = true /\ r = row_del "dup_key" r0.
Proof.
  intros H. apply clean_customers_Ok in H as (n & Hn & Hrows).
  exists n. split; [exact Hn|]. intros r Hr. rewrite Hrows in Hr.
  apply in_map_iff in Hr as (r0 & <- & Hr0).
  apply keep_first_In in Hr0.
  apply (Permutation_in _ (sort_rows_perm _ _)) in Hr0.
  apply filter_In in Hr0 as [Hr0 Hv]. eauto.
Qed.

(** Every row clean_customers returns is a well-formed Customer: the id is
    an integer, the name a non-empty text without surrounding whitespace,
    the email absent or a non-empty text without whitespace and upper-case
    letters, the phone absent or a text, city and state absent or a
    non-empty title-cased text, the signup date absent or a timestamp; and
    the helper column dup_key is gone. *)
Theorem clean_customers_schema (df out : DataFrame) (log : list output) :
  clean_customers df = Ok (out, log) ->
  forall r, In r (rows out) -> customer_row r /\ ~ In "dup_key" (map fst r).
Proof.
  intros H r Hr.
  apply clean_customers_rows in H as (n & Hn & Hrows).
  destruct (Hrows r Hr) as (r0 & Hr0 & Hv & ->).
  apply normalize_customers_columns in Hn as (Hid & Hname & Hemail & Hphone & Hcity & Hstate & Hdate).
  unfold has_id_and_name in Hv. apply andb_true_iff in Hv as [Hv1 Hv2].
  apply negb_true_iff in Hv1, Hv2.
  split.
  - unfold customer_row. rewrite !row_get_del_ne by discriminate.
    split; [|split; [|split; [|split; [|split; [|split]]]]].
    + destruct (proj2 (Hid r0 Hr0)) as [E | E]; [|exact E].
      rewrite E in Hv1. discriminate.
    + destruct (proj2 (Hname r0 Hr0)) as [E | E]; [|exact E].
      rewrite E in Hv2. discriminate.
    + apply Hemail, Hr0.
    + apply Hphone, Hr0.
    + apply Hcity, Hr0.
    + apply Hstate, Hr0.
    + apply Hdate, Hr0.
  - intros Hin. apply row_del_keys in Hin as [Hne _]. now apply Hne.
Qed.

(** The rows clean_customers returns are in ascending order of signup
    date, the rows without a date last; and the row kept for a dedup key is
    the earliest of the valid rows with that key (a row without a date is
    kept only when no row with the key has one). *)
Theorem clean_customers_keeps_earliest (df out : DataFrame) (log : list output) :
  clean_customers df = Ok (out, log) ->
  exists n,
    normalize_customers df = Ok n
    /\ ascending_na_last "signup_date" (rows out)
    /\ forall r r0,
         In r (rows out) -> In r0 (rows n) -> has_id_and_name r0 = true ->
         dup_key r0 = dup_key r -> row_le "signup_date" r r0.
Proof.
  intros H. apply clean_customers_Ok in H as (n & Hn & Hrows).
  exists n. split; [exact Hn|]. rewrite Hrows.
  set (sorted := sort_rows "signup_date" (List.filter has_id_and_name (rows n))).
  assert (Hs : StronglySorted (row_le "signup_date") sorted) by apply sort_rows_sorted.
  split.
  - apply sorted_ascending.
    apply StronglySorted_map with (R := row_le "signup_date").
    + intros a b. unfold row_le. now rewrite !row_get_del_ne by discriminate.
    + eapply StronglySorted_sublist; [apply keep_first_sublist | exact Hs].
  - intros r r0 Hr Hr0 Hv Hk.
    apply in_map_iff in Hr as (r1 & <- & Hr1).
    rewrite dup_key_row_del in Hk.
    unfold row_le. rewrite row_get_del_ne by discriminate.
    apply keep_first_find in Hr1.
    apply (sorted_find_least _ _ _ _ Hs Hr1).
    + apply (Permutation_in _ (Permutation_sym (sort_rows_perm _ _))).
      apply filter_In. auto.
    + now apply bool_decide_eq_true_2.
Qed.

(** The line clean_customers prints counts the normalised rows without an
    id or a name; the table returned is no longer than what is left after
    dropping them, and has the columns of the input (dup_key excepted). *)
Theorem clean_customers_accounting (df out : DataFrame) (log : list output) :
  clean_customers df = Ok (out, log) ->
  exists n,
    normalize_customers df = Ok n
    /\ List.length (rows n) = List.length (rows df)
    /\ (let dropped := List.length (List.filter (fun r => negb (has_id_and_name r)) (rows n)) in
        log = [Line ("customers: dropped " ++ Z_str (Z.of_nat dropped) ++ " invalid rows")]
        /\ (List.length (rows out) + dropped <= List.length (rows df))%nat)
    /\ columns out = List.filter (fun k => negb (String.eqb k "dup_key")) (columns df).
Proof.
  intros H. pose proof (clean_customers_Ok _ _ _ H) as (n & Hn & Hrows).
  exists n. split; [exact Hn|].
  pose proof (normalize_customers_frame _ _ Hn) as (Hcols & Hlen & _).
  split; [exact Hlen|].
  unfold clean_customers in H. rewrite Hn in H. cbn [mbind res_bind] in H. cbv zeta in H.
  destruct (dedup_customers_Ok (dropna ["customer_id"; "name"] n)) as (o & Ho & _).
  pose proof Ho as Ho'. unfold dedup_customers in Ho'. rewrite assign_pure in Ho'.
  injection Ho' as Ho'.
  rewrite Ho in H. cbn [mbind res_bind] in H. injection H as <- <-.
  pose proof (List.filter_length has_id_and_name (rows n)) as Hpart.
  pose proof (dropna_id_name n) as Hd. unfold dropna in Hd. simpl in Hd. rewrite Hd.
  cbv zeta. split; [split|].
  - replace (List.length (rows n) - List.length (List.filter has_id_and_name (rows n)))%nat
      with (List.length (List.filter (fun r => negb (has_id_and_name r)) (rows n))) by lia.
    reflexivity.
  - rewrite Hrows, length_map, <- Hlen.
    pose proof (sublist_length _ _ (keep_first_sublist dup_key []
                  (sort_rows "signup_date" (List.filter has_id_and_name (rows n))))) as Hsub.
    pose proof (Permutation_length (sort_rows_perm "signup_date"
                  (List.filter has_id_and_name (rows n)))) as Hperm.
    lia.
  - rewrite <- Ho'. unfold reset_index, drop_column, drop_duplicates, sort_values, dropna.
    cbn [columns]. now rewrite filter_drop_add, Hcols.
Qed.

End CustomerRows.

(** ** When the cleaners return, and what they raise *)



Section Outcomes.
Context `{L : Lib}.








End Outcomes.

Lemma clean_customers_schema_witness :
  exists out log,
    clean_customers (L := RefLib) Sample.customers = Ok (out, log)
    /\ forall r, In r (rows out) ->
         customer_row (L := RefLib) r /\ ~ In "dup_key" (map fst r).
Proof.
  eexists _, _. split; [vm_compute; reflexivity|].
  eapply (clean_customers_schema (L := RefLib) Sample.customers). vm_compute. reflexivity.
Defined.

Lemma clean_customers_keeps_earliest_witness :
  exists out log,
    clean_customers (L := RefLib) Sample.customers = Ok (out, log)
    /\ exists n,
         normalize_customers (L := RefLib) Sample.customers = Ok n
         /\ ascending_na_last "signup_date" (rows out)
         /\ forall r r0,
              In r (rows out) -> In r0 (rows n) -> has_id_and_name r0 = true ->
              dup_key (L := RefLib) r0 = dup_key (L := RefLib) r -> row_le "signup_date" r r0.
Proof.
  eexists _, _. split; [vm_compute; reflexivity|].
  eapply (clean_customers_keeps_earliest (L := RefLib) Sample.customers). vm_compute. reflexivity.
Defined.

Lemma clean_customers_accounting_witness :
  exists out log,
    clean_customers (L := RefLib) Sample.customers = Ok (out, log)
    /\ exists n,
         normalize_customers (L := RefLib) Sample.customers = Ok n
         /\ List.length (rows n) = List.length (rows Sample.customers)
         /\ (let dropped :=
               List.length (List.filter (fun r => negb (has_id_and_name r)) (rows n)) in
             log = [Line ("customers: dropped " ++ Z_str (Z.of_nat dropped) ++ " invalid rows")]
             /\ (List.length (rows out) + dropped <= List.length (rows Sample.customers))%nat)
         /\ columns out
            = List.filter (fun k => negb (String.eqb k "dup_key")) (columns Sample.customers).
Proof.
  eexists _, _. split; [vm_compute; reflexivity|].
  eapply (clean_customers_accounting (L := RefLib) Sample.customers). vm_compute. reflexivity.
Defined.


(** ** clean_products *)

Section Products.
Context `{L : Lib}.

Lemma clean_products_unfold df :
  clean_products df
  = (n ← normalize_products df;
     let kept := dropna ["product_id"; "product_name"] n in
     Ok (reset_index (drop_duplicates "product_id" kept),
         [Line ("products: dropped "
                ++ Z_str (Z.of_nat (List.length (rows n) - List.length (rows kept)))
                ++ " invalid rows")])).
Proof.
  unfold clean_products, normalize_products.
  destruct (transform "product_id" _ df) as [d1|]; cbn [mbind res_bind]; [|reflexivity].
  destruct (transform "product_name" _ d1) as [d2|]; cbn [mbind res_bind]; [|reflexivity].
  destruct (transform "category" _ d2) as [d3|]; cbn [mbind res_bind]; [|reflexivity].
  destruct (transform "brand" _ d3) as [d4|]; cbn [mbind res_bind]; [|reflexivity].
  destruct (transform "price" _ d4) as [d5|]; cbn [mbind res_bind]; [|reflexivity].
  destruct (transform "stock_quantity" _ d5) as [d6|]; reflexivity.
Qed.

Lemma dropna_product (df : DataFrame) :
  rows (dropna ["product_id"; "product_name"] df)
  = List.filter has_id_and_product_name (rows df).
Proof.
  unfold dropna. simpl. apply filter_ext. intros r. unfold has_id_and_product_name.
  now destruct (isna (row_get "product_id" r)), (isna (row_get "product_name" r)).
Qed.

Lemma normalize_products_rows df n :
  normalize_products df = Ok n ->
  columns n = columns df
  /\ Forall (fun c => has_col c df = true) product_inputs
  /\ Forall2 normalized_product (rows df) (rows n).
Proof.
  unfold normalize_products. intros H.
  apply bind_Ok in H as (d1 & H1 & H). apply bind_Ok in H as (d2 & H2 & H).
  apply bind_Ok in H as (d3 & H3 & H). apply bind_Ok in H as (d4 & H4 & H).
  apply bind_Ok in H as (d5 & H5 & H6).
  apply transform_Ok in H1 as (C1 & E1 & F1). apply transform_Ok in H2 as (C2 & E2 & F2).
  apply transform_Ok in H3 as (C3 & E3 & F3). apply transform_Ok in H4 as (C4 & E4 & F4).
  apply transform_Ok in H5 as (C5 & E5 & F5). apply transform_Ok in H6 as (C6 & E6 & F6).
  unfold has_col in *.
  rewrite E5, E4, E3, E2, E1 in C6. rewrite E4, E3, E2, E1 in C5.
  rewrite E3, E2, E1 in C4. rewrite E2, E1 in C3. rewrite E1 in C2.
  split; [congruence|]. split; [unfold product_inputs; repeat constructor; assumption|].
  apply Forall2_same_length_lookup_2.
  - apply Forall2_length in F1, F2, F3, F4, F5, F6. congruence.
  - intros i raw r Hraw Hr.
    destruct (Forall2_lookup_l _ _ _ _ _ F1 Hraw) as (r1 & Hr1 & v1 & Hv1 & ->).
    destruct (Forall2_lookup_l _ _ _ _ _ F2 Hr1) as (r2 & Hr2 & v2 & Hv2 & ->).
    destruct (Forall2_lookup_l _ _ _ _ _ F3 Hr2) as (r3 & Hr3 & v3 & Hv3 & ->).
    destruct (Forall2_lookup_l _ _ _ _ _ F4 Hr3) as (r4 & Hr4 & v4 & Hv4 & ->).
    destruct (Forall2_lookup_l _ _ _ _ _ F5 Hr4) as (r5 & Hr5 & v5 & Hv5 & ->).
    destruct (Forall2_lookup_l _ _ _ _ _ F6 Hr5) as (r6 & Hr6 & v6 & Hv6 & ->).
    rewrite Hr in Hr6. injection Hr6 as ->.
    rewrite !row_get_set_ne in Hv2 by discriminate.
    rewrite !row_get_set_ne in Hv3 by discriminate.
    rewrite !row_get_set_ne in Hv4 by discriminate.
    rewrite !row_get_set_ne in Hv5 by discriminate.
    rewrite !row_get_set_ne in Hv6 by discriminate.
    assert (v2 = replace_empty (str_strip (astype_str (row_get "product_name" raw))))
      as -> by congruence.
    assert (v3 = replace_empty (str_title (astype_str (row_get "category" raw))))
      as -> by congruence.
    assert (v4 = replace_empty (str_title (astype_str (row_get "brand" raw))))
      as -> by congruence.
    exists v1, v5, v6. repeat split; assumption.
Qed.

(** What a normalised product row holds in each column. *)
Lemma normalized_product_cells raw r :
  normalized_product raw r ->
  Forall (fun c => In c (map fst r)) product_inputs
  /\ int_or_missing (row_get "product_id" r)
  /\ (row_get "product_name" r = NaN \/ name_cell (row_get "product_name" r))
  /\ row_get "category" r = replace_empty (str_title (astype_str (row_get "category" raw)))
  /\ row_get "brand" r = replace_empty (str_title (astype_str (row_get "brand" raw)))
  /\ money_cell (row_get "price" r)
  /\ int_or_missing (row_get "stock_quantity" r).
Proof.
  intros (id & price & stock & Hid & Hprice & Hstock & ->).
  split.
  { unfold product_inputs. repeat constructor; rewrite !row_set_keys; auto 10. }
  repeat (rewrite ?row_get_set_eq; rewrite ?row_get_set_ne by discriminate).
  split; [eapply id_step, Hid|]. split; [apply name_step|].
  split; [reflexivity|]. split; [reflexivity|].
  split; [eapply money_step, Hprice | eapply id_step, Hstock].
Qed.

Lemma clean_products_Ok df out log :
  clean_products df = Ok (out, log) ->
  exists n,
    normalize_products df = Ok n
    /\ out = mkDF (columns n)
                  (keep_first (row_get "product_id") []
                     (List.filter has_id_and_product_name (rows n)))
    /\ log = [Line ("products: dropped "
                    ++ Z_str (Z.of_nat (List.length
                         (List.filter (fun r => negb (has_id_and_product_name r)) (rows n))))
                    ++ " invalid rows")].
Proof.
  rewrite clean_products_unfold. intros H. apply bind_Ok in H as (n & Hn & H).
  cbv zeta in H. injection H as <- <-. exists n. split; [exact Hn|].
  pose proof (dropna_product n) as Hd. unfold dropna in Hd. simpl in Hd.
  unfold reset_index, drop_duplicates. rewrite dropna_product, ?Hd. split; [reflexivity|].
  pose proof (List.filter_length has_id_and_product_name (rows n)) as Hpart.
  replace (List.length (rows n) - List.length (List.filter has_id_and_product_name (rows n)))%nat
    with (List.length (List.filter (fun r => negb (has_id_and_product_name r)) (rows n)))
    by lia.
  reflexivity.
Qed.

(** clean_products, end to end: every raw row is normalised cell by cell;
    the rows left without an id or a name are dropped, and counted in the
    printed line; of the others, in the order of the input, the first row
    of each product_id is kept.  The columns are those of the input. *)
Theorem clean_products_first_wins (df out : DataFrame) (log : list output) :
  clean_products df = Ok (out, log) ->
  exists n,
    Forall2 normalized_product (rows df) n
    /\ first_per_key (row_get "product_id") (List.filter has_id_and_product_name n) (rows out)
    /\ columns out = columns df
    /\ log = [Line ("products: dropped "
                    ++ Z_str (Z.of_nat (List.length
                         (List.filter (fun r => negb (has_id_and_product_name r)) n)))
                    ++ " invalid rows")].
Proof.
  intros H. apply clean_products_Ok in H as (n & Hn & -> & ->).
  apply normalize_products_rows in Hn as (Hcols & _ & Hrows).
  exists (rows n). split; [exact Hrows|]. split; [apply keep_first_spec|].
  split; [exact Hcols | reflexivity].
Qed.

Lemma clean_products_rows df out log r :
  clean_products df = Ok (out, log) -> In r (rows out) ->
  has_id_and_product_name r = true /\ exists raw, In raw (rows df) /\ normalized_product raw r.
Proof.
  intros H Hr. apply clean_products_Ok in H as (n & Hn & -> & _).
  cbn [rows] in Hr. apply keep_first_In in Hr. apply filter_In in Hr as [Hr Hv].
  split; [exact Hv|].
  apply normalize_products_rows in Hn as (_ & _ & Hrows).
  destruct (Forall2_In_r _ _ _ _ Hrows Hr) as (raw & Hraw & Hn). eauto.
Qed.

Lemma clean_products_shape (df out : DataFrame) (log : list output) :
  clean_products df = Ok (out, log) ->
  forall r, In r (rows out) -> product_row r.
Proof.
  intros H r Hr. destruct (clean_products_rows _ _ _ _ H Hr) as (Hv & raw & _ & Hn).
  apply normalized_product_cells in Hn as (_ & Hid & Hname & Hcat & Hbrand & Hprice & Hstock).
  unfold has_id_and_product_name in Hv. apply andb_true_iff in Hv as [Hv1 Hv2].
  apply negb_true_iff in Hv1, Hv2.
  unfold product_row. split; [|split; [|split; [|split; [|split]]]].
  - destruct Hid as [E | E]; [rewrite E in Hv1; discriminate | exact E].
  - destruct Hname as [E | E]; [rewrite E in Hv2; discriminate | exact E].
  - rewrite Hcat. apply title_step.
  - rewrite Hbrand. apply title_step.
  - exact Hprice.
  - exact Hstock.
Qed.

(** Every row clean_products returns is a well-formed Product: the id is an
    integer, the name a non-empty text without surrounding whitespace,
    category and brand absent or a non-empty title-cased text, the price
    absent or the float nearest to an amount with two decimals, the stock
    absent or an integer. *)
Theorem clean_products_schema (df out : DataFrame) (log : list output) :
  clean_products df = Ok (out, log) ->
  forall r, In r (rows out) -> product_row r.
Proof. exact (clean_products_shape df out log). Qed.

End Products.

Lemma clean_products_first_wins_witness :
  exists out log,
    clean_products (L := RefLib) Sample.products = Ok (out, log)
    /\ exists n,
         Forall2 (normalized_product (L := RefLib)) (rows Sample.products) n
         /\ first_per_key (row_get "product_id") (List.filter has_id_and_product_name n)
                          (rows out)
         /\ columns out = columns Sample.products
         /\ log = [Line ("products: dropped "
                         ++ Z_str (Z.of_nat (List.length
                              (List.filter (fun r => negb (has_id_and_product_name r)) n)))
                         ++ " invalid rows")].
Proof.
  eexists _, _. split; [vm_compute; reflexivity|].
  eapply (clean_products_first_wins (L := RefLib) Sample.products). vm_compute. reflexivity.
Defined.

Lemma clean_products_schema_witness :
  exists out log,
    clean_products (L := RefLib) Sample.products = Ok (out, log)
    /\ forall r, In r (rows out) -> product_row (L := RefLib) r.
Proof.
  eexists _, _. split; [vm_compute; reflexivity|].
  eapply (clean_products_schema (L := RefLib) Sample.products). vm_compute. reflexivity.
Defined.

Section ProductOutcome.
Context `{L : Lib}.





End ProductOutcome.



(** ** clean_orders *)

Lemma filter_filter {A} (p q : A -> bool) l :
  List.filter q (List.filter p l) = List.filter (fun x => p x && q x) l.
Proof.
  induction l as [|x l IH]; simpl; [reflexivity|].
  destruct (p x); simpl; [destruct (q x); now rewrite IH | exact IH].
Qed.

Section OrderRows.
Context `{L : Lib}.

Lemma timestamp_step_Ok df df' :
  (if has_col "order_timestamp" df
   then transform "order_timestamp" parse_date_safe df
   else _ ← require "order_date" df;
        assign "order_timestamp" (fun r => parse_date_safe (row_get "order_date" r)) df)
  = Ok df' ->
  has_col (timestamp_source df) df = true
  /\ columns df' = add_col "order_timestamp" (columns df)
  /\ Forall2 (fun r r' => exists v, parse_date_safe (row_get (timestamp_source df) r) = Ok v
                                    /\ r' = row_set "order_timestamp" v r)
             (rows df) (rows df').
Proof.
  unfold timestamp_source. destruct (has_col "order_timestamp" df) eqn:E; intros H.
  - apply transform_Ok in H as (_ & Hc & H). split; [exact E|]. split; [|exact H].
    rewrite Hc. symmetry. now apply add_col_present.
  - apply bind_Ok in H as (u & Hr & H). apply assign_Ok in H as [Hc H].
    unfold require in Hr. destruct (has_col "order_date" df); [|discriminate]. auto.
Qed.

Lemma filter_valid_rows vc vp df :
  rows (filter_valid vc vp df) = List.filter (references_valid vc vp) (rows df).
Proof. unfold filter_valid. cbn [rows]. apply filter_filter. Qed.

Lemma normalize_orders_rows df n :
  normalize_orders df = Ok n ->
  columns n = add_col "order_timestamp" (columns df)
  /\ Forall (fun c => has_col c df = true)
            ["order_id"; "customer_id"; "product_id"; "quantity"; timestamp_source df;
             "shipping_city"; "payment_method"; "status"]
  /\ Forall2 (normalized_order (timestamp_source df)) (rows df) (rows n).
Proof.
  unfold normalize_orders. intros H.
  apply bind_Ok in H as (d1 & H1 & H). apply bind_Ok in H as (d2 & H2 & H).
  apply bind_Ok in H as (d3 & H3 & H). apply bind_Ok in H as (d4 & H4 & H).
  apply bind_Ok in H as (d5 & H5 & H). apply bind_Ok in H as (d6 & H6 & H).
  apply bind_Ok in H as (d7 & H7 & H8).
  apply transform_Ok in H1 as (C1 & E1 & F1). apply transform_Ok in H2 as (C2 & E2 & F2).
  apply transform_Ok in H3 as (C3 & E3 & F3). apply transform_Ok in H4 as (C4 & E4 & F4).
  apply timestamp_step_Ok in H5 as (C5 & E5 & F5).
  apply transform_Ok in H6 as (C6 & E6 & F6). apply transform_Ok in H7 as (C7 & E7 & F7).
  apply transform_Ok in H8 as (C8 & E8 & F8).
  assert (E4' : columns d4 = columns df) by congruence.
  assert (Hsrc : timestamp_source d4 = timestamp_source df).
  { unfold timestamp_source, has_col. now rewrite E4'. }
  rewrite Hsrc in C5, F5.
  assert (Hadd : forall c, c <> "order_timestamp" ->
                   existsb (String.eqb c) (add_col "order_timestamp" (columns df))
                   = existsb (String.eqb c) (columns df)).
  { intros c Hne. unfold add_col. destruct (existsb (String.eqb "order_timestamp") (columns df));
      [reflexivity|].
    rewrite existsb_app. simpl. apply String.eqb_neq in Hne. rewrite Hne. now rewrite !orb_false_r. }
  unfold has_col in *.
  rewrite E7, E6, E5, E4', Hadd in C8 by discriminate.
  rewrite E6, E5, E4', Hadd in C7 by discriminate.
  rewrite E5, E4', Hadd in C6 by discriminate.
  rewrite E4' in C5. rewrite E3, E2, E1 in C4. rewrite E2, E1 in C3. rewrite E1 in C2.
  split; [congruence|]. split; [repeat constructor; assumption|].
  apply Forall2_same_length_lookup_2.
  - apply Forall2_length in F1, F2, F3, F4, F5, F6, F7, F8. congruence.
  - intros i raw r Hraw Hr.
    destruct (Forall2_lookup_l _ _ _ _ _ F1 Hraw) as (r1 & Hr1 & v1 & Hv1 & ->).
    destruct (Forall2_lookup_l _ _ _ _ _ F2 Hr1) as (r2 & Hr2 & v2 & Hv2 & ->).
    destruct (Forall2_lookup_l _ _ _ _ _ F3 Hr2) as (r3 & Hr3 & v3 & Hv3 & ->).
    destruct (Forall2_lookup_l _ _ _ _ _ F4 Hr3) as (r4 & Hr4 & v4 & Hv4 & ->).
    destruct (Forall2_lookup_l _ _ _ _ _ F5 Hr4) as (r5 & Hr5 & v5 & Hv5 & ->).
    destruct (Forall2_lookup_l _ _ _ _ _ F6 Hr5) as (r6 & Hr6 & v6 & Hv6 & ->).
    destruct (Forall2_lookup_l _ _ _ _ _ F7 Hr6) as (r7 & Hr7 & v7 & Hv7 & ->).
    destruct (Forall2_lookup_l _ _ _ _ _ F8 Hr7) as (r8 & Hr8 & v8 & Hv8 & ->).
    rewrite Hr in Hr8. injection Hr8 as Hr8. subst r.
    rewrite !row_get_set_ne in Hv2 by discriminate.
    rewrite !row_get_set_ne in Hv3 by discriminate.
    rewrite !row_get_set_ne in Hv4 by discriminate.
    assert (Hv5' : parse_date_safe (row_get (timestamp_source df) raw) = Ok v5).
    { rewrite <- Hv5. unfold timestamp_source, has_col.
      destruct (existsb (String.eqb "order_timestamp") (columns df));
        now rewrite !row_get_set_ne by discriminate. }
    rewrite !row_get_set_ne in Hv6 by discriminate.
    rewrite !row_get_set_ne in Hv7 by discriminate.
    rewrite !row_get_set_ne in Hv8 by discriminate.
    assert (v6 = replace_empty (str_title (astype_str (row_get "shipping_city" raw))))
      as -> by congruence.
    assert (v7 = str_title (astype_str (row_get "payment_method" raw))) as -> by congruence.
    assert (v8 = str_title (astype_str (row_get "status" raw))) as -> by congruence.
    exists v1, v2, v3, v4, v5. repeat split; assumption.
Qed.

Lemma normalized_order_cells src raw r :
  normalized_order src raw r ->
  Forall (fun c => In c (map fst r))
         ["order_id"; "customer_id"; "product_id"; "quantity"; "order_timestamp";
          "shipping_city"; "payment_method"; "status"]
  /\ int_or_missing (row_get "order_id" r)
  /\ int_or_missing (row_get "customer_id" r)
  /\ int_or_missing (row_get "product_id" r)
  /\ int_cell (row_get "quantity" r)
  /\ parse_date_safe (row_get src raw) = Ok (row_get "order_timestamp" r)
  /\ row_get "shipping_city" r
     = replace_empty (str_title (astype_str (row_get "shipping_city" raw)))
  /\ row_get "payment_method" r = str_title (astype_str (row_get "payment_method" raw))
  /\ row_get "status" r = str_title (astype_str (row_get "status" raw)).
Proof.
  intros (oid & cid & pid & qty & ts & Hoid & Hcid & Hpid & Hqty & Hts & ->).
  split.
  { repeat constructor; rewrite !row_set_keys; auto 12. }
  repeat (rewrite ?row_get_set_eq; rewrite ?row_get_set_ne by discriminate).
  split; [eapply id_step, Hoid|]. split; [eapply id_step, Hcid|].
  split; [eapply id_step, Hpid|]. split; [eapply quantity_step, Hqty|].
  split; [exact Hts|]. auto.
Qed.

End OrderRows.

Section OrderStages.
Context `{L : Lib}.

Lemma clean_orders_Ok df vc vp pm now out log :
  clean_orders df vc vp pm now = Ok (out, log) ->
  exists n filled,
    normalize_orders df = Ok n
    /\ List.filter (references_valid vc vp) (rows n) <> []
    /\ Forall2 (finished_order pm now) (List.filter (references_valid vc vp) (rows n)) filled
    /\ out = mkDF (add_col "order_timestamp" (add_col "order_value" (columns n)))
                  (keep_first (row_get "order_id") [] (sort_rows "order_timestamp" filled))
    /\ log = [Line ("orders: dropped "
                    ++ Z_str (Z.of_nat (List.length
                         (List.filter (fun r => negb (references_valid vc vp r)) (rows n))))
                    ++ " rows referencing invalid customer/product")].
Proof.
  unfold clean_orders. intros H. apply bind_Ok in H as (n & Hn & H). cbv zeta in H.
  pose proof (filter_valid_rows vc vp n) as Hkept.
  assert (Hkc : columns (filter_valid vc vp n) = columns n) by reflexivity.
  set (kept := filter_valid vc vp n) in *. clearbody kept.
  apply bind_Ok in H as (f & Hf & H). injection H as <- <-.
  apply finish_orders_Ok in Hf as (a & b & Hne & Ha & Hb & ->).
  apply assign_Ok in Ha as [Ca Fa]. apply assign_Ok in Hb as [Cb Fb].
  exists n, (rows b). split; [exact Hn|]. rewrite <- Hkept. split; [exact Hne|].
  split; [|split].
  - eapply Forall2_compose; [|exact Fa|exact Fb].
    intros r0 ra rb (v & Hv & ->) (w & Hw & ->).
    rewrite row_get_set_ne in Hw by discriminate. injection Hw as <-.
    exists v. auto.
  - unfold drop_duplicates, sort_values. cbn [columns rows]. now rewrite Cb, Ca, Hkc.
  - rewrite Hkept.
    pose proof (List.filter_length (references_valid vc vp) (rows n)) as Hpart.
    replace (List.length (rows n)
             - List.length (List.filter (references_valid vc vp) (rows n)))%nat
      with (List.length (List.filter (fun r => negb (references_valid vc vp r)) (rows n)))
      by lia.
    reflexivity.
Qed.


End OrderStages.

Section OrderTheorems.
Context `{L : Lib}.

Lemma compute_value_cases pm r v :
  compute_value pm r = Ok v ->
  exists p, py_int (row_get "product_id" r) = Ok p
    /\ match pm !! p with
       | Some price => (x ← float_mul price (row_get "quantity" r); money_round x 2) = Ok v
       | None => v = NaN
       end.
Proof.
  unfold compute_value. intros H. apply bind_Ok in H as (p & Hp & H).
  exists p. split; [exact Hp|]. destruct (pm !! p); [exact H | congruence].
Qed.

Lemma compute_value_money pm r v : compute_value pm r = Ok v -> money_cell v.
Proof.
  intros H. apply compute_value_cases in H as (p & _ & H).
  destruct (pm !! p); [|subst; now left].
  apply bind_Ok in H as (x & _ & H). eapply money_step, H.
Qed.

Lemma clean_orders_rows df vc vp pm now out log r :
  clean_orders df vc vp pm now = Ok (out, log) -> In r (rows out) ->
  exists raw r0,
    In raw (rows df)
    /\ normalized_order (timestamp_source df) raw r0
    /\ references_valid vc vp r0 = true
    /\ finished_order pm now r0 r.
Proof.
  intros H Hr. apply clean_orders_Ok in H as (n & filled & Hn & _ & Hf & -> & _).
  cbn [rows] in Hr. apply keep_first_In in Hr.
  apply (Permutation_in _ (sort_rows_perm _ _)) in Hr.
  destruct (Forall2_In_r _ _ _ _ Hf Hr) as (r0 & Hr0 & Hfin).
  apply filter_In in Hr0 as [Hr0 Hv].
  apply normalize_orders_rows in Hn as (_ & _ & Hrows).
  destruct (Forall2_In_r _ _ _ _ Hrows Hr0) as (raw & Hraw & Hno).
  eauto 10.
Qed.

Lemma clean_orders_shape (df : DataFrame) (valid_customers valid_products : gset Z)
    (price_map : gmap Z float) (now : Z) (out : DataFrame) (log : list output) :
  clean_orders df valid_customers valid_products price_map now = Ok (out, log) ->
  forall r, In r (rows out) -> order_row r.
Proof.
  intros H r Hr.
  destruct (clean_orders_rows _ _ _ _ _ _ _ _ H Hr) as (raw & r0 & _ & Hno & Hv & v & Hval & ->).
  apply normalized_order_cells in Hno
    as (_ & Hoid & _ & _ & Hqty & Hts & Hcity & Hpay & Hstatus).
  unfold references_valid in Hv. apply andb_true_iff in Hv as [Hc Hp].
  apply isin_true in Hc as (c & Hc & _). apply isin_true in Hp as (p & Hp & _).
  unfold order_row.
  repeat (rewrite ?row_get_set_eq; rewrite ?row_get_set_ne by discriminate).
  split; [exact Hoid|]. split; [now exists c|]. split; [now exists p|].
  split; [exact Hqty|]. split.
  { apply date_step in Hts. unfold fillna, time_cell.
    destruct Hts as [-> | (t & ->)]; simpl; eauto. }
  split; [rewrite Hcity; apply title_step|].
  split; [rewrite Hpay; apply text_step|].
  split; [rewrite Hstatus; apply text_step|].
  eapply compute_value_money, Hval.
Qed.

(** Every row clean_orders returns is a well-formed Order: customer,
    product and quantity are integers, the order id is an integer or
    absent, the timestamp is present, the shipping city is absent or a
    non-empty title-cased text, payment method and status are title-cased
    texts, and the order value is absent or the float nearest to an amount
    with two decimals. *)
Theorem clean_orders_schema (df : DataFrame) (valid_customers valid_products : gset Z)
    (price_map : gmap Z float) (now : Z) (out : DataFrame) (log : list output) :
  clean_orders df valid_customers valid_products price_map now = Ok (out, log) ->
  forall r, In r (rows out) -> order_row r.
Proof. exact (clean_orders_shape df valid_customers valid_products price_map now out log). Qed.



(** The timestamp of a returned order is read from the column
    order_timestamp, or from order_date when the table has no such column;
    when it is absent or cannot be parsed, it is the reading of the clock. *)
Theorem clean_orders_timestamp (df : DataFrame) (valid_customers valid_products : gset Z)
    (price_map : gmap Z float) (now : Z) (out : DataFrame) (log : list output) :
  clean_orders df valid_customers valid_products price_map now = Ok (out, log) ->
  forall r, In r (rows out) ->
    exists raw ts,
      In raw (rows df)
      /\ astype_Int64 (to_numeric (row_get "order_id" raw)) = Ok (row_get "order_id" r)
      /\ parse_date_safe (row_get (timestamp_source df) raw) = Ok ts
      /\ row_get "order_timestamp" r = (if isna ts then Time now else ts).
Proof.
  intros H r Hr.
  destruct (clean_orders_rows _ _ _ _ _ _ _ _ H Hr) as (raw & r0 & Hraw & Hno & _ & v & _ & ->).
  pose proof (normalized_order_cells _ _ _ Hno) as (_ & _ & _ & _ & _ & Hts & _).
  destruct Hno as (oid & cid & pid & qty & ts & Hoid & _ & _ & _ & _ & Hr0).
  exists raw, (row_get "order_timestamp" r0).
  repeat (rewrite ?row_get_set_eq; rewrite ?row_get_set_ne by discriminate).
  split; [exact Hraw|]. split; [|split; [exact Hts | reflexivity]].
  rewrite Hr0. now rewrite !row_get_set_ne, row_get_set_eq by discriminate.
Qed.

(** The rows clean_orders returns are in ascending order of timestamp, and
    the row kept for an order id is the earliest of the rows with that id
    that passed the referential filter, a missing timestamp counting as
    the reading of the clock. *)
Theorem clean_orders_keeps_earliest (df : DataFrame) (valid_customers valid_products : gset Z)
    (price_map : gmap Z float) (now : Z) (out : DataFrame) (log : list output) :
  clean_orders df valid_customers valid_products price_map now = Ok (out, log) ->
  exists n,
    normalize_orders df = Ok n
    /\ ascending_na_last "order_timestamp" (rows out)
    /\ forall r r0 t t0,
         In r (rows out) -> In r0 (rows n) ->
         references_valid valid_customers valid_products r0 = true ->
         row_get "order_id" r0 = row_get "order_id" r ->
         row_get "order_timestamp" r = Time t ->
         fillna (Time now) (row_get "order_timestamp" r0) = Time t0 ->
         t <= t0.
Proof.
  intros H. apply clean_orders_Ok in H as (n & filled & Hn & _ & Hf & -> & _).
  exists n. split; [exact Hn|]. cbn [rows].
  assert (Hs : StronglySorted (row_le "order_timestamp") (sort_rows "order_timestamp" filled))
    by apply sort_rows_sorted.
  split.
  - apply sorted_ascending.
    eapply StronglySorted_sublist; [apply keep_first_sublist | exact Hs].
  - intros r r0 t t0 Hr Hr0 Hv Hid Ht Ht0.
    assert (Hc : In r0 (List.filter (references_valid valid_customers valid_products) (rows n)))
      by (apply filter_In; auto).
    destruct (Forall2_In_l _ _ _ _ Hf Hc) as (f0 & Hf0 & v & _ & ->).
    apply keep_first_find in Hr. rewrite Ht0 in Hf0.
    pose proof (sorted_find_least _ _ _ _ Hs Hr
                  (row_set "order_timestamp" (Time t0) (row_set "order_value" v r0))) as Hle.
    unfold row_le in Hle. rewrite row_get_set_eq, Ht in Hle. simpl in Hle.
    apply Z.leb_le, Hle.
    + apply (Permutation_in _ (Permutation_sym (sort_rows_perm _ _))). exact Hf0.
    + apply bool_decide_eq_true_2. now rewrite !row_get_set_ne by discriminate.
Qed.

End OrderTheorems.

Lemma clean_orders_schema_witness :
  exists out log,
    clean_orders (L := RefLib) Sample.orders Sample.valid_customers Sample.valid_products
                 Sample.price_map Sample.now = Ok (out, log)
    /\ forall r, In r (rows out) -> order_row (L := RefLib) r.
Proof.
  eexists _, _. split; [vm_compute; reflexivity|].
  eapply (clean_orders_schema (L := RefLib) Sample.orders Sample.valid_customers
            Sample.valid_products Sample.price_map Sample.now).
  vm_compute. reflexivity.
Defined.


Lemma clean_orders_timestamp_witness :
  exists out log,
    clean_orders (L := RefLib) Sample.orders Sample.valid_customers Sample.valid_products
                 Sample.price_map Sample.now = Ok (out, log)
    /\ forall r, In r (rows out) ->
         exists raw ts,
           In raw (rows Sample.orders)
           /\ astype_Int64 (to_numeric (L := RefLib) (row_get "order_id" raw))
              = Ok (row_get "order_id" r)
           /\ parse_date_safe (L := RefLib) (row_get (timestamp_source Sample.orders) raw) = Ok ts
           /\ row_get "order_timestamp" r = (if isna ts then Time Sample.now else ts).
Proof.
  eexists _, _. split; [vm_compute; reflexivity|].
  eapply (clean_orders_timestamp (L := RefLib) Sample.orders Sample.valid_customers
            Sample.valid_products Sample.price_map Sample.now).
  vm_compute. reflexivity.
Defined.

Lemma clean_orders_keeps_earliest_witness :
  exists out log,
    clean_orders (L := RefLib) Sample.orders Sample.valid_customers Sample.valid_products
                 Sample.price_map Sample.now = Ok (out, log)
    /\ exists n,
         normalize_orders (L := RefLib) Sample.orders = Ok n
         /\ ascending_na_last "order_timestamp" (rows out)
         /\ forall r r0 t t0,
              In r (rows out) -> In r0 (rows n) ->
              references_valid Sample.valid_customers Sample.valid_products r0 = true ->
              row_get "order_id" r0 = row_get "order_id" r ->
              row_get "order_timestamp" r = Time t ->
              fillna (Time Sample.now) (row_get "order_timestamp" r0) = Time t0 ->
              t <= t0.
Proof.
  eexists _, _. split; [vm_compute; reflexivity|].
  eapply (clean_orders_keeps_earliest (L := RefLib) Sample.orders Sample.valid_customers
            Sample.valid_products Sample.price_map Sample.now).
  vm_compute. reflexivity.
Defined.

Section OrderOutcome.
Context `{L : Lib}.


Lemma assign_total c g df :
  (forall r, In r (rows df) -> exists w, g r = Ok w) -> exists df', assign c g df = Ok df'.
Proof.
  intros Hg. unfold assign.
  assert (exists rs, mapM_res (fun r => v ← g r; Ok (row_set c v r)) (rows df) = Ok rs)
    as (rs & ->).
  { induction (rows df) as [|r l IH]; simpl; [eauto|].
    destruct (Hg r (or_introl eq_refl)) as (w & ->). simpl.
    destruct IH as (rs & ->); [intros r' Hr'; apply Hg; now right|]. simpl. eauto. }
  simpl. eauto.
Qed.

Lemma has_col_add c c' df df' :
  columns df' = add_col c (columns df) -> has_col c' df = true -> has_col c' df' = true.
Proof.
  unfold has_col, add_col. intros ->. destruct (existsb (String.eqb c) (columns df)); [auto|].
  intros H. rewrite existsb_app, H. reflexivity.
Qed.







End OrderOutcome.


Lemma add_col_self c cols : existsb (String.eqb c) (add_col c cols) = true.
Proof.
  unfold add_col. destruct (existsb (String.eqb c) cols) eqn:E; [exact E|].
  rewrite existsb_app. simpl. rewrite String.eqb_refl. now rewrite orb_true_r.
Qed.

Lemma add_col_mono c c' cols :
  existsb (String.eqb c) cols = true -> existsb (String.eqb c) (add_col c' cols) = true.
Proof.
  unfold add_col. destruct (existsb (String.eqb c') cols); [auto|].
  intros H. rewrite existsb_app, H. reflexivity.
Qed.

Lemma keep_first_nonempty (key : row -> cell) l : l <> [] -> keep_first key [] l <> [].
Proof.
  destruct l as [|x l]; [contradiction|]. intros _. cbn [keep_first].
  destruct (bool_decide (key x ∈ [])) eqn:E; [|discriminate].
  apply bool_decide_eq_true in E. now apply not_elem_of_nil in E.
Qed.

Lemma sort_rows_length `{L : Lib} by_ l : List.length (sort_rows by_ l) = List.length l.
Proof. apply Permutation_length, sort_rows_perm. Qed.

Section OrderAccounting.
Context `{L : Lib}.

(** The line clean_orders prints counts the normalised rows whose customer
    or product is not valid; the table returned is never empty, is no
    longer than what the filter leaves, and has the columns of the input
    followed by order_timestamp and order_value where they were missing. *)
Theorem clean_orders_accounting (df : DataFrame) (valid_customers valid_products : gset Z)
    (price_map : gmap Z float) (now : Z) (out : DataFrame) (log : list output) :
  clean_orders df valid_customers valid_products price_map now = Ok (out, log) ->
  exists n,
    normalize_orders df = Ok n
    /\ List.length (rows n) = List.length (rows df)
    /\ (let dropped :=
          List.length (List.filter
                         (fun r => negb (references_valid valid_customers valid_products r))
                         (rows n)) in
        log = [Line ("orders: dropped " ++ Z_str (Z.of_nat dropped)
                     ++ " rows referencing invalid customer/product")]
        /\ (0 < List.length (rows out))%nat
        /\ (List.length (rows out) + dropped <= List.length (rows df))%nat)
    /\ columns out = add_col "order_value" (add_col "order_timestamp" (columns df)).
Proof.
  intros H. apply clean_orders_Ok in H as (n & filled & Hn & Hne & Hf & -> & ->).
  exists n. split; [exact Hn|].
  apply normalize_orders_rows in Hn as (Hcols & _ & Hrows).
  apply Forall2_length in Hrows, Hf.
  split; [now symmetry|]. cbn [rows columns]. cbv zeta.
  pose proof (List.filter_length (references_valid valid_customers valid_products) (rows n))
    as Hpart.
  pose proof (sublist_length _ _ (keep_first_sublist (row_get "order_id") []
                (sort_rows "order_timestamp" filled))) as Hsub.
  rewrite sort_rows_length in Hsub.
  split; [split; [reflexivity|split]|].
  - assert (Hk : keep_first (row_get "order_id") [] (sort_rows "order_timestamp" filled) <> []).
    { apply keep_first_nonempty. intros E.
      pose proof (sort_rows_length "order_timestamp" filled) as Hl. rewrite E in Hl.
      destruct (List.filter _ (rows n)); [contradiction | simpl in *; lia]. }
    destruct (keep_first _ _ _); [contradiction | simpl; lia].
  - lia.
  - rewrite Hcols. apply add_col_present, add_col_mono, add_col_self.
Qed.

End OrderAccounting.

Lemma clean_orders_accounting_witness :
  exists out log,
    clean_orders (L := RefLib) Sample.orders Sample.valid_customers Sample.valid_products
                 Sample.price_map Sample.now = Ok (out, log)
    /\ exists n,
         normalize_orders (L := RefLib) Sample.orders = Ok n
         /\ List.length (rows n) = List.length (rows Sample.orders)
         /\ (let dropped :=
               List.length (List.filter
                              (fun r => negb (references_valid Sample.valid_customers
                                                               Sample.valid_products r))
                              (rows n)) in
             log = [Line ("orders: dropped " ++ Z_str (Z.of_nat dropped)
                          ++ " rows referencing invalid customer/product")]
             /\ (0 < List.length (rows out))%nat
             /\ (List.length (rows out) + dropped <= List.length (rows Sample.orders))%nat)
         /\ columns out = add_col "order_value" (add_col "order_timestamp" (columns Sample.orders)).
Proof.
  eexists _, _. split; [vm_compute; reflexivity|].
  eapply (clean_orders_accounting (L := RefLib) Sample.orders Sample.valid_customers
            Sample.valid_products Sample.price_map Sample.now).
  vm_compute. reflexivity.
Defined.


(** ** safe_read_csv *)

Lemma read_cell_csv s :
  csv_cell (read_cell s) /\ read_cell s <> Str "NA" /\ read_cell s <> Str "NaN".
Proof.
  unfold read_cell, csv_cell.
  destruct (String.eqb s "") eqn:E1; simpl; [split; [now left | split; discriminate]|].
  destruct (String.eqb s "NA") eqn:E2; simpl; [split; [now left | split; discriminate]|].
  destruct (String.eqb s "NaN") eqn:E3; simpl; [split; [now left | split; discriminate]|].
  apply String.eqb_neq in E1, E2, E3.
  split; [right; eauto|]. split; congruence.
Qed.

Lemma row_get_combine (P : cell -> Prop) header cells c :
  P NaN -> (forall v, In v cells -> P v) -> P (row_get c (combine header cells)).
Proof.
  intros Hna. revert cells. induction header as [|k header IH]; intros cells Hc; simpl;
    [exact Hna|].
  destruct cells as [|v cells]; simpl; [exact Hna|].
  destruct (String.eqb k c); [apply Hc; now left|]. apply IH. intros w Hw. apply Hc. now right.
Qed.

Lemma read_table_rows_csv header lines r :
  In r (rows (read_table header lines)) -> forall c, csv_cell (row_get c r).
Proof.
  intros Hr c. unfold read_table in Hr. cbn [rows] in Hr.
  apply in_map_iff in Hr as (l & <- & _).
  apply (row_get_combine csv_cell); [now left|].
  intros v Hv. apply in_map_iff in Hv as (s & <- & _). apply read_cell_csv.
Qed.

(** What safe_read_csv returns is such a table. *)
Lemma safe_read_csv_rows_csv header lines df r :
  safe_read_csv header lines = Ok df -> In r (rows df) -> forall c, csv_cell (row_get c r).
Proof.
  unfold safe_read_csv. destruct (existsb _ lines); [discriminate|].
  intros [= <-]. apply read_table_rows_csv.
Qed.

(** ** Missing text in a table read from CSV *)

Section CsvCustomers.
Context `{L : Lib}.

Lemma normalize_customers_rows df n :
  normalize_customers df = Ok n -> Forall2 normalized_customer (rows df) (rows n).
Proof.
  unfold normalize_customers. intros H.
  apply bind_Ok in H as (d1 & H1 & H). apply bind_Ok in H as (d2 & H2 & H).
  apply bind_Ok in H as (d3 & H3 & H). apply bind_Ok in H as (d4 & H4 & H).
  apply bind_Ok in H as (d5 & H5 & H). apply bind_Ok in H as (d6 & H6 & H7).
  apply transform_Ok in H1 as (_ & _ & F1). apply transform_Ok in H2 as (_ & _ & F2).
  apply transform_Ok in H3 as (_ & _ & F3). apply transform_Ok in H4 as (_ & _ & F4).
  apply transform_Ok in H5 as (_ & _ & F5). apply transform_Ok in H6 as (_ & _ & F6).
  apply transform_Ok in H7 as (_ & _ & F7).
  apply Forall2_same_length_lookup_2.
  - apply Forall2_length in F1, F2, F3, F4, F5, F6, F7. congruence.
  - intros i raw r Hraw Hr.
    destruct (Forall2_lookup_l _ _ _ _ _ F1 Hraw) as (r1 & Hr1 & v1 & Hv1 & ->).
    destruct (Forall2_lookup_l _ _ _ _ _ F2 Hr1) as (r2 & Hr2 & v2 & Hv2 & ->).
    destruct (Forall2_lookup_l _ _ _ _ _ F3 Hr2) as (r3 & Hr3 & v3 & Hv3 & ->).
    destruct (Forall2_lookup_l _ _ _ _ _ F4 Hr3) as (r4 & Hr4 & v4 & Hv4 & ->).
    destruct (Forall2_lookup_l _ _ _ _ _ F5 Hr4) as (r5 & Hr5 & v5 & Hv5 & ->).
    destruct (Forall2_lookup_l _ _ _ _ _ F6 Hr5) as (r6 & Hr6 & v6 & Hv6 & ->).
    destruct (Forall2_lookup_l _ _ _ _ _ F7 Hr6) as (r7 & Hr7 & v7 & Hv7 & ->).
    rewrite Hr in Hr7. injection Hr7 as Hr7. subst r.
    rewrite !row_get_set_ne in Hv2 by discriminate.
    rewrite !row_get_set_ne in Hv3 by discriminate.
    rewrite !row_get_set_ne in Hv4 by discriminate.
    rewrite !row_get_set_ne in Hv5 by discriminate.
    rewrite !row_get_set_ne in Hv6 by discriminate.
    rewrite !row_get_set_ne in Hv7 by discriminate.
    assert (v2 = replace_empty (str_strip (astype_str (row_get "name" raw)))) as ->
      by congruence.
    assert (v5 = replace_empty (str_title (astype_str (row_get "city" raw)))) as ->
      by congruence.
    assert (v6 = replace_empty (str_title (astype_str (row_get "state" raw)))) as ->
      by congruence.
    exists v1, v3, v4, v7. repeat split; assumption.
Qed.

Lemma id_step_missing v w :
  astype_Int64 (to_numeric v) = Ok w -> (isna w = true <-> to_numeric v = NaN).
Proof.
  assert (Hn : to_numeric v <> NaT).
  { destruct v as [s | f | z | t |]; simpl; try discriminate.
    destruct (to_numeric_str s) as [[m e | neg |]|]; discriminate. }
  unfold astype_Int64. destruct (to_numeric v) as [s | [m e | | neg |] | z | t |];
    try discriminate; try contradiction.
  - destruct (double_of_decimal m e) as [M k|sg|];
      [|discriminate|intros [= <-]; simpl; split; discriminate].
    destruct (_ && _); [intros [= <-]; simpl; split; discriminate | discriminate].
  - intros [= <-]. simpl. tauto.
  - intros [= <-]. simpl. split; discriminate.
  - intros [= <-]. simpl. split; discriminate.
Qed.

Lemma csv_title v :
  csv_cell v -> exists s, replace_empty (str_title (astype_str v)) = Str s /\ s <> "".
Proof.
  intros [-> | (s & -> & Hs)].
  - exists "Nan". split; [reflexivity | discriminate].
  - exists (title s). unfold astype_str, str_title, replace_empty. cbn [py_str].
    destruct (title s) eqn:E.
    + apply title_empty in E. contradiction.
    + split; [reflexivity | discriminate].
Qed.

(** In a table read by safe_read_csv a missing name, city or state is not
    missing after the normalisation: it has become the text "nan" (name) or
    "Nan" (city, state).  So clean_customers drops a CSV row exactly when
    its customer_id is absent or not a number, or its name consists of
    whitespace only; a row without a name is kept. *)
Theorem normalize_customers_csv (df n : DataFrame) :
  (forall r, In r (rows df) ->
     csv_cell (row_get "name" r) /\ csv_cell (row_get "city" r)
     /\ csv_cell (row_get "state" r)) ->
  normalize_customers df = Ok n ->
  Forall2 (fun raw r =>
             (row_get "name" raw = NaN -> row_get "name" r = Str "nan")
             /\ (row_get "city" raw = NaN -> row_get "city" r = Str "Nan")
             /\ (row_get "state" raw = NaN -> row_get "state" r = Str "Nan")
             /\ isna (row_get "city" r) = false
             /\ isna (row_get "state" r) = false
             /\ (has_id_and_name r = false
                 <-> to_numeric (row_get "customer_id" raw) = NaN
                     \/ exists s, row_get "name" raw = Str s /\ strip s = ""))
          (rows df) (rows n).
Proof.
  intros Hcsv Hn. apply normalize_customers_rows in Hn.
  apply Forall2_same_length_lookup_2; [eapply Forall2_length, Hn|].
  intros i raw r Hraw Hr.
  destruct (Forall2_lookup_l _ _ _ _ _ Hn Hraw) as (r' & Hr' & Hnc).
  rewrite Hr in Hr'. injection Hr' as <-.
  destruct (Hcsv raw) as (Hname & Hcity & Hstate).
  { apply list_elem_of_In. eapply list_elem_of_lookup_2, Hraw. }
  destruct Hnc as (id & email & phone & date & Hid & _ & _ & _ & ->).
  unfold has_id_and_name.
  repeat (rewrite ?row_get_set_eq; rewrite ?row_get_set_ne by discriminate).
  split; [intros ->; reflexivity|]. split; [intros ->; reflexivity|].
  split; [intros ->; reflexivity|].
  split; [destruct (csv_title _ Hcity) as (s & -> & _); reflexivity|].
  split; [destruct (csv_title _ Hstate) as (s & -> & _); reflexivity|].
  pose proof (id_step_missing _ _ Hid) as Hmiss.
  destruct Hname as [E | (s & E & Hs)]; rewrite E.
  - change (replace_empty (str_strip (astype_str NaN))) with (Str "nan").
    cbn [isna negb andb]. rewrite andb_true_r. rewrite negb_false_iff, Hmiss.
    split; [now left|]. intros [H | (s & H & _)]; [exact H | discriminate].
  - unfold astype_str, str_strip, replace_empty. cbn [py_str].
    destruct (strip s) eqn:Es.
    + cbn [isna]. rewrite andb_false_r. split; [|reflexivity].
      intros _. right. eauto.
    + cbn [isna negb]. rewrite andb_true_r, negb_false_iff, Hmiss.
      split; [now left|]. intros [H | (s' & [= <-] & H)]; [exact H|]. congruence.
Qed.

End CsvCustomers.

Lemma normalize_customers_csv_witness :
  exists n,
    normalize_customers (L := RefLib) Sample.customers = Ok n
    /\ Forall2 (fun raw r =>
                  (row_get "name" raw = NaN -> row_get "name" r = Str "nan")
                  /\ (row_get "city" raw = NaN -> row_get "city" r = Str "Nan")
                  /\ (row_get "state" raw = NaN -> row_get "state" r = Str "Nan")
                  /\ isna (row_get "city" r) = false
                  /\ isna (row_get "state" r) = false
                  /\ (has_id_and_name r = false
                      <-> to_numeric (L := RefLib) (row_get "customer_id" raw) = NaN
                          \/ exists s, row_get "name" raw = Str s /\ strip s = ""))
               (rows Sample.customers) (rows n).
Proof.
  eexists. split; [vm_compute; reflexivity|].
  eapply (normalize_customers_csv (L := RefLib) Sample.customers).
  - intros r Hr. pose proof (read_table_rows_csv Sample.customer_columns _ r Hr) as H.
    repeat split; apply H.
  - vm_compute. reflexivity.
Defined.

(** ** analytics on cleaned tables *)

Lemma mapM_res_total {A B} (f : A -> res B) (l : list A) :
  (forall x, In x l -> exists y, f x = Ok y) -> exists ys, mapM_res f l = Ok ys.
Proof.
  induction l as [|x l IH]; intros H; simpl; [eauto|].
  destruct (H x (or_introl eq_refl)) as (y & ->). simpl.
  destruct IH as (ys & ->); [intros x' Hx'; apply H; now right|]. simpl. eauto.
Qed.

Section AnalyticsReturns.
Context `{L : Lib}.

Lemma sum_cells_total acc l :
  ((exists a, acc = Int a) \/ exists f, acc = Flt f) ->
  (forall v, In v l -> (exists z, v = Int z) \/ (exists f, v = Flt f) \/ v = NaT) ->
  exists r, sum_cells acc l = Ok r.
Proof.
  revert acc. induction l as [|v l IH]; intros acc Hacc Hl; simpl; [eauto|].
  assert (Hl' : forall v', In v' l ->
                  (exists z, v' = Int z) \/ (exists f, v' = Flt f) \/ v' = NaT)
    by (intros v' Hv'; apply Hl; now right).
  destruct (isna v) eqn:E; [now apply IH|].
  destruct (Hl v (or_introl eq_refl)) as [(z & ->) | [(f & ->) | ->]]; [| |discriminate].
  - destruct Hacc as [(a & ->) | (g & ->)]; apply IH; eauto.
  - destruct Hacc as [(a & ->) | (g & ->)]; apply IH; eauto.
Qed.

Lemma column_Ok c df : has_col c df = true -> column c df = Ok (map (row_get c) (rows df)).
Proof. unfold column. now intros ->. Qed.

Lemma column_missing c df : has_col c df = false -> column c df = Raise KeyError.
Proof. unfold column. now intros ->. Qed.

Lemma money_numeric v :
  money_cell v -> (exists z, v = Int z) \/ (exists f, v = Flt f) \/ v = NaT.
Proof. intros [-> | [-> | (m & -> & _)]]; eauto. Qed.

Lemma merge_keys_check_int left right :
  (forall v, In v right -> int_or_missing v) -> merge_keys_check left right = Ok ().
Proof.
  intros H. unfold merge_keys_check. destruct left as [|k left]; [reflexivity|].
  destruct right as [|v right]; [reflexivity|].
  replace (existsb _ (v :: right)) with false; [reflexivity|].
  symmetry. apply not_true_is_false. intros E.
  apply existsb_exists in E as (w & Hw & E).
  destruct (H w Hw) as [-> | (z & ->)]; discriminate.
Qed.

Lemma analytics_runs (s : frames) :
  (Forall (fun c => has_col c (prod s) = true) ["price"; "product_id"; "product_name"] ->
   Forall (fun c => has_col c (ords s) = true)
          ["order_value"; "product_id"; "quantity"; "order_timestamp"] ->
   (forall r, In r (rows (prod s)) -> int_or_missing (row_get "product_id" r)) ->
   (forall r, In r (rows (ords s)) -> order_row r) ->
   exists s' out, analytics s = Ok (s', out))
  /\ (has_col "price" (prod s) = false -> analytics s = Raise KeyError)
  /\ (has_col "price" (prod s) = true -> has_col "order_value" (ords s) = false ->
      analytics s = Raise KeyError).
Proof.
  split; [|split].
  - intros Hp Ho Hids Hrows.
    apply List.Forall_cons_iff in Hp as [P1 Hp]. apply List.Forall_cons_iff in Hp as [P2 Hp].
    apply List.Forall_cons_iff in Hp as [P3 _].
    apply List.Forall_cons_iff in Ho as [O1 Ho]. apply List.Forall_cons_iff in Ho as [O2 Ho].
    apply List.Forall_cons_iff in Ho as [O3 Ho]. apply List.Forall_cons_iff in Ho as [O4 _].
    assert (Hqty : forall g, (forall r, In r g -> In r (rows (ords s))) ->
                     exists u, sum_cells (Int 0) (map (row_get "quantity") g) = Ok u).
    { intros g Hg. apply sum_cells_total; [eauto|].
      intros v Hv. apply in_map_iff in Hv as (r & <- & Hr).
      destruct (Hrows r (Hg r Hr)) as (_ & _ & _ & (q & ->) & _). eauto. }
    assert (Hval : forall g, (forall r, In r g -> exists r0, In r0 (rows (ords s))
                                /\ row_get "order_value" r = row_get "order_value" r0) ->
                     exists u, sum_cells (Flt (FNum 0 0)) (map (row_get "order_value") g) = Ok u).
    { intros g Hg. apply sum_cells_total; [eauto|].
      intros v Hv. apply in_map_iff in Hv as (r & <- & Hr).
      destruct (Hg r Hr) as (r0 & Hr0 & ->).
      destruct (Hrows r0 Hr0) as (_ & _ & _ & _ & _ & _ & _ & _ & Hm).
      now apply money_numeric. }
    unfold analytics. cbv zeta.
    rewrite (column_Ok "price" (prod s) P1). cbn [mbind res_bind].
    rewrite (column_Ok "order_value" (ords s) O1). cbn [mbind res_bind].
    rewrite (column_Ok "product_id" (ords s) O2), (column_Ok "quantity" (ords s) O3).
    rewrite (column_Ok "product_id" (prod s) P2), (column_Ok "product_name" (prod s) P3).
    rewrite (column_Ok "order_timestamp" (ords s) O4).
    cbn [mbind res_bind].
    match goal with
    | |- exists s' out, (?m ≫= ?k) = Ok (s', out) =>
        assert (Hm : exists o1, m = Ok o1)
    end.
    { destruct (existsb _ _); [|eauto].
      match goal with
      | |- exists o1, (mapM_res ?f ?l ≫= _) = Ok o1 =>
          destruct (mapM_res_total f l) as (groups & ->);
            [|cbn [mbind res_bind];
              rewrite merge_keys_check_int
                by (intros v Hv; apply in_map_iff in Hv as (r & <- & Hr); auto);
              cbn [mbind res_bind]; eauto]
      end.
      intros k _.
      destruct (Hqty (group "product_id" k (ords s))) as (u & ->).
      { intros r Hr. unfold group in Hr. now apply filter_In in Hr as [Hr _]. }
      cbn [mbind res_bind].
      destruct (Hval (group "product_id" k (ords s))) as (v & ->).
      { intros r Hr. unfold group in Hr. apply filter_In in Hr as [Hr _]. eauto. }
      cbn [mbind res_bind]. eauto. }
    destruct Hm as (o1 & ->). cbn [mbind res_bind].
    destruct (existsb _ _); [|eauto].
    destruct (assign_total "month" (fun r => dt_to_period_M (row_get "order_timestamp" r))
                (ords s)) as (o & Hassign).
    { intros r Hr. destruct (Hrows r Hr) as (_ & _ & _ & _ & (t & ->) & _). simpl. eauto. }
    rewrite Hassign. cbn [mbind res_bind ords].
    apply assign_Ok in Hassign as [_ Hassign].
    match goal with
    | |- exists s' out, (mapM_res ?f ?l ≫= _) = Ok (s', out) =>
        destruct (mapM_res_total f l) as (monthly & ->); [|cbn [mbind res_bind]; eauto]
    end.
    intros k _.
    destruct (Hval (group "month" k o)) as (v & ->); [|cbn [mbind res_bind]; eauto].
    intros r Hr. unfold group in Hr. apply filter_In in Hr as [Hr _].
    destruct (Forall2_In_r _ _ _ _ Hassign Hr) as (r0 & Hr0 & m & _ & ->).
    exists r0. split; [exact Hr0|]. now rewrite row_get_set_ne by discriminate.
  - intros H. unfold analytics. cbv zeta. now rewrite (column_missing _ _ H).
  - intros Hp H. unfold analytics. cbv zeta.
    rewrite (column_Ok _ _ Hp). cbn [mbind res_bind]. now rewrite (column_missing _ _ H).
Qed.






End AnalyticsReturns.

(** ** main *)

Lemma id_set_spec c df z :
  z ∈ id_set c df <-> exists r, In r (rows df) /\ row_get c r = Int z.
Proof.
  unfold id_set. induction (rows df) as [|r l IH]; simpl.
  - split; [intros H; now apply elem_of_empty in H | intros (r & [] & _)].
  - destruct (row_get c r) as [s | f | i | t |] eqn:E;
      try (rewrite IH; split;
           [intros (r' & Hr' & H); eauto | intros (r' & [<- | Hr'] & H); [congruence | eauto]]).
    rewrite elem_of_union, elem_of_singleton, IH. split.
    + intros [-> | (r' & Hr' & H)]; eauto.
    + intros (r' & [<- | Hr'] & H); [left; congruence | right; eauto].
Qed.


Section Main.
Context `{L : Lib}.

Lemma analytics_ords s s' out :
  analytics s = Ok (s', out) ->
  cust s' = cust s
  /\ prod s' = prod s
  /\ (existsb (fun r => negb (isna (row_get "order_timestamp" r))) (rows (ords s)) = true ->
      assign "month" (fun r => dt_to_period_M (row_get "order_timestamp" r)) (ords s)
      = Ok (ords s')).
Proof.
  unfold analytics. intros H.
  apply bind_Ok in H as (prices & _ & H).
  apply bind_Ok in H as (values & _ & H).
  apply bind_Ok in H as (out1 & _ & H).
  apply bind_Ok in H as (stamps & Hst & H).
  unfold column in Hst. destruct (has_col "order_timestamp" (ords s)); [|discriminate].
  injection Hst as <-. rewrite existsb_map_col in H.
  destruct (existsb _ (rows (ords s))) eqn:E.
  - apply bind_Ok in H as (o & Ho & H).
    apply bind_Ok in H as (monthly & _ & H). injection H as <- _. simpl. auto.
  - injection H as <- _. repeat split; auto; discriminate.
Qed.

Lemma main_Ok raw_cust raw_prod raw_ord now fs log :
  main raw_cust raw_prod raw_ord now = Ok (fs, log) ->
  exists c p o l1 l2 l3 s l4 o',
    clean_customers raw_cust = Ok (c, l1)
    /\ clean_products raw_prod = Ok (p, l2)
    /\ clean_orders raw_ord (id_set "customer_id" c) (id_set "product_id" p) (price_dict p) now
       = Ok (o, l3)
    /\ analytics (mkFrames c p o) = Ok (s, l4)
    /\ transform "order_timestamp"
         (fun v => match v with
                   | Time t => Ok (Str (strftime_iso t))
                   | _ => Ok NaN
                   end) (ords s) = Ok o'
    /\ fs = mkFiles c p o'
    /\ log = (l1 ++ l2 ++ l3 ++ l4)%list.
Proof.
  unfold main. intros H.
  apply bind_Ok in H as ([c l1] & Hc & H).
  apply bind_Ok in H as ([p l2] & Hp & H).
  apply bind_Ok in H as ([o l3] & Ho & H).
  apply bind_Ok in H as ([s l4] & Hs & H).
  apply bind_Ok in H as (o' & Ho' & H).
  injection H as <- <-.
  exists c, p, o, l1, l2, l3, s, l4, o'. repeat split; assumption.
Qed.

Lemma clean_orders_has_col df vc vp pm now out log c :
  clean_orders df vc vp pm now = Ok (out, log) ->
  In c ["order_value"; "product_id"; "quantity"; "order_timestamp"] ->
  has_col c out = true.
Proof.
  intros H Hin. apply clean_orders_Ok in H as (n & filled & Hn & _ & _ & -> & _).
  apply normalize_orders_rows in Hn as (Hcols & Hhas & _).
  unfold has_col in *. cbn [columns]. rewrite Hcols.
  rewrite List.Forall_forall in Hhas. simpl in Hin.
  destruct Hin as [<- | [<- | [<- | [<- | []]]]].
  - apply add_col_mono, add_col_self.
  - apply add_col_mono, add_col_mono, add_col_mono. apply Hhas. simpl. tauto.
  - apply add_col_mono, add_col_mono, add_col_mono. apply Hhas. simpl. tauto.
  - apply add_col_self.
Qed.

Lemma clean_products_has_col df out log c :
  clean_products df = Ok (out, log) -> In c product_inputs -> has_col c out = true.
Proof.
  intros H Hin. apply clean_products_Ok in H as (n & Hn & -> & _).
  apply normalize_products_rows in Hn as (Hcols & Hhas & _).
  unfold has_col in *. cbn [columns]. rewrite Hcols.
  exact (proj1 (List.Forall_forall _ _) Hhas c Hin).
Qed.

(** What becomes of the cleaned orders on the way to the file: analytics
    adds the month column, the last step of main prints the timestamp. *)
Lemma written_orders o s l4 o' c p :
  (forall r, In r (rows o) -> order_row r) ->
  rows o <> [] ->
  analytics (mkFrames c p o) = Ok (s, l4) ->
  transform "order_timestamp"
    (fun v => match v with
              | Time t => Ok (Str (strftime_iso t))
              | _ => Ok NaN
              end) (ords s) = Ok o' ->
  cust s = c /\ prod s = p
  /\ columns o' = add_col "month" (columns o)
  /\ Forall2 (fun r r' =>
                exists t, row_get "order_timestamp" r = Time t
                          /\ r' = row_set "order_timestamp" (Str (strftime_iso t))
                                    (row_set "month" (Int (to_period_M t)) r))
             (rows o) (rows o').
Proof.
  intros Hrows Hne Hs Ho'.
  apply analytics_ords in Hs as (Hc & Hp & Hm). cbn [cust prod ords] in *.
  split; [exact Hc|]. split; [exact Hp|].
  assert (Hany : existsb (fun r => negb (isna (row_get "order_timestamp" r))) (rows o) = true).
  { destruct (rows o) as [|r l] eqn:E; [contradiction|].
    simpl. destruct (Hrows r) as (_ & _ & _ & _ & (t & ->) & _);
      [first [now left | rewrite E; now left]|].
    reflexivity. }
  specialize (Hm Hany). apply assign_Ok in Hm as [Cm Fm].
  apply transform_Ok in Ho' as (_ & Co & Fo).
  split; [congruence|].
  apply Forall2_same_length_lookup_2.
  { apply Forall2_length in Fm, Fo. congruence. }
  intros i r r2 Hr Hr2.
  destruct (Forall2_lookup_l _ _ _ _ _ Fm Hr) as (r1 & Hr1 & m & Hmv & ->).
  destruct (Forall2_lookup_l _ _ _ _ _ Fo Hr1) as (r2' & Hr2' & w & Hw & ->).
  rewrite Hr2 in Hr2'. injection Hr2' as Hr2'. subst r2.
  destruct (Hrows r) as (_ & _ & _ & _ & (t & Ht) & _).
  { apply list_elem_of_In. eapply list_elem_of_lookup_2, Hr. }
  exists t. split; [exact Ht|].
  rewrite Ht in Hmv. simpl in Hmv. injection Hmv as <-.
  rewrite row_get_set_ne, Ht in Hw by discriminate. injection Hw as <-. reflexivity.
Qed.

End Main.

Section MainTheorems.
Context `{L : Lib}.

Lemma clean_orders_nonempty df vc vp pm now out log :
  clean_orders df vc vp pm now = Ok (out, log) -> rows out <> [].
Proof.
  intros H. apply clean_orders_Ok in H as (n & filled & _ & Hne & Hf & -> & _).
  cbn [rows]. apply keep_first_nonempty. intros E.
  pose proof (sort_rows_length "order_timestamp" filled) as Hl. rewrite E in Hl.
  apply Forall2_length in Hf.
  destruct (List.filter _ (rows n)); [contradiction | simpl in *; lia].
Qed.

Lemma main_analytics c p o rp l2 ro vc vp pm now l3 :
  clean_products rp = Ok (p, l2) ->
  clean_orders ro vc vp pm now = Ok (o, l3) ->
  exists s l4, analytics (mkFrames c p o) = Ok (s, l4).
Proof.
  intros Hp Ho. apply (proj1 (analytics_runs (mkFrames c p o))); cbn [prod ords].
  - repeat constructor; eapply clean_products_has_col; eauto;
      unfold product_inputs; simpl; tauto.
  - repeat constructor; eapply clean_orders_has_col; eauto; simpl; tauto.
  - intros r Hr. destruct (clean_products_shape _ _ _ Hp r Hr) as ((z & Hz) & _).
    right. eauto.
  - eapply clean_orders_shape, Ho.
Qed.

(** Once the three cleaners have returned, main returns: analytics and the
    last step cannot fail on cleaned tables.  The customers and products
    files are what the cleaners returned.  The orders file is what
    clean_orders returned with two changes: it has the month column that
    analytics added, and its timestamps are printed as text. *)
Theorem main_returns (raw_cust raw_prod raw_ord : DataFrame) (now : Z)
    (c p o : DataFrame) (l1 l2 l3 : list output) :
  clean_customers raw_cust = Ok (c, l1) ->
  clean_products raw_prod = Ok (p, l2) ->
  clean_orders raw_ord (id_set "customer_id" c) (id_set "product_id" p) (price_dict p) now
  = Ok (o, l3) ->
  exists o' l4,
    main raw_cust raw_prod raw_ord now = Ok (mkFiles c p o', (l1 ++ l2 ++ l3 ++ l4)%list)
    /\ columns o' = add_col "month" (columns o)
    /\ Forall2 (fun r r' =>
                  exists t, row_get "order_timestamp" r = Time t
                            /\ r' = row_set "order_timestamp" (Str (strftime_iso t))
                                      (row_set "month" (Int (to_period_M t)) r))
               (rows o) (rows o').
Proof.
  intros Hc Hp Ho.
  destruct (main_analytics c p o _ _ _ _ _ _ _ _ Hp Ho) as (s & l4 & Hs).
  pose proof (clean_orders_shape _ _ _ _ _ _ _ Ho) as Hrows.
  pose proof (clean_orders_nonempty _ _ _ _ _ _ _ Ho) as Hne.
  assert (Hts : has_col "order_timestamp" (ords s) = true).
  { pose proof (analytics_ords _ _ _ Hs) as (_ & _ & Hm). cbn [ords] in Hm.
    assert (Hany : existsb (fun r => negb (isna (row_get "order_timestamp" r))) (rows o) = true).
    { destruct (rows o) as [|r l] eqn:E; [contradiction|].
      simpl. destruct (Hrows r) as (_ & _ & _ & _ & (t & ->) & _);
        [first [now left | rewrite E; now left]|].
      reflexivity. }
    specialize (Hm Hany). apply assign_Ok in Hm as [Cm _].
    eapply has_col_add; [exact Cm|].
    eapply clean_orders_has_col; [exact Ho | simpl; tauto]. }
  destruct (transform_total "order_timestamp"
              (fun v => match v with
                        | Time t => Ok (Str (strftime_iso t))
                        | _ => Ok NaN
                        end) (ords s) Hts) as (o' & Ho').
  { intros r _. destruct (row_get "order_timestamp" r); eauto. }
  exists o', l4.
  destruct (written_orders o s l4 o' c p Hrows Hne Hs Ho') as (_ & _ & Hcols & Hf).
  split; [|split; assumption].
  unfold main. rewrite Hc. cbn [mbind res_bind]. rewrite Hp. cbn [mbind res_bind].
  rewrite Ho. cbn [mbind res_bind]. rewrite Hs. cbn [mbind res_bind].
  rewrite Ho'. reflexivity.
Qed.

Lemma main_files raw_cust raw_prod raw_ord now fs log :
  main raw_cust raw_prod raw_ord now = Ok (fs, log) ->
  exists c p o l1 l2 l3,
    clean_customers raw_cust = Ok (c, l1)
    /\ clean_products raw_prod = Ok (p, l2)
    /\ clean_orders raw_ord (id_set "customer_id" c) (id_set "product_id" p) (price_dict p) now
       = Ok (o, l3)
    /\ clean_customers_csv fs = c
    /\ clean_products_csv fs = p
    /\ Forall2 (fun r r' =>
                  exists t, row_get "order_timestamp" r = Time t
                            /\ r' = row_set "order_timestamp" (Str (strftime_iso t))
                                      (row_set "month" (Int (to_period_M t)) r))
               (rows o) (rows (clean_orders_csv fs)).
Proof.
  intros H. apply main_Ok in H as (c & p & o & l1 & l2 & l3 & s & l4 & o' & Hc & Hp & Ho
                                   & Hs & Ho' & -> & _).
  exists c, p, o, l1, l2, l3. cbn [clean_customers_csv clean_products_csv clean_orders_csv].
  repeat split; try assumption.
  eapply written_orders; eauto.
  - eapply clean_orders_shape, Ho.
  - eapply clean_orders_nonempty, Ho.
Qed.

(** Referential integrity of the files main writes: every order in the
    orders file names a customer that is in the customers file and a
    product that is in the products file. *)
Theorem main_referential_integrity (raw_cust raw_prod raw_ord : DataFrame) (now : Z)
    (fs : files) (log : list output) :
  main raw_cust raw_prod raw_ord now = Ok (fs, log) ->
  forall r, In r (rows (clean_orders_csv fs)) ->
    exists c p,
      row_get "customer_id" r = Int c
      /\ row_get "product_id" r = Int p
      /\ (exists rc, In rc (rows (clean_customers_csv fs)) /\ row_get "customer_id" rc = Int c)
      /\ (exists rp, In rp (rows (clean_products_csv fs)) /\ row_get "product_id" rp = Int p).
Proof.
  intros H r Hr.
  apply main_files in H as (c & p & o & l1 & l2 & l3 & _ & _ & Ho & Ec & Ep & Hf).
  rewrite Ec, Ep.
  destruct (Forall2_In_r _ _ _ _ Hf Hr) as (r0 & Hr0 & t & _ & ->).
  destruct (clean_orders_rows _ _ _ _ _ _ _ _ Ho Hr0) as (raw & rn & _ & _ & Hv & v & _ & ->).
  unfold references_valid in Hv. apply andb_true_iff in Hv as [Hcu Hpr].
  apply isin_true in Hcu as (ci & Hci & Hcin). apply isin_true in Hpr as (pi & Hpi & Hpin).
  exists ci, pi. rewrite !row_get_set_ne by discriminate.
  split; [exact Hci|]. split; [exact Hpi|].
  split; [now apply id_set_spec | now apply id_set_spec].
Qed.


End MainTheorems.


Lemma main_returns_witness :
  exists c p o l1 l2 l3,
    clean_customers (L := RefLib) Sample.customers = Ok (c, l1)
    /\ clean_products (L := RefLib) Sample.products = Ok (p, l2)
    /\ clean_orders (L := RefLib) Sample.orders (id_set "customer_id" c)
                    (id_set "product_id" p) (price_dict p) Sample.now = Ok (o, l3)
    /\ exists o' l4,
         main (L := RefLib) Sample.customers Sample.products Sample.orders Sample.now
         = Ok (mkFiles c p o', (l1 ++ l2 ++ l3 ++ l4)%list)
         /\ columns o' = add_col "month" (columns o)
         /\ Forall2 (fun r r' =>
                       exists t, row_get "order_timestamp" r = Time t
                                 /\ r' = row_set "order_timestamp"
                                           (Str (strftime_iso (Lib := RefLib) t))
                                           (row_set "month"
                                                    (Int (to_period_M (Lib := RefLib) t)) r))
                    (rows o) (rows o').
Proof.
  eexists _, _, _, _, _, _.
  split; [vm_compute; reflexivity|]. split; [vm_compute; reflexivity|].
  split; [vm_compute; reflexivity|].
  eapply (main_returns (L := RefLib) Sample.customers Sample.products Sample.orders Sample.now);
    vm_compute; reflexivity.
Defined.

Lemma main_referential_integrity_witness :
  exists fs log,
    main (L := RefLib) Sample.customers Sample.products Sample.orders Sample.now = Ok (fs, log)
    /\ forall r, In r (rows (clean_orders_csv fs)) ->
         exists c p,
           row_get "customer_id" r = Int c
           /\ row_get "product_id" r = Int p
           /\ (exists rc, In rc (rows (clean_customers_csv fs))
                          /\ row_get "customer_id" rc = Int c)
           /\ (exists rp, In rp (rows (clean_products_csv fs))
                          /\ row_get "product_id" rp = Int p).
Proof.
  eexists _, _. split; [vm_compute; reflexivity|].
  eapply (main_referential_integrity (L := RefLib) Sample.customers Sample.products
            Sample.orders Sample.now).
  vm_compute. reflexivity.
Defined.


(** * The generator *)

Section Runs.
Import Generator.
Context `{E : Env}.

Lemma bind_Done {A B} (m : gen A) (f : A -> gen B) w b w' :
  bind m f w = Done (b, w') -> exists a w1, m w = Done (a, w1) /\ f a w1 = Done (b, w').
Proof. unfold bind. destruct (m w) as [[a w1]|e]; [eauto | discriminate]. Qed.

Lemma bind_Fail {A B} (m : gen A) (f : A -> gen B) w e :
  bind m f w = Fail e ->
  m w = Fail e \/ exists a w1, m w = Done (a, w1) /\ f a w1 = Fail e.
Proof. unfold bind. destruct (m w) as [[a w1]|e']; [eauto | intros [= <-]; now left]. Qed.

Lemma bind_run {A B} (m : gen A) (f : A -> gen B) w a w1 :
  m w = Done (a, w1) -> bind m f w = f a w1.
Proof. unfold bind. now intros ->. Qed.

Lemma draw_Done {A} (f : rng -> A * rng) w a w' :
  draw f w = Done (a, w') ->
  a = fst (f (rand w)) /\ w' = mkWorld (snd (f (rand w))) (fake w) (clock w).
Proof. unfold draw. destruct (f (rand w)). now intros [= <- <-]. Qed.



Lemma item_Done {A} (l : list A) i w x w' :
  item l i w = Done (x, w') -> l !! i = Some x /\ w' = w.
Proof. unfold item. destruct (l !! i); [now intros [= <- <-] | discriminate]. Qed.


Lemma for_each_Done {A B} (f : A -> gen B) l w ys w' :
  for_each f l w = Done (ys, w') ->
  Forall2 (fun x y => exists w1 w2, f x w1 = Done (y, w2)) l ys.
Proof.
  revert w ys w'. induction l as [|x l IH]; intros w ys w' H; simpl in H.
  - injection H as <- _. constructor.
  - apply bind_Done in H as (y & w1 & Hy & H).
    apply bind_Done in H as (ys' & w2 & Hys & H). injection H as <- _.
    constructor; [exists w, w1; exact Hy | eapply IH, Hys].
Qed.





Lemma range1_length n : List.length (range1 n) = Z.to_nat n.
Proof. unfold range1. now rewrite length_map, length_seq. Qed.

End Runs.

Section GeneratorProps.
Import Generator.
Context `{E : Env}.

Hypothesis randint_range : forall a b g, a <= b -> a <= fst (randint a b g) <= b.
Hypothesis choice_index_range :
  forall n g, (0 < n)%nat -> (fst (choice_index n g) < n)%nat.
Hypothesis choices_index_range :
  forall ws g, ws <> [] -> (fst (choices_index ws g) < List.length ws)%nat.

Lemma random_randint_Done a b w x w' :
  random_randint a b w = Done (x, w') -> a <= x <= b.
Proof.
  unfold random_randint. destruct (a <=? b) eqn:Eab; [|discriminate].
  intros H. apply draw_Done in H as [-> _]. apply randint_range. lia.
Qed.


Lemma random_choice_Done {A} (l : list A) w x w' :
  random_choice l w = Done (x, w') -> In x l.
Proof.
  unfold random_choice. destruct l as [|y l]; [discriminate|].
  intros H. apply bind_Done in H as (i & w1 & _ & H).
  apply item_Done in H as [H _]. apply list_elem_of_In. eapply list_elem_of_lookup_2, H.
Qed.


Lemma random_choices_first_Done {A} (l : list A) ws w x w' :
  random_choices_first l ws w = Done (x, w') -> In x l.
Proof.
  unfold random_choices_first. destruct l as [|y l]; [discriminate|].
  intros H. apply bind_Done in H as (i & w1 & _ & H).
  apply item_Done in H as [H _]. apply list_elem_of_In. eapply list_elem_of_lookup_2, H.
Qed.




Lemma product_of_Some ps pid p :
  product_of ps pid = Some p -> In p ps /\ Product.product_id p = pid.
Proof.
  unfold product_of. intros H. apply find_some in H as [Hin Hid].
  split; [now apply in_rev | now apply Z.eqb_eq].
Qed.


Lemma foldl_max_spec (x : Z) (l : list Z) :
  In (foldl Z.max x l) (x :: l) /\ forall y, In y (x :: l) -> y <= foldl Z.max x l.
Proof.
  revert x. induction l as [|z l IH]; intros x; simpl.
  - split; [now left | intros y [<- | []]; lia].
  - destruct (IH (Z.max x z)) as [Hin Hle]. split.
    + destruct Hin as [Hm | Hin]; [|auto].
      rewrite <- Hm. destruct (Z.max_spec x z) as [[_ ->] | [_ ->]]; auto.
    + intros y [<- | [<- | Hy]].
      * etransitivity; [|apply Hle; now left]. lia.
      * etransitivity; [|apply Hle; now left]. lia.
      * apply Hle. now right.
Qed.

Lemma make_order_Done ps mx inc i w o w' :
  make_order ps mx inc i w = Done (o, w') ->
  Order.order_id o = i
  /\ (exists p, In p ps /\ Product.product_id p = Order.product_id o
                /\ Order.order_value o
                   = if (inc : bool)
                     then Some (round2_mul (Product.price p) (Order.quantity o)) else None)
  /\ 1 <= Order.quantity o <= 5
  /\ 1 <= Order.customer_id o <= mx
  /\ In (Order.payment_method o) payment_methods
  /\ In (Order.status o) statuses
  /\ exists ts, Order.order_timestamp o = ts ++ "Z".
Proof.
  unfold make_order. intros H.
  apply bind_Done in H as (pid & w1 & Hpid & H).
  apply bind_Done in H as (qty & w2 & Hqty & H).
  apply bind_Done in H as (p & w3 & Hp & H).
  apply bind_Done in H as (cid & w4 & Hcid & H).
  apply bind_Done in H as (ts & w5 & _ & H).
  apply bind_Done in H as (pm & w6 & Hpm & H).
  apply bind_Done in H as (st & w7 & Hst & H).
  apply bind_Done in H as (city & w8 & _ & H).
  injection H as <- _.
  cbn [Order.order_id Order.customer_id Order.product_id Order.quantity Order.order_timestamp
       Order.payment_method Order.status Order.shipping_city Order.order_value].
  destruct (product_of ps pid) as [p'|] eqn:Ep; [|discriminate].
  injection Hp as -> _. apply product_of_Some in Ep as [Hin Hid].
  split; [reflexivity|]. split; [eauto|].
  split; [eapply random_randint_Done, Hqty|].
  split; [eapply random_randint_Done, Hcid|].
  split; [eapply random_choice_Done, Hpm|].
  split; [eapply random_choices_first_Done, Hst | eauto].
Qed.


Lemma generate_orders_Done (num_orders : Z) (customers : list Customer.t)
    (products : list Product.t) (seed : option Z) (include_order_value : bool)
    (w w' : world) (orders : list Order.t) :
  generate_orders num_orders (Some customers) (Some products) seed include_order_value w
  = Done (orders, w') ->
  map Order.order_id orders = range1 num_orders
  /\ forall o, In o orders ->
       (exists p, In p products /\ Product.product_id p = Order.product_id o
                  /\ Order.order_value o
                     = if include_order_value
                       then Some (round2_mul (Product.price p) (Order.quantity o)) else None)
       /\ 1 <= Order.quantity o <= 5
       /\ 1 <= Order.customer_id o
       /\ (exists c, In c customers /\ Order.customer_id o <= Customer.customer_id c)
       /\ In (Order.payment_method o) payment_methods
       /\ In (Order.status o) statuses
       /\ exists ts, Order.order_timestamp o = ts ++ "Z".
Proof.
  unfold generate_orders. intros H.
  apply bind_Done in H as (u & w1 & _ & H).
  apply bind_Done in H as (mx & w2 & Hmx & H).
  apply for_each_Done in H.
  assert (Hmax : exists c, In c customers /\ Customer.customer_id c = mx).
  { unfold py_max in Hmx. destruct (map Customer.customer_id customers) as [|x l] eqn:El;
      [discriminate|].
    injection Hmx as <- _. destruct (foldl_max_spec x l) as [Hin _].
    rewrite <- El in Hin. apply in_map_iff in Hin as (c & Hc & Hin). eauto. }
  split.
  - clear Hmax Hmx. induction H as [|i o l os (wa & wb & Ho) _ IH]; [reflexivity|].
    apply make_order_Done in Ho as (Hid & _). simpl. now rewrite Hid, IH.
  - intros o Ho. destruct (Forall2_In_r _ _ _ _ H Ho) as (i & _ & wa & wb & Hrun).
    apply make_order_Done in Hrun as (_ & Hp & Hq & [Hc1 Hc2] & Hpm & Hst & Hts).
    destruct Hmax as (c & Hc & Hcid).
    repeat split; try assumption; try lia.
    exists c. split; [exact Hc | lia].
Qed.

(** generate_orders on any lists of customers and products: the orders are
    numbered 1 to num_orders; each order names a product of the list and
    carries that product's price times the quantity, rounded; the quantity
    lies between 1 and 5; the customer id lies between 1 and the largest
    customer id of the list, so it is the id of a customer of the list
    only when the ids have no gap; payment method and status come from the
    fixed lists and the timestamp ends in Z. *)
Theorem generate_orders_valid (num_orders : Z) (customers : list Customer.t)
    (products : list Product.t) (seed : option Z) (include_order_value : bool)
    (w w' : world) (orders : list Order.t) :
  generate_orders num_orders (Some customers) (Some products) seed include_order_value w
  = Done (orders, w') ->
  map Order.order_id orders = range1 num_orders
  /\ forall o, In o orders ->
       (exists p, In p products /\ Product.product_id p = Order.product_id o
                  /\ Order.order_value o
                     = if include_order_value
                       then Some (round2_mul (Product.price p) (Order.quantity o)) else None)
       /\ 1 <= Order.quantity o <= 5
       /\ 1 <= Order.customer_id o
       /\ (exists c, In c customers /\ Order.customer_id o <= Customer.customer_id c)
       /\ In (Order.payment_method o) payment_methods
       /\ In (Order.status o) statuses
       /\ exists ts, Order.order_timestamp o = ts ++ "Z".
Proof.
  exact (generate_orders_Done num_orders customers products seed include_order_value w w' orders).
Qed.

Hypothesis sample_indices_range :
  forall n k g, (k <= n)%nat ->
    List.length (fst (sample_indices n k g)) = k
    /\ Forall (fun i => (i < n)%nat) (fst (sample_indices n k g))
    /\ List.NoDup (fst (sample_indices n k g)).








Lemma flat_names cn :
  In cn flat -> lstrip_by is_space (snd cn) = snd cn /\ snd cn <> "".
Proof.
  assert (H : forallb (fun cn => String.eqb (lstrip_by is_space (snd cn)) (snd cn)
                                 && negb (String.eqb (snd cn) "")) flat = true)
    by (vm_compute; reflexivity).
  rewrite forallb_forall in H. intros Hin. specialize (H cn Hin).
  apply andb_true_iff in H as [H1 H2]. apply String.eqb_eq in H1.
  apply negb_true_iff, String.eqb_neq in H2. auto.
Qed.

Lemma first_token_run name w :
  lstrip_by is_space name = name -> name <> "" ->
  first_token name w = Done (until_space name, w).
Proof.
  intros H1 H2. unfold first_token. rewrite H1. destruct name; [contradiction | reflexivity].
Qed.


Lemma products_loop_Done pid chosen w ps w' :
  (forall cn, In cn chosen -> In cn flat) ->
  products_loop pid chosen w = Done (ps, w') ->
  map Product.product_id ps = map (fun k => pid + Z.of_nat k) (seq 0 (List.length chosen))
  /\ Forall2 (fun cn p => Product.category p = fst cn
                          /\ Product.product_name p = snd cn
                          /\ Product.brand p = until_space (snd cn)
                          /\ 5 <= Product.stock_quantity p <= 500) chosen ps.
Proof.
  revert pid w ps w'. induction chosen as [|[cat name] chosen IH]; intros pid w ps w' Hin H;
    simpl in H.
  - injection H as <- _. split; [reflexivity | constructor].
  - destruct (flat_names (cat, name) (Hin _ (or_introl eq_refl))) as [H1 H2]. simpl in H1, H2.
    rewrite (bind_run _ _ _ _ _ (first_token_run name w H1 H2)) in H.
    apply bind_Done in H as (pr & w1 & _ & H).
    apply bind_Done in H as (st & w2 & Hst & H).
    apply bind_Done in H as (rest & w3 & Hrest & H).
    injection H as <- _.
    destruct (IH _ _ _ _ (fun cn Hcn => Hin cn (or_intror Hcn)) Hrest) as [Hids Hall].
    apply random_randint_Done in Hst.
    split.
    + simpl. rewrite Hids. f_equal; [lia|].
      rewrite <- seq_shift, map_map. apply map_ext. intros k. lia.
    + constructor; [|exact Hall]. simpl. auto.
Qed.

Lemma range1_shift n :
  map (fun k => 1 + Z.of_nat k) (seq 0 (Z.to_nat n)) = range1 n.
Proof.
  unfold range1. rewrite <- seq_shift, map_map. apply map_ext. intros k. lia.
Qed.

Lemma flat_length : List.length flat = 54%nat.
Proof. reflexivity. Qed.

Lemma flat_names_NoDup : List.NoDup (map snd flat).
Proof. apply NoDup_ListNoDup. apply (bool_decide_unpack _). vm_compute. exact I. Qed.

Lemma picked_NoDup (idxs : list nat) (chosen : list (string * string)) :
  List.NoDup idxs ->
  Forall2 (fun i x => flat !! i = Some x) idxs chosen ->
  List.NoDup (map snd chosen).
Proof.
  intros Hnd H. induction H as [|i x idxs chosen Hx H IH]; simpl; [constructor|].
  inversion Hnd as [|? ? Hi Hnd']; subst. constructor; [|now apply IH].
  intros Hin. apply in_map_iff in Hin as (y & Hy & Hin).
  destruct (Forall2_In_r _ _ _ _ H Hin) as (j & Hj & Hjy).
  assert (i = j); [|subst; contradiction].
  pose proof flat_names_NoDup as Hflat. apply NoDup_ListNoDup in Hflat.
  eapply (NoDup_lookup (map snd flat)); [exact Hflat| |].
  - rewrite list_lookup_fmap, Hx. reflexivity.
  - rewrite list_lookup_fmap, Hjy. simpl. now rewrite Hy.
Qed.

Lemma for_each_item_Done {A} (l : list A) idxs w xs w' :
  for_each (item l) idxs w = Done (xs, w') ->
  Forall2 (fun i x => l !! i = Some x) idxs xs.
Proof.
  intros H. apply for_each_Done in H.
  eapply Forall2_impl; [exact H|]. intros i x (w1 & w2 & Hi). now apply item_Done in Hi.
Qed.

Lemma chosen_Done np w chosen w1 :
  (if Z.of_nat (List.length flat) <? np
   then for_each (fun _ => random_choice flat) (range1 np)
   else random_sample flat np) w = Done (chosen, w1) ->
  List.length chosen = Z.to_nat np
  /\ (forall cn, In cn chosen -> In cn flat)
  /\ (np <= 54 -> List.NoDup (map snd chosen)).
Proof.
  rewrite flat_length. destruct (Z.of_nat 54 <? np) eqn:Enp; intros H.
  - apply Z.ltb_lt in Enp. apply for_each_Done in H.
    split; [apply Forall2_length in H; rewrite <- H; apply range1_length|].
    split; [|lia].
    intros cn Hcn. destruct (Forall2_In_r _ _ _ _ H Hcn) as (i & _ & wa & wb & Hrun).
    eapply random_choice_Done, Hrun.
  - apply Z.ltb_ge in Enp. unfold random_sample in H. rewrite flat_length in H.
    destruct ((np <? 0) || (Z.of_nat 54 <? np)) eqn:Eg; [discriminate|].
    apply orb_false_iff in Eg as [Eg _]. apply Z.ltb_ge in Eg.
    apply bind_Done in H as (idxs & w2 & Hidx & H).
    apply draw_Done in Hidx as [-> _].
    destruct (sample_indices_range 54 (Z.to_nat np) (rand w) ltac:(lia)) as (Hlen & _ & Hnd).
    apply for_each_item_Done in H.
    split; [apply Forall2_length in H; congruence|]. split.
    + intros cn Hcn. destruct (Forall2_In_r _ _ _ _ H Hcn) as (i & _ & Hi).
      apply list_elem_of_In. eapply list_elem_of_lookup_2, Hi.
    + intros _. eapply picked_NoDup; eauto.
Qed.


Lemma generate_products_Done (num_products : Z) (seed : option Z) (w w' : world)
    (products : list Product.t) :
  generate_products num_products seed w = Done (products, w') ->
  map Product.product_id products = range1 num_products
  /\ (forall p, In p products ->
        In (Product.category p, Product.product_name p) flat
        /\ Product.brand p = until_space (Product.product_name p)
        /\ 5 <= Product.stock_quantity p <= 500)
  /\ (num_products <= 54 -> List.NoDup (map Product.product_name products)).
Proof.
  unfold generate_products. intros H.
  apply bind_Done in H as (u & w1 & _ & H).
  apply bind_Done in H as (chosen & w2 & Hch & H).
  apply chosen_Done in Hch as (Hlen & Hin & Hnd).
  apply (products_loop_Done _ _ _ _ _ Hin) in H as [Hids Hall].
  split; [rewrite Hids, Hlen; apply range1_shift|]. split.
  - intros p Hp. destruct (Forall2_In_r _ _ _ _ Hall Hp) as ([cat name] & Hcn & Hc & Hn & Hb & Hs).
    simpl in *. rewrite Hc, Hn. split; [now apply Hin|]. auto.
  - intros Hle. specialize (Hnd Hle).
    assert (Hnames : map Product.product_name products = map snd chosen).
    { clear -Hall. induction Hall as [|cn p l l' (_ & Hn & _) _ IH]; simpl; [reflexivity|].
      now rewrite Hn, IH. }
    now rewrite Hnames.
Qed.

(** generate_products returns products numbered 1 to num_products, each
    with a name and its category from the catalog, the first word of the
    name as brand and a stock between 5 and 500; up to the 54 entries of
    the catalog no name is used twice. *)
Theorem generate_products_catalog (num_products : Z) (seed : option Z) (w w' : world)
    (products : list Product.t) :
  generate_products num_products seed w = Done (products, w') ->
  map Product.product_id products = range1 num_products
  /\ (forall p, In p products ->
        In (Product.category p, Product.product_name p) flat
        /\ Product.brand p = until_space (Product.product_name p)
        /\ 5 <= Product.stock_quantity p <= 500)
  /\ (num_products <= 54 -> List.NoDup (map Product.product_name products)).
Proof. exact (generate_products_Done num_products seed w w' products). Qed.











(** ** The streaming loop with a seed *)

Lemma random_choice_rand {A} (l : list A) w x w' :
  random_choice l w = Done (x, w') ->
  l !! fst (choice_index (List.length l) (rand w)) = Some x
  /\ rand w' = snd (choice_index (List.length l) (rand w)).
Proof.
  unfold random_choice. destruct l as [|y l]; [discriminate|].
  intros H. apply bind_Done in H as (i & w1 & Hi & H).
  apply draw_Done in Hi as [-> ->]. apply item_Done in H as [H ->]. auto.
Qed.

Lemma random_choices_first_rand {A} (l : list A) ws w x w' :
  random_choices_first l ws w = Done (x, w') ->
  l !! fst (choices_index ws (rand w)) = Some x
  /\ rand w' = snd (choices_index ws (rand w)).
Proof.
  unfold random_choices_first. destruct l as [|y l]; [discriminate|].
  intros H. apply bind_Done in H as (i & w1 & Hi & H).
  apply draw_Done in Hi as [-> ->]. apply item_Done in H as [H ->]. auto.
Qed.

Lemma random_randint_rand a b w x w' :
  random_randint a b w = Done (x, w') ->
  x = fst (randint a b (rand w)) /\ rand w' = snd (randint a b (rand w)).
Proof.
  unfold random_randint. destruct (a <=? b); [|discriminate].
  intros H. apply draw_Done in H as [-> ->]. auto.
Qed.

(** Two runs of make_order from worlds with the same state of the random
    module agree on everything that module decides. *)
Lemma make_order_same ps mx inc i j wa wb oa ob wa' wb' :
  rand wa = rand wb ->
  make_order ps mx inc i wa = Done (oa, wa') ->
  make_order ps mx inc j wb = Done (ob, wb') ->
  Order.product_id oa = Order.product_id ob
  /\ Order.quantity oa = Order.quantity ob
  /\ Order.customer_id oa = Order.customer_id ob
  /\ Order.payment_method oa = Order.payment_method ob
  /\ Order.status oa = Order.status ob
  /\ Order.order_value oa = Order.order_value ob.
Proof.
  unfold make_order. intros Hr Ha Hb.
  apply bind_Done in Ha as (pid & a1 & Hpid & Ha). apply bind_Done in Hb as (pid' & b1 & Hpid' & Hb).
  apply random_choice_rand in Hpid as [Hp Hr1]. apply random_choice_rand in Hpid' as [Hp' Hr1'].
  rewrite Hr in Hp, Hr1. assert (pid' = pid) as -> by congruence.
  assert (Hr1e : rand a1 = rand b1) by congruence.
  apply bind_Done in Ha as (qty & a2 & Hq & Ha). apply bind_Done in Hb as (qty' & b2 & Hq' & Hb).
  apply random_randint_rand in Hq as [Hqv Hr2]. apply random_randint_rand in Hq' as [Hqv' Hr2'].
  rewrite Hr1e in Hqv, Hr2. assert (qty' = qty) as -> by congruence.
  assert (Hr2e : rand a2 = rand b2) by congruence.
  apply bind_Done in Ha as (p & a3 & Hpr & Ha). apply bind_Done in Hb as (p' & b3 & Hpr' & Hb).
  destruct (product_of ps pid) as [q|]; [|discriminate].
  injection Hpr as <- <-. injection Hpr' as <- <-.
  apply bind_Done in Ha as (cid & a4 & Hc & Ha). apply bind_Done in Hb as (cid' & b4 & Hc' & Hb).
  apply random_randint_rand in Hc as [Hcv Hr4]. apply random_randint_rand in Hc' as [Hcv' Hr4'].
  rewrite Hr2e in Hcv, Hr4. assert (cid' = cid) as -> by congruence.
  assert (Hr4e : rand a4 = rand b4) by congruence.
  apply bind_Done in Ha as (ts & a5 & Hts & Ha). apply bind_Done in Hb as (ts' & b5 & Hts' & Hb).
  unfold utcnow in Hts, Hts'. injection Hts as _ <-. injection Hts' as _ <-.
  apply bind_Done in Ha as (pm & a6 & Hpm & Ha). apply bind_Done in Hb as (pm' & b6 & Hpm' & Hb).
  apply random_choice_rand in Hpm as [Hm Hr6]. apply random_choice_rand in Hpm' as [Hm' Hr6'].
  cbn [rand] in Hm, Hm', Hr6, Hr6'. rewrite Hr4e in Hm, Hr6.
  assert (pm' = pm) as -> by congruence.
  assert (Hr6e : rand a6 = rand b6) by congruence.
  apply bind_Done in Ha as (st & a7 & Hst & Ha). apply bind_Done in Hb as (st' & b7 & Hst' & Hb).
  apply random_choices_first_rand in Hst as [Hs _].
  apply random_choices_first_rand in Hst' as [Hs' _].
  rewrite Hr6e in Hs. assert (st' = st) as -> by congruence.
  apply bind_Done in Ha as (ca & a8 & _ & Ha). apply bind_Done in Hb as (cb & b8 & _ & Hb).
  injection Ha as <- _. injection Hb as <- _. cbn. auto 10.
Qed.

Lemma stream_event_Done cid cs ps s w o w' :
  stream_event cid (Some cs) (Some ps) (Some s) w = Done (o, w') ->
  Order.order_id o = cid
  /\ exists mx w1 w2 o1,
       (forall w0, py_max (map Customer.customer_id cs) w0 = Done (mx, w0))
       /\ rand w1 = seed_rng s
       /\ make_order ps mx true 1 w1 = Done (o1, w2)
       /\ Order.product_id o = Order.product_id o1
       /\ Order.quantity o = Order.quantity o1
       /\ Order.customer_id o = Order.customer_id o1
       /\ Order.payment_method o = Order.payment_method o1
       /\ Order.status o = Order.status o1
       /\ Order.order_value o = Order.order_value o1.
Proof.
  unfold stream_event. intros H.
  apply bind_Done in H as (os & w1 & Hos & H).
  apply bind_Done in H as (o1 & w2 & Ho1 & H). injection H as <- _.
  split; [reflexivity|].
  unfold generate_orders in Hos.
  apply bind_Done in Hos as (u & wa & Hseed & Hos).
  apply bind_Done in Hos as (mx & wb & Hmx & Hos).
  unfold random_seed in Hseed. injection Hseed as _ <-.
  assert (Hpm : wb = mkWorld (seed_rng s) (fake w) (clock w)
                /\ forall w0, py_max (map Customer.customer_id cs) w0 = Done (mx, w0)).
  { unfold py_max in *. destruct (map Customer.customer_id cs); [discriminate|].
    unfold ret in *. injection Hmx as <- <-. auto. }
  destruct Hpm as [-> Hpm].
  change (range1 1) with [1] in Hos. simpl in Hos.
  apply bind_Done in Hos as (o2 & wc & Ho2 & Hos).
  injection Hos as <- <-. apply item_Done in Ho1 as [Ho1 _]. injection Ho1 as <-.
  exists mx, (mkWorld (seed_rng s) (fake w) (clock w)), wc, o2. cbn. auto 10.
Qed.

Lemma stream_turns_In n cid cs ps seed w os w' o :
  stream_turns n cid (Some cs) (Some ps) seed w = Done (os, w') -> In o os ->
  exists cid' w1 w2, stream_event cid' (Some cs) (Some ps) seed w1 = Done (o, w2).
Proof.
  revert cid w os w'. induction n as [|n IH]; intros cid w os w' H Hin; simpl in H.
  - injection H as <- _. destruct Hin.
  - apply bind_Done in H as (o1 & w1 & Ho1 & H).
    apply bind_Done in H as (rest & w2 & Hrest & H). injection H as <- _.
    destruct Hin as [<- | Hin]; [eauto | eapply IH; eauto].
Qed.

Lemma stream_turns_ids n cid cs ps s w os w' :
  stream_turns n cid (Some cs) (Some ps) (Some s) w = Done (os, w') ->
  map Order.order_id os = map (fun k => cid + Z.of_nat k) (seq 0 n).
Proof.
  revert cid w os w'. induction n as [|n IH]; intros cid w os w' H; simpl in H.
  - now injection H as <- _.
  - apply bind_Done in H as (o1 & w1 & Ho1 & H).
    apply bind_Done in H as (rest & w2 & Hrest & H). injection H as <- _.
    apply stream_event_Done in Ho1 as [Hid _]. apply IH in Hrest.
    simpl. rewrite Hid, Hrest. f_equal; [lia|].
    rewrite <- seq_shift, map_map. apply map_ext. intros k. lia.
Qed.

(** With a seed (main passes 42 unless --no-seed is given) the streaming
    loop re-seeds the random module in every turn, so every event it
    appends is the same order: the events carry consecutive order ids, and
    any two of them have the same product, quantity, customer, payment
    method, status and order value.  Only the id, the timestamp and the
    shipping city (which Faker draws) can differ. *)
Theorem stream_events_repeat (n : nat) (start_id : Z)
    (customers : option (list Customer.t)) (products : option (list Product.t))
    (s : Z) (w w' : world) (events : list Order.t) :
  stream_append_orders_loop n start_id customers products (Some s) w = Done (events, w') ->
  map Order.order_id events = map (fun k => start_id + Z.of_nat k) (seq 0 n)
  /\ forall o1 o2, In o1 events -> In o2 events ->
       Order.product_id o1 = Order.product_id o2
       /\ Order.quantity o1 = Order.quantity o2
       /\ Order.customer_id o1 = Order.customer_id o2
       /\ Order.payment_method o1 = Order.payment_method o2
       /\ Order.status o1 = Order.status o2
       /\ Order.order_value o1 = Order.order_value o2.
Proof.
  unfold stream_append_orders_loop.
  destruct customers as [cs|]; [|discriminate]. destruct products as [ps|]; [|discriminate].
  intros H. split; [eapply stream_turns_ids, H|].
  intros o1 o2 H1 H2.
  destruct (stream_turns_In _ _ _ _ _ _ _ _ _ H H1) as (c1 & wa & wa' & Ha).
  destruct (stream_turns_In _ _ _ _ _ _ _ _ _ H H2) as (c2 & wb & wb' & Hb).
  apply stream_event_Done in Ha as (_ & mxa & a1 & a2 & oa & Hxa & Hra & Hma & Ea).
  apply stream_event_Done in Hb as (_ & mxb & b1 & b2 & ob & Hxb & Hrb & Hmb & Eb).
  assert (mxa = mxb) as ->.
  { specialize (Hxa w). specialize (Hxb w). congruence. }
  destruct (make_order_same _ _ _ _ _ _ _ _ _ _ _ (eq_trans Hra (eq_sym Hrb)) Hma Hmb)
    as (F1 & F2 & F3 & F4 & F5 & F6).
  destruct Ea as (A1 & A2 & A3 & A4 & A5 & A6). destruct Eb as (B1 & B2 & B3 & B4 & B5 & B6).
  repeat split; congruence.
Qed.

End GeneratorProps.

(** The reference environment draws within the ranges asked for. *)

Lemma RefEnv_randint_range (a b : Z) (g : Generator.rng (Env := Generator.RefEnv)) :
  a <= b -> a <= fst (Generator.randint (Env := Generator.RefEnv) a b g) <= b.
Proof.
  intros H. simpl. pose proof (Z.mod_pos_bound g (b - a + 1) ltac:(lia)). lia.
Qed.



Lemma RefEnv_sample_indices_range (n k : nat) (g : Generator.rng (Env := Generator.RefEnv)) :
  (k <= n)%nat ->
  List.length (fst (Generator.sample_indices (Env := Generator.RefEnv) n k g)) = k
  /\ Forall (fun i => (i < n)%nat) (fst (Generator.sample_indices (Env := Generator.RefEnv) n k g))
  /\ List.NoDup (fst (Generator.sample_indices (Env := Generator.RefEnv) n k g)).
Proof.
  intros H. simpl. split; [apply length_seq|]. split; [|apply seq_NoDup].
  apply List.Forall_forall. intros i Hi. apply in_seq in Hi. lia.
Qed.

Lemma generate_orders_valid_witness :
  exists orders w',
    Generator.generate_orders (E := Generator.RefEnv) 3
      (Some [Generator.Customer.mk 1 "a" "a@x.in" "1" "Pune" "MH" "2024-01-01";
             Generator.Customer.mk 5 "b" "b@x.in" "2" "Pune" "MH" "2024-01-02"])
      (Some [Generator.Product.mk 1 "Usha Fan" "Home & Kitchen" "Usha" (FNum 129900 (-2)) 7])
      (Some 42) true (Generator.mkWorld (E := Generator.RefEnv) 0 0 0)
    = Generator.Done (orders, w')
    /\ map Generator.Order.order_id orders = [1; 2; 3]
    /\ forall o, In o orders -> 1 <= Generator.Order.quantity o <= 5.
Proof.
  eexists _, _. split; [vm_compute; reflexivity|].
  destruct (generate_orders_valid (E := Generator.RefEnv) RefEnv_randint_range 3
              [Generator.Customer.mk 1 "a" "a@x.in" "1" "Pune" "MH" "2024-01-01";
               Generator.Customer.mk 5 "b" "b@x.in" "2" "Pune" "MH" "2024-01-02"]
              [Generator.Product.mk 1 "Usha Fan" "Home & Kitchen" "Usha" (FNum 129900 (-2)) 7]
              (Some 42) true (Generator.mkWorld (E := Generator.RefEnv) 0 0 0) _ _
              ltac:(vm_compute; reflexivity)) as [Hids Hall].
  split; [exact Hids|]. intros o Ho. apply (Hall o Ho).
Defined.

Lemma generate_products_catalog_witness :
  exists products w',
    Generator.generate_products (E := Generator.RefEnv) 3 (Some 42)
      (Generator.mkWorld (E := Generator.RefEnv) 0 0 0) = Generator.Done (products, w')
    /\ map Generator.Product.product_id products = [1; 2; 3]
    /\ List.NoDup (map Generator.Product.product_name products).
Proof.
  eexists _, _. split; [vm_compute; reflexivity|].
  destruct (generate_products_catalog (E := Generator.RefEnv) RefEnv_randint_range
              RefEnv_sample_indices_range 3 (Some 42)
              (Generator.mkWorld (E := Generator.RefEnv) 0 0 0) _ _
              ltac:(vm_compute; reflexivity)) as (Hids & _ & Hnd).
  split; [exact Hids | apply Hnd; lia].
Defined.


Lemma stream_events_repeat_witness :
  exists events w',
    Generator.stream_append_orders_loop (E := Generator.RefEnv) 3 7
      (Some [Generator.Customer.mk 1 "a" "a@x.in" "1" "Pune" "MH" "2024-01-01"])
      (Some [Generator.Product.mk 1 "Usha Fan" "Home & Kitchen" "Usha" (FNum 129900 (-2)) 7;
             Generator.Product.mk 2 "Nivia Football" "Sports & Fitness" "Nivia"
                                  (FNum 59900 (-2)) 9])
      (Some 42) (Generator.mkWorld (E := Generator.RefEnv) 0 0 0)
    = Generator.Done (events, w')
    /\ map Generator.Order.order_id events = [7; 8; 9]
    /\ forall o1 o2, In o1 events -> In o2 events ->
         Generator.Order.product_id o1 = Generator.Order.product_id o2
         /\ Generator.Order.quantity o1 = Generator.Order.quantity o2
         /\ Generator.Order.customer_id o1 = Generator.Order.customer_id o2
         /\ Generator.Order.payment_method o1 = Generator.Order.payment_method o2
         /\ Generator.Order.status o1 = Generator.Order.status o2
         /\ Generator.Order.order_value o1 = Generator.Order.order_value o2.
Proof.
  eexists _, _. split; [vm_compute; reflexivity|].
  eapply (stream_events_repeat (E := Generator.RefEnv) 3 7
            (Some [Generator.Customer.mk 1 "a" "a@x.in" "1" "Pune" "MH" "2024-01-01"])
            (Some [Generator.Product.mk 1 "Usha Fan" "Home & Kitchen" "Usha" (FNum 129900 (-2)) 7;
                   Generator.Product.mk 2 "Nivia Football" "Sports & Fitness" "Nivia"
                                        (FNum 59900 (-2)) 9])
            42 (Generator.mkWorld (E := Generator.RefEnv) 0 0 0)).
  vm_compute. reflexivity.
Defined.
